(** * suricata-language-server: the language server core and the rule checker's
      diagnostics parser, embedded from [suricatals/langserver.py] and
      [suricatals/tests_rules.py].

    Conventions of the embedding.
    - A Python [str] is a list of 8-bit characters, the first 256 code
      points; case folding, white space and the classes of characters are
      Python's on these.
    - A global name that no statement of a module binds raises [NameError]
      where it is evaluated ([LS.unbound]); the methods of the objects the
      modules import ([SuricataFile], the syntax tree, [re], [json], [os])
      are parameters.
    - A Python [dict] whose iteration order can be observed is an association
      list kept in insertion order ([Py.dict_get], [Py.dict_set]); the Global
      Symbol Table, which the code only probes by key, is a [gmap].
    - A call that may raise returns a [Py.Res]; a method of the server is a
      state transformer over the server object ([LS.M]).
    - File objects live in a store addressed by references, so that two names
      for one object see each other's updates. *)

From Stdlib Require Import ZArith List String Ascii Bool Lia DecimalString.
From stdpp Require Import gmap strings list.
Import ListNotations.
Open Scope string_scope.
Open Scope list_scope.
Open Scope Z_scope.

Set Warnings "-register-all".

Abbreviation str := (list ascii).
Coercion list_ascii_of_string : string >-> list.

(* ===================================================================== *)
(** * Python values and builtins used by the two source files            *)
(* ===================================================================== *)
Module Py.

(** Exceptions, by class. *)
Inductive exn :=
| AttributeError | IndexError | KeyError | NameError | TypeError | ValueError
| ReferenceError | ReError.

(** The outcome of a call: a value, or a raised exception. *)
Inductive Res (A : Type) :=
| Ok (a : A)
| Raise (e : exn).
Arguments Ok {A} a.
Arguments Raise {A} e.

Definition bind {A B} (m : Res A) (k : A -> Res B) : Res B :=
  match m with
  | Ok a => k a
  | Raise e => Raise e
  end.

Declare Scope res_scope.
Delimit Scope res_scope with res.
Notation "x <- m ;; k" := (bind m (fun x => k))
  (at level 100, m at next level, right associativity) : res_scope.

(** ** Characters *)

Definition dq : ascii := "034"%char.   (* the double quote *)
Definition nl : ascii := "010"%char.   (* line feed *)

Definition code (c : ascii) : N := N_of_ascii c.

Definition is_upper (c : ascii) : bool := ((65 <=? code c) && (code c <=? 90))%N.
Definition is_lower (c : ascii) : bool := ((97 <=? code c) && (code c <=? 122))%N.
Definition is_digit (c : ascii) : bool := ((48 <=? code c) && (code c <=? 57))%N.

(** [str.isspace] on one character: tab, LF, VT, FF, CR, FS, GS, RS, US,
    space, NEL and the no-break space. *)
Definition is_space (c : ascii) : bool :=
  ((9 <=? code c) && (code c <=? 13) || (28 <=? code c) && (code c <=? 32)
   || (code c =? 133) || (code c =? 160))%N.

(** The capital letters above 127: 192 to 222, the multiplication sign
    (215) apart. *)
Definition is_upper_latin (c : ascii) : bool :=
  ((192 <=? code c) && (code c <=? 222) && negb (code c =? 215))%N.

(** [str.lower] on one character. *)
Definition lower_char (c : ascii) : ascii :=
  if is_upper c || is_upper_latin c then ascii_of_N (code c + 32) else c.

(** ** Strings *)

Definition lower (s : str) : str := map lower_char s.

Definition str_eqb (a b : str) : bool := bool_decide (a = b).

Fixpoint lstrip (s : str) : str :=
  match s with
  | c :: s' => if is_space c then lstrip s' else s
  | [] => []
  end.
Definition rstrip (s : str) : str := rev (lstrip (rev s)).
Definition strip (s : str) : str := rstrip (lstrip s).

Fixpoint startswith (p s : str) : bool :=
  match p, s with
  | [], _ => true
  | a :: p', b :: s' => bool_decide (a = b) && startswith p' s'
  | _ :: _, [] => false
  end.

(** [sub in s] for two strings. *)
Fixpoint contains (sub s : str) : bool :=
  startswith sub s ||
  match s with
  | [] => false
  | _ :: s' => contains sub s'
  end.

(** [s.find(sub)]: the first index at which [sub] starts, or -1. *)
Fixpoint find_from (sub s : str) (i : Z) : Z :=
  if startswith sub s then i
  else match s with
       | [] => -1
       | _ :: s' => find_from sub s' (i + 1)
       end.
Definition find (sub s : str) : Z := find_from sub s 0.

(** [s.count(sub)] for a non-empty [sub]: occurrences that do not overlap,
    counted from the left; [skip] is what is left of an occurrence just
    counted. *)
Fixpoint count_aux (sub : str) (skip : nat) (s : str) : Z :=
  match s with
  | [] => 0
  | _ :: s' =>
      match skip with
      | S k => count_aux sub k s'
      | O => if startswith sub s
             then 1 + count_aux sub (length sub - 1) s'
             else count_aux sub O s'
      end
  end.
Definition count (sub s : str) : Z := count_aux sub O s.

(** [s.split(sep)] for a non-empty [sep]; [cur] is the piece being read,
    reversed. *)
Fixpoint split_aux (sep : str) (skip : nat) (cur s : str) : list str :=
  match s with
  | [] => [rev cur]
  | c :: s' =>
      match skip with
      | S k => split_aux sep k cur s'
      | O => if startswith sep s
             then rev cur :: split_aux sep (length sep - 1) [] s'
             else split_aux sep O (c :: cur) s'
      end
  end.
Definition split (sep s : str) : list str := split_aux sep O [] s.

(** [s.rsplit(c, 1)] for a one-character separator: cut at the last [c]. *)
Fixpoint rsplit1_aux (c : ascii) (s : str) : option (str * str) :=
  match s with
  | [] => None
  | a :: s' =>
      match rsplit1_aux c s' with
      | Some (l, r) => Some (a :: l, r)
      | None => if bool_decide (a = c) then Some ([], s') else None
      end
  end.
Definition rsplit1 (c : ascii) (s : str) : list str :=
  match rsplit1_aux c s with
  | Some (l, r) => [l; r]
  | None => [s]
  end.

(** [l[i]] for a list and an index that may be negative. *)
Definition index {A} (l : list A) (i : Z) : Res A :=
  let j := if i <? 0 then i + Z.of_nat (length l) else i in
  if j <? 0 then Raise IndexError
  else match nth_error l (Z.to_nat j) with
       | Some x => Ok x
       | None => Raise IndexError
       end.

(** [s[lo:hi]], either bound negative or past the end. *)
Definition clamp (n : nat) (i : Z) : nat :=
  let j := if i <? 0 then i + Z.of_nat n else i in
  Z.to_nat (Z.min (Z.max j 0) (Z.of_nat n)).
Definition slice {A} (l : list A) (lo hi : Z) : list A :=
  let a := clamp (length l) lo in
  let b := clamp (length l) hi in
  firstn (b - a) (skipn a l).

(** Iterating over [io.StringIO(s)]: the lines of [s], each with its line
    feed; [cur] is the line being read, reversed. *)
Fixpoint lines_aux (cur s : str) : list str :=
  match s with
  | [] => match cur with [] => [] | _ => [rev cur] end
  | c :: s' =>
      if bool_decide (c = nl) then rev (c :: cur) :: lines_aux [] s'
      else lines_aux (c :: cur) s'
  end.
Definition iter_lines (s : str) : list str := lines_aux [] s.

(** [int(s)] for a run of decimal digits. *)
Definition int_of_digits (s : str) : Z :=
  fold_left (fun acc c => 10 * acc + (Z.of_N (code c) - 48)) s 0.

Fixpoint take_while {A} (p : A -> bool) (l : list A) : list A :=
  match l with
  | x :: l' => if p x then x :: take_while p l' else []
  | [] => []
  end.

(** ** Dictionaries in insertion order *)

Section Dict.
Context {V : Type}.

Fixpoint dict_get (d : list (str * V)) (k : str) : option V :=
  match d with
  | [] => None
  | (k', v) :: d' => if bool_decide (k' = k) then Some v else dict_get d' k
  end.

(** [d[k] = v]: replace in place, or append a new key. *)
Fixpoint dict_set (d : list (str * V)) (k : str) (v : V) : list (str * V) :=
  match d with
  | [] => [(k, v)]
  | (k', v') :: d' =>
      if bool_decide (k' = k) then (k, v) :: d' else (k', v') :: dict_set d' k v
  end.

Definition dict_has (d : list (str * V)) (k : str) : bool :=
  match dict_get d k with Some _ => true | None => false end.

End Dict.

End Py.

(* ===================================================================== *)
(** * tests_rules.py: parsing the rule checker's error stream             *)
(* ===================================================================== *)
Module Rules.
Import Py.
Local Open Scope res_scope.

(** A Python float read by [json.loads]: [m * 2^e], an infinity or a NaN. *)
Inductive pyfloat :=
| Finite (m e : Z)
| Infinity (negative : bool)
| NaN.

(** What [json.loads] returns, and what the parser stores in its result:
    [None], a [bool], an [int], a [float], a [str], a [list] or a [dict]. *)
Inductive json :=
| JNone
| JBool (b : bool)
| JInt (z : Z)
| JFloat (f : pyfloat)
| JStr (s : str)
| JList (l : list json)
| JDict (d : list (str * json)).

(** The two library calls whose result depends on text built at run time:
    [json.loads(line)] ([None] when it raises [JSONDecodeError]) and
    [re.search(pattern, string)] for a pattern that embeds a file name
    ([Raise] when the pattern does not compile). *)
Class Library := {
  json_loads : str -> option json;
  re_search : str -> json -> Res bool
}.

Definition VARIABLE_ERROR : Z := 101.
Definition OPENING_RULE_FILE : Z := 41.
Definition OPENING_DATASET_FILE : Z := 322.
Definition RULEFILE_ERRNO : list Z := [39; 42].
Definition USELESS_ERRNO : list Z := [40; 43; 44].
Definition SURICATA_SYNTAX_CHECK : str := "Suricata Syntax Check".

(** [v == n] for an integer constant [n]: an [int] compares by value, a
    [bool] as 0 or 1, a [float] when it is that integer exactly. *)
Definition float_eq_int (f : pyfloat) (n : Z) : bool :=
  match f with
  | Finite m e => if 0 <=? e then m * 2 ^ e =? n else m =? n * 2 ^ (- e)
  | _ => false
  end.
Definition eq_int (v : json) (n : Z) : bool :=
  match v with
  | JInt z => z =? n
  | JBool b => (if b then 1 else 0) =? n
  | JFloat f => float_eq_int f n
  | _ => false
  end.
(** [v in ns] for a list of integer constants. *)
Definition in_ints (v : json) (ns : list Z) : bool := existsb (eq_int v) ns.

(** [v[k]] for a string key. *)
Definition getitem (v : json) (k : str) : Res json :=
  match v with
  | JDict d => match dict_get d k with
               | Some x => Ok x
               | None => Raise KeyError
               end
  | _ => Raise TypeError
  end.

(** [v[k] = x] for a string key; the updated object. *)
Definition setitem (v : json) (k : str) (x : json) : Res json :=
  match v with
  | JDict d => Ok (JDict (dict_set d k x))
  | _ => Raise TypeError
  end.

(** [v.split(sep)]: only a [str] has the method. *)
Definition split_of (v : json) (sep : str) : Res (list str) :=
  match v with
  | JStr s => Ok (split sep s)
  | _ => Raise AttributeError
  end.

(** [needle in v] for a string [needle]: a substring of a [str], an element
    of a [list], a key of a [dict]; the other values are not containers. *)
Definition is_str (needle : str) (v : json) : bool :=
  match v with
  | JStr s => str_eqb s needle
  | _ => false
  end.
Definition str_in (needle : str) (v : json) : Res bool :=
  match v with
  | JStr s => Ok (contains needle s)
  | JList l => Ok (existsb (is_str needle) l)
  | JDict d => Ok (dict_has d needle)
  | _ => Raise TypeError
  end.

(** [re.match] of a pattern made of the text [pre], a group of any number
    of characters other than a colon, and the text [post]: the group is the
    longest such run after [pre] that [post] follows. *)
Fixpoint longest_before (post : str) (n : nat) (s : str) : option str :=
  if startswith post (skipn n s) then Some (firstn n s)
  else match n with
       | O => None
       | S k => longest_before post k s
       end.
Definition not_colon (c : ascii) : bool := negb (bool_decide (c = ":"%char)).
Definition match_group (pre post : str) (v : json) : Res (option str) :=
  match v with
  | JStr s =>
      if startswith pre s
      then let rest := skipn (length pre) s in
           Ok (longest_before post (length (take_while not_colon rest)) rest)
      else Ok None
  | _ => Raise TypeError
  end.

(** [re.compile(r"sid *:(\d+)").search(s)]: the group of the leftmost match. *)
Fixpoint lstrip_blanks (s : str) : str :=
  match s with
  | c :: s' => if bool_decide (c = " "%char) then lstrip_blanks s' else s
  | [] => []
  end.
Definition sid_at (s : str) : option str :=
  if startswith "sid" s
  then match lstrip_blanks (skipn 3 s) with
       | c :: s' =>
           if bool_decide (c = ":"%char)
           then match take_while is_digit s' with
                | [] => None
                | ds => Some ds
                end
           else None
       | [] => None
       end
  else None.
Fixpoint getsid_search (s : str) : option str :=
  match sid_at s with
  | Some ds => Some ds
  | None => match s with
            | [] => None
            | _ :: s' => getsid_search s'
            end
  end.

(** [re.compile(r"at line (\d+)$").search(s)]: the digits must reach the end
    of [s], or the line feed that ends it. *)
Definition at_end (s : str) : bool :=
  match s with
  | [] => true
  | [c] => bool_decide (c = nl)
  | _ => false
  end.
Definition line_at (s : str) : option str :=
  if startswith "at line " s
  then let rest := skipn 8 s in
       match take_while is_digit rest with
       | [] => None
       | ds => if at_end (skipn (length ds) rest) then Some ds else None
       end
  else None.
Fixpoint getline_search (s : str) : option str :=
  match line_at s with
  | Some ds => Some ds
  | None => match s with
            | [] => None
            | _ :: s' => getline_search s'
            end
  end.

(** The messages the parser writes. *)
Definition variable_message (variable : str) : str :=
  "Custom address variable " ++ [dq] ++ "$" ++ variable ++ [dq] ++
  " is used and need to be defined in probes configuration".
Definition dataset_message (datasource : str) : str :=
  "Dataset source " ++ [dq] ++ datasource ++ [dq] ++
  " is a dependancy and needs to be added to rulesets".
Definition file_message (filename : str) : str :=
  "External file " ++ [dq] ++ filename ++ [dq] ++
  " is a dependancy and needs to be added to rulesets".

(** The record appended when a line is not JSON. *)
Definition raw_record (error : str) : json :=
  JDict [("message" : str, JStr error); ("format" : str, JStr "raw");
         ("source" : str, JStr SURICATA_SYNTAX_CHECK)].

(** [ret]: the value returned. *)
Record result := { errors : list json; warnings : list json }.

(** The local variables of [parse_suricata_error] that outlive one line. *)
Record locals := {
  ret : result;
  variable_list : list str;
  files_list : list str;
  ignore_next : bool
}.

Definition init_locals : locals :=
  {| ret := {| errors := []; warnings := [] |};
     variable_list := []; files_list := []; ignore_next := false |}.

Definition add_error (st : locals) (e : json) : locals :=
  {| ret := {| errors := errors (ret st) ++ [e]; warnings := warnings (ret st) |};
     variable_list := variable_list st; files_list := files_list st;
     ignore_next := ignore_next st |}.
Definition add_warning (st : locals) (w : json) : locals :=
  {| ret := {| errors := errors (ret st); warnings := warnings (ret st) ++ [w] |};
     variable_list := variable_list st; files_list := files_list st;
     ignore_next := ignore_next st |}.
Definition add_variable (st : locals) (v : str) : locals :=
  {| ret := ret st; variable_list := variable_list st ++ [v];
     files_list := files_list st; ignore_next := ignore_next st |}.
Definition add_file (st : locals) (f : str) : locals :=
  {| ret := ret st; variable_list := variable_list st;
     files_list := files_list st ++ [f]; ignore_next := ignore_next st |}.
Definition set_ignore_next (st : locals) (b : bool) : locals :=
  {| ret := ret st; variable_list := variable_list st;
     files_list := files_list st; ignore_next := b |}.

(** [ret['errors'][-1]['line'] = n], for a non-empty list of errors. *)
Definition set_last_line (st : locals) (n : Z) : Res locals :=
  match rev (errors (ret st)) with
  | [] => Raise IndexError
  | last :: before =>
      last' <- setitem last "line" (JInt n) ;;
      Ok {| ret := {| errors := rev before ++ [last']; warnings := warnings (ret st) |};
            variable_list := variable_list st; files_list := files_list st;
            ignore_next := ignore_next st |}
  end.

(** [any(needle in msg for needle in needles)], left to right. *)
Fixpoint any_in (needles : list str) (msg : json) : Res bool :=
  match needles with
  | [] => Ok false
  | needle :: rest =>
      c <- str_in needle msg ;;
      if c then Ok true else any_in rest msg
  end.

(** The second loop of the search: a file name followed by a semicolon. *)
Fixpoint any_file `{Library} (files : list str) (msg : json) : Res bool :=
  match files with
  | [] => Ok false
  | filename :: rest =>
      c <- re_search (": *" ++ filename ++ " *;") msg ;;
      if c then Ok true else any_file rest msg
  end.

(** How the handling of one record ends: [continue], or on to the code
    below with the record as it now stands. *)
Inductive step :=
| Continue (st : locals)
| Below (eng : json) (st : locals).

(** [errno == self.VARIABLE_ERROR] (lines 183-189). *)
Definition on_variable_error (eng : json) (st : locals) : Res locals :=
  msg <- getitem eng "message" ;;
  parts <- split_of msg [dq] ;;
  variable <- index parts 1 ;;
  if negb (bool_decide (("$" ++ variable : str) ∈ variable_list st))
  then eng' <- setitem eng "message" (JStr (variable_message variable)) ;;
       Ok (add_warning (add_variable st ("$" ++ variable)) eng')
  else Ok st.

(** [errno == self.OPENING_DATASET_FILE] (lines 190-197). *)
Definition on_dataset_error (eng : json) (st : locals) : Res step :=
  msg <- getitem eng "message" ;;
  m <- match_group "fopen '" "' failed: No such file or directory" msg ;;
  match m with
  | Some datasource =>
      eng' <- setitem eng "message" (JStr (dataset_message datasource)) ;;
      Ok (Continue (set_ignore_next (add_warning st eng') true))
  | None => Ok (Below eng st)
  end.

(** [errno == self.OPENING_RULE_FILE] (lines 198-206). *)
Definition on_rule_file_error (eng : json) (st : locals) : Res step :=
  msg <- getitem eng "message" ;;
  m <- match_group "opening hash file " ": No such file or directory" msg ;;
  match m with
  | Some filename =>
      filename' <- index (rsplit1 "/"%char filename) 1 ;;
      eng' <- setitem eng "message" (JStr (file_message filename')) ;;
      Ok (Continue (add_warning (add_file st filename') eng'))
  | None => Ok (Below eng st)
  end.

(** [errno == 39] (lines 209-243). *)
Definition on_signature_error `{Library} (line : str) (eng : json) (st : locals)
  : Res step :=
  msg <- getitem eng "message" ;;
  dataset <- str_in "failed to set up dataset" msg ;;
  if dataset && ignore_next st then Ok (Continue st)
  else if ignore_next st then Ok (Continue (set_ignore_next st false))
  else
    in_variables <- any_in (variable_list st) msg ;;
    found <- (if in_variables then Ok true else any_file (files_list st) msg) ;;
    if found then Ok (Continue st)
    else
      parsing <- str_in "error parsing signature" msg ;;
      if parsing then
        parts <- split_of msg " from file" ;;
        short <- index parts 0 ;;
        eng1 <- setitem eng "message" (JStr short) ;;
        eng2 <- match getsid_search line with
                | Some ds => setitem eng1 "sid" (JInt (int_of_digits ds))
                | None => Ok eng1
                end ;;
        match msg with
        | JStr message =>
            match getline_search message with
            | Some ds =>
                let line_nb := int_of_digits ds in
                match errors (ret st) with
                | [] => Ok (Continue st)
                | _ :: _ => st' <- set_last_line st (line_nb - 1) ;; Ok (Continue st')
                end
            | None => Ok (Below eng2 st)
            end
        | _ => Raise TypeError
        end
      else Ok (Below eng st).

(** [errno not in self.USELESS_ERRNO] (lines 207-246). *)
Definition on_error `{Library} (line : str) (errno eng : json) (st : locals)
  : Res locals :=
  if in_ints errno USELESS_ERRNO then Ok st
  else
    s <- (if eq_int errno 39 then on_signature_error line eng st
          else Ok (Below eng st)) ;;
    match s with
    | Continue st' => Ok st'
    | Below eng1 st1 =>
        eng2 <- (if eq_int errno 42
                 then msg <- getitem eng1 "message" ;;
                      parts <- split_of msg " from" ;;
                      short <- index parts 0 ;;
                      setitem eng1 "message" (JStr short)
                 else Ok eng1) ;;
        Ok (add_error st1 eng2)
    end.

(** The body of the loop for a line that is JSON (lines 180-246). *)
Definition body `{Library} (single : bool) (line : str) (s_err : json) (st : locals)
  : Res locals :=
  eng0 <- getitem s_err "engine" ;;
  eng <- setitem eng0 "source" (JStr SURICATA_SYNTAX_CHECK) ;;
  errno <- getitem eng "error_code" ;;
  if negb single || negb (in_ints errno RULEFILE_ERRNO) then
    if eq_int errno VARIABLE_ERROR then on_variable_error eng st
    else
      s1 <- (if eq_int errno OPENING_DATASET_FILE then on_dataset_error eng st
             else Ok (Below eng st)) ;;
      match s1 with
      | Continue st1 => Ok st1
      | Below eng1 st1 =>
          s2 <- (if eq_int errno OPENING_RULE_FILE then on_rule_file_error eng1 st1
                 else Ok (Below eng1 st1)) ;;
          match s2 with
          | Continue st2 => Ok st2
          | Below eng2 st2 => on_error line errno eng2 st2
          end
      end
  else Ok st.

(** How the loop over the lines ends: every line read, or the early
    [return ret] of line 179. *)
Inductive flow :=
| Finished (st : locals)
| Returned (r : result).

(** [for line in error_stream: ...] (lines 174-246). *)
Fixpoint process_lines `{Library} (single : bool) (error : str) (lines : list str)
  (st : locals) : Res flow :=
  match lines with
  | [] => Ok (Finished st)
  | line :: rest =>
      match json_loads line with
      | None => Ok (Returned (ret (add_error st (raw_record error))))
      | Some s_err =>
          st' <- body single line s_err st ;;
          process_lines single error rest st'
      end
  end.

Definition parse_suricata_error `{Library} (error : str) (single : bool) : Res result :=
  r <- process_lines single error (iter_lines error) init_locals ;;
  match r with
  | Finished st => Ok (ret st)
  | Returned res => Ok res
  end.

(** The message of a record. *)
Definition message_of (record : json) : option json :=
  match record with
  | JDict d => dict_get d "message"
  | _ => None
  end.

(** The warnings that ask for the definition of [variable]. *)
Definition is_variable_warning (variable : str) (w : json) : bool :=
  match message_of w with
  | Some (JStr m) => str_eqb m (variable_message variable)
  | _ => false
  end.
Definition variable_warnings (variable : str) (ws : list json) : list json :=
  List.filter (is_variable_warning variable) ws.

(** A record of the engine with error code [n] and the text [message]. *)
Definition engine_record (s_err : json) (n : Z) (message : str) : Prop :=
  exists d e errno,
    s_err = JDict d /\ dict_get d "engine" = Some (JDict e) /\
    dict_get e "error_code" = Some errno /\ eq_int errno n = true /\
    dict_get e "message" = Some (JStr message).

(** What the handling of one record does to the warnings and to the
    collected variables: nothing; a new variable with its warning; or a
    warning about a data set or a file. *)
Definition step_effect (st st' : locals) : Prop :=
  (warnings (ret st') = warnings (ret st) /\ variable_list st' = variable_list st)
  \/ (exists u w,
        (("$" ++ u : str) ∉ variable_list st) /\
        variable_list st' = variable_list st ++ ["$" ++ u] /\
        warnings (ret st') = warnings (ret st) ++ [w] /\
        message_of w = Some (JStr (variable_message u)))
  \/ (exists w m,
        variable_list st' = variable_list st /\
        warnings (ret st') = warnings (ret st) ++ [w] /\
        message_of w = Some (JStr m) /\ forall v, m <> variable_message v).

(** [continue] with an effect of the three kinds, or on to the code below
    with nothing changed. *)
Definition step_ok (st : locals) (s : step) : Prop :=
  match s with
  | Continue st' => step_effect st st'
  | Below _ st' => st' = st
  end.

(** The invariant of the loop: a variable has one warning when it has been
    collected, and none before. *)
Definition once_per_variable (st : locals) : Prop :=
  forall v,
    length (variable_warnings v (warnings (ret st))) =
    if bool_decide (("$" ++ v : str) ∈ variable_list st) then 1%nat else 0%nat.

End Rules.

(* ===================================================================== *)
(** * langserver.py: the server object and its request handlers           *)
(* ===================================================================== *)
Module LS.
Import Py.

(** A reference to a file object. *)
Abbreviation loc := nat.

(** A symbol or scope of the syntax tree, as far as the server reads its
    attributes: [oid] stands for the object's identity ([is]),
    [file_ast_path] and [file_ast_file] for [file_ast.path] and
    [file_ast.file]. *)
Record Symbol := {
  oid : nat;
  name : str;
  FQSN : str;
  sline : Z;
  eline : Z;
  file_ast_path : str;
  file_ast_file : option loc
}.

(** One entry of a signature's parameter list. *)
Record Param := {
  label : str;
  documentation : option str
}.

(** [get_code_line(line, forward=False, ...)] reads backwards from the
    line, [get_code_line(line, backward=False, ...)] forwards. *)
Inductive direction := ReadBackward | ReadForward.

(** The syntax tree layer: the methods and attributes of the objects of
    [suricatals.parse_signatures], and the two functions the module imports
    from [suricatals.jsonrpc]; none of it is among the sources. *)
Class AstLayer := {
  AST : Type;
  Diagnostic : Type;
  global_dict : AST -> list (str * Symbol);
  get_inner_scope : AST -> Z -> option Symbol;
  get_type : Symbol -> bool -> Z;               (* get_type(no_link=...) *)
  parent : Symbol -> option Symbol;
  get_overriden : Symbol -> str -> list Symbol;
  link_obj : Symbol -> Res (option Symbol);
  get_signature : Symbol -> option str * option str * list Param;
  path_from_uri : str -> str;
  path_to_uri : str -> str
}.

Section Model.
Context `{AstLayer}.

(** A file object: its path, its lines, the fingerprint of its content and
    its syntax tree. *)
Record SuricataFile := {
  path : str;
  contents_split : list str;
  hash : option str;
  ast : option AST
}.

(** The file object's methods, the file system and the regular
    expressions, not among the sources either. A method that updates its
    object returns the object as it leaves it, also when it raises.
    [name_regex def_name] is
    [re.compile(r'(?:\W|^)({0})(?:\W|$)'.format(def_name), re.I)], which
    raises when the pattern is not a regular expression, and [finditer]
    gives the spans of group 1 of the matches [NAME_REGEX.finditer(line)]
    yields. *)
Class FileLayer := {
  new_file : str -> SuricataFile;                       (* SuricataFile(path, ...) *)
  load_from_disk : SuricataFile -> Res (option str) * SuricataFile;
  parse_file : SuricataFile -> Res unit * SuricataFile;
  check_file : SuricataFile -> gmap str (list Symbol) -> Res (list Diagnostic);
  exn_text : exn -> str;                                (* str(exception) *)
  get_code_line :
    SuricataFile -> Z -> direction -> bool -> list str * option str * list str;
  strip_comment : SuricataFile -> str -> str;
  isfile : str -> bool;                                 (* os.path.isfile *)
  listdir : str -> list str;                            (* os.listdir *)
  splitext_ext : str -> str;       (* os.path.splitext(os.path.basename(f))[1] *)
  normpath_join : str -> str -> str; (* os.path.normpath(os.path.join(d, f)) *)
  Regex : Type;
  name_regex : str -> Res Regex;
  finditer : Regex -> str -> list (nat * nat)
}.
Context `{FileLayer}.

(** What the server writes to its connection. *)
Inductive Message :=
| ShowMessage (type : Z) (message : str)
| PublishDiagnostics (uri : str) (diagnostics : list Diagnostic)
| WriteError (id code : Z) (message : str).

(** The server object: the attributes the handlers below read or write,
    the file objects its workspace refers to ([store], with the next free
    reference), and the messages written to [conn]. *)
Record LangServer := {
  workspace : list (str * loc);
  obj_tree : gmap str (list Symbol);
  post_messages : list (Z * str);
  source_dirs : list str;
  excl_paths : list str;
  excl_suffixes : list str;
  running : bool;
  store : gmap loc SuricataFile;
  next_loc : loc;
  conn : list Message
}.

(** A method: it may update the server object, and returns or raises. *)
Definition M (A : Type) : Type := LangServer -> Res A * LangServer.

Definition ret {A} (a : A) : M A := fun self => (Ok a, self).
Definition raise {A} (e : exn) : M A := fun self => (Raise e, self).
Definition mbind {A B} (m : M A) (k : A -> M B) : M B :=
  fun self =>
    match m self with
    | (Ok a, self') => k a self'
    | (Raise e, self') => (Raise e, self')
    end.
Definition lift {A} (r : Res A) : M A := fun self => (r, self).
Definition gets {A} (f : LangServer -> A) : M A := fun self => (Ok (f self), self).
Definition modify (f : LangServer -> LangServer) : M unit :=
  fun self => (Ok tt, f self).

(** [try: m except: handler]. *)
Definition try_except {A} (m : M A) (handler : M A) : M A :=
  fun self =>
    match m self with
    | (Ok a, self') => (Ok a, self')
    | (Raise _, self') => handler self'
    end.

Declare Scope ls_scope.
Delimit Scope ls_scope with ls.
Notation "x <- m ;; k" := (mbind m (fun x => k))
  (at level 100, m at next level, right associativity) : ls_scope.
Local Open Scope ls_scope.

(** [for a in l: b = f(b, a)]. *)
Fixpoint foldM {A B} (f : B -> A -> M B) (l : list A) (b : B) : M B :=
  match l with
  | [] => ret b
  | a :: l' => b' <- f b a ;; foldM f l' b'
  end.

(** ** The store of file objects *)

Definition deref (l : loc) : M SuricataFile :=
  fun self =>
    match store self !! l with
    | Some f => (Ok f, self)
    | None => (Raise ReferenceError, self)
    end.

Definition set_store (self : LangServer) (s : gmap loc SuricataFile) (n : loc)
  : LangServer :=
  {| workspace := workspace self; obj_tree := obj_tree self;
     post_messages := post_messages self; source_dirs := source_dirs self;
     excl_paths := excl_paths self; excl_suffixes := excl_suffixes self;
     running := running self; store := s; next_loc := n; conn := conn self |}.
Definition set_workspace (self : LangServer) (w : list (str * loc)) : LangServer :=
  {| workspace := w; obj_tree := obj_tree self;
     post_messages := post_messages self; source_dirs := source_dirs self;
     excl_paths := excl_paths self; excl_suffixes := excl_suffixes self;
     running := running self; store := store self; next_loc := next_loc self;
     conn := conn self |}.
Definition set_obj_tree (self : LangServer) (t : gmap str (list Symbol)) : LangServer :=
  {| workspace := workspace self; obj_tree := t;
     post_messages := post_messages self; source_dirs := source_dirs self;
     excl_paths := excl_paths self; excl_suffixes := excl_suffixes self;
     running := running self; store := store self; next_loc := next_loc self;
     conn := conn self |}.
Definition set_post_messages (self : LangServer) (p : list (Z * str)) : LangServer :=
  {| workspace := workspace self; obj_tree := obj_tree self;
     post_messages := p; source_dirs := source_dirs self;
     excl_paths := excl_paths self; excl_suffixes := excl_suffixes self;
     running := running self; store := store self; next_loc := next_loc self;
     conn := conn self |}.
Definition set_conn (self : LangServer) (c : list Message) : LangServer :=
  {| workspace := workspace self; obj_tree := obj_tree self;
     post_messages := post_messages self; source_dirs := source_dirs self;
     excl_paths := excl_paths self; excl_suffixes := excl_suffixes self;
     running := running self; store := store self; next_loc := next_loc self;
     conn := c |}.

(** A new object: it gets the next free reference. *)
Definition alloc (f : SuricataFile) : M loc :=
  fun self =>
    (Ok (next_loc self),
     set_store self (<[next_loc self := f]> (store self)) (S (next_loc self))).
(** An update of the object behind a reference. *)
Definition update (l : loc) (f : SuricataFile) : M unit :=
  modify (fun self => set_store self (<[l := f]> (store self)) (next_loc self)).

(** [self.workspace.get(path)]. *)
Definition workspace_get (p : str) : M (option loc) :=
  gets (fun self => dict_get (workspace self) p).
(** [self.workspace[path] = file_obj]. *)
Definition workspace_set (p : str) (l : loc) : M unit :=
  modify (fun self => set_workspace self (dict_set (workspace self) p l)).

(** [file_obj.ast.<attribute>]: [None] has no attributes. *)
Definition attr_ast (f : SuricataFile) : M AST :=
  match ast f with
  | Some a => ret a
  | None => raise AttributeError
  end.

(** [self.post_message(message, type)] (lines 57-61). *)
Definition post_message (message : str) (type : Z) : M unit :=
  modify (fun self => set_conn self (conn self ++ [ShowMessage type message])).

(** A global name that no statement of the module binds: the module
    imports [logging], [os], [traceback], [re], [path_to_uri],
    [path_from_uri], [SuricataFile] and [TestRules], and defines [log],
    [SURICATA_RULES_EXT_REGEX], [init_file], [LangServer] and
    [JSONRPC2Error]. Any other global name raises [NameError] where it is
    evaluated; [A] is the type of what the code goes on with. *)
Definition unbound {A} (name : str) : M A := raise NameError.

(** An attribute of the server object that no method sets. *)
Definition unset {A} (attribute : str) : M A := raise AttributeError.

(** ** Definition resolver *)

Definition by_name (key : str) (objs : list Symbol) : option Symbol :=
  List.find (fun obj => str_eqb (lower (name obj)) key) objs.

(** Lines 391-396: the lookup in the scopes. When the enclosing scope is a
    type and the line binds or declares one of the type's own members, the
    lookup starts at the type's parent. *)
Definition lookup_scope (curr_scope : option Symbol) (is_member : bool)
  (line_prefix def_name : str) : M (option Symbol) :=
  match curr_scope with
  | None => ret None
  | Some scope =>
      class_type_id <- unbound (A := Z) "CLASS_TYPE_ID" ;;
      binds_member <-
        (if (get_type scope false =? class_type_id) && negb is_member then
           if startswith "procedure" (lower (lstrip line_prefix))
              && (0 <? count "=>" line_prefix)
           then ret true
           else unbound (A := bool) "TYPE_DEF_REGEX"
         else ret false) ;;
      let scope' := if binds_member : bool then parent scope else Some scope in
      unbound (A := option Symbol) "find_in_scope"
  end.

(** Lines 398-409: the Global Symbol Table by lowercased name, then the
    intrinsic functions. *)
Definition search_global (def_name : str) : M (option Symbol) :=
  let key := lower def_name in
  tree <- gets obj_tree ;;
  match tree !! key with
  | Some objs => obj <- lift (index objs 0) ;; ret (Some obj)
  | None =>
      intrinsic_funs <- unset (A := list Symbol) "intrinsic_funs" ;;
      ret (by_name key intrinsic_funs)
  end.

(** [get_definition(self, def_file, def_line, def_char)] (lines 364-409).
    [get_line_prefix], [get_var_stack], [expand_name], [climb_type_tree],
    [find_in_scope], [CLASS_TYPE_ID] and [TYPE_DEF_REGEX] are bound nowhere:
    the call of line 367 is outside any [try], those of lines 372 and 374
    are inside one. *)
Definition get_definition (def_file : SuricataFile) (def_line def_char : Z)
  : M (option Symbol) :=
  (* Get full line (and possible continuations) from file *)
  let '(pre_lines, curr_line, _) :=
    get_code_line def_file def_line ReadBackward true in
  line_prefix <- unbound (A := option str) "get_line_prefix" ;;
  match line_prefix with
  | None => ret None
  | Some line_prefix =>
      names <-
        try_except
          (var_stack <- unbound (A := list str) "get_var_stack" ;;
           let is_member := 1 <? Z.of_nat (length var_stack) in
           def_name <- unbound (A := str) "expand_name" ;;
           ret (Some (var_stack, is_member, def_name)))
          (ret None) ;;
      match names with
      | None => ret None
      | Some (var_stack, is_member, def_name) =>
          if str_eqb def_name "" then ret None
          else
            tree_ast <- attr_ast def_file ;;
            let curr_scope := get_inner_scope tree_ast (def_line + 1) in
            (* Traverse type tree if necessary; [None]: the early return *)
            climbed <-
              (if is_member : bool then
                 type_scope <- unbound (A := option Symbol) "climb_type_tree" ;;
                 match type_scope with
                 | None => ret None
                 | Some scope => ret (Some (Some scope))
                 end
               else ret (Some curr_scope)) ;;
            match climbed with
            | None => ret None
            | Some curr_scope' =>
                (* Find in available scopes *)
                var_obj <- lookup_scope curr_scope' is_member line_prefix def_name ;;
                match var_obj with
                | None =>
                    (* Search in global scope *)
                    if is_member then ret None else search_global def_name
                | Some obj => ret (Some obj)
                end
            end
      end
  end.

(** ** Signature resolver *)

(** [get_sub_name(line)] (lines 412-418): the callee text, the raw
    arguments and where the callee ends; three [None]s when the innermost
    group opens the line. [get_paren_level] is bound nowhere. *)
Definition get_sub_name (line : str)
  : M (option str * option (list str) * option Z) :=
  level <- unbound (A := str * list (Z * Z)) "get_paren_level" ;;
  let sections := snd level in
  first <- lift (index sections 0) ;;
  if fst first <=? 1 then ret (None, None, None)
  else
    last <- lift (index sections (-1)) ;;
    let arg_string := slice line (fst first) (snd last) in
    level' <- unbound (A := str * list (Z * Z)) "get_paren_level" ;;
    last' <- lift (index (snd level') (-1)) ;;
    ret (Some (strip (fst level')), Some (split "," arg_string), Some (fst last')).

(** The loop of [check_optional]: the index of the first parameter whose
    label, up to its first [=], is [opt_arg] in lower case. *)
Fixpoint find_param (opt_arg : str) (params : list Param) (i : Z) : option Z :=
  match params with
  | [] => None
  | param :: rest =>
      match split "=" (label param) with
      | param_split :: _ =>
          if str_eqb (lower param_split) opt_arg then Some i
          else find_param opt_arg rest (i + 1)
      | [] => find_param opt_arg rest (i + 1)
      end
  end.

(** [check_optional(arg, params)] (lines 420-428). *)
Definition check_optional (arg : str) (params : list Param) : option Z :=
  match split "=" arg with
  | first :: _ :: _ => find_param (lower (strip first)) params 0
  | _ => None
  end.

(** Lines 494-502: the active parameter, by position or by the name of the
    last or the second-to-last argument. *)
Definition active_parameter (arg_strings : list str) (params : list Param) : Res Z :=
  let param_num := Z.of_nat (length arg_strings) - 1 in
  (last <- index arg_strings (-1) ;;
   match check_optional last params with
   | None =>
       if 1 <? Z.of_nat (length arg_strings) then
         before <- index arg_strings (-2) ;;
         match check_optional before params with
         | Some opt_num => Ok (opt_num + 1)
         | None => Ok param_num
         end
       else Ok param_num
   | Some opt_num => Ok opt_num
   end)%res.

(** A request's parameters: the document, the position and, for a rename,
    the new name. *)
Record Request := {
  uri : str;
  position_line : Z;
  position_character : Z;
  newName : str
}.

(** The answer to a signature request. *)
Record SignatureHelp := {
  signature_label : str;
  signature_parameters : list Param;
  signature_documentation : option str;
  activeParameter : Z
}.

(** Lines 465-485: the callee, from the scopes, the Global Symbol Table, the
    intrinsic functions and, for a statement, the keywords. *)
Definition resolve_callee (curr_scope : option Symbol) (sub_name line_prefix : str)
  (sub_end : option Z) : M (option Symbol) :=
  var_obj <-
    match curr_scope with
    | Some scope => unbound (A := option Symbol) "find_in_scope"
    | None => ret None
    end ;;
  var_obj1 <-
    match var_obj with
    | Some obj => ret (Some obj)
    | None =>
        let key := lower sub_name in
        tree <- gets obj_tree ;;
        match tree !! key with
        | Some objs => obj <- lift (index objs 0) ;; ret (Some obj)
        | None =>
            intrinsic_funs <- unset (A := list Symbol) "intrinsic_funs" ;;
            ret (by_name key intrinsic_funs)
        end
    end ;;
  match var_obj1 with
  | Some obj => ret (Some obj)
  | None =>
      is_statement <- unbound (A := bool) "INT_STMNT_REGEX" ;;
      if is_statement : bool then
        intrinsic_keywords <- unbound (A := list Symbol) "get_intrinsic_keywords" ;;
        ret (by_name (lower sub_name) intrinsic_keywords)
      else ret None
  end.

(** [serve_signature(self, request)] (lines 411-513). [get_line_prefix]
    (line 441, outside any [try]), [SCOPE_DEF_REGEX], [END_REGEX],
    [get_var_stack], [climb_type_tree], [find_in_scope] and
    [INT_STMNT_REGEX] are bound nowhere. *)
Definition serve_signature (request : Request) : M (option SignatureHelp) :=
  let file_path := path_from_uri (uri request) in
  found <- workspace_get file_path ;;
  match found with
  | None => ret None
  | Some l =>
      file_obj <- deref l ;;
      let sig_line := position_line request in
      let sig_char := position_character request in
      (* Get full line (and possible continuations) from file *)
      let '(pre_lines, curr_line, _) :=
        get_code_line file_obj sig_line ReadBackward true in
      line_prefix <- unbound (A := option str) "get_line_prefix" ;;
      match line_prefix with
      | None => ret None
      | Some line_prefix =>
          (* Test if scope declaration or end statement *)
          scope_def <- unbound (A := bool) "SCOPE_DEF_REGEX" ;;
          declares <- (if scope_def : bool then ret true
                       else unbound (A := bool) "END_REGEX") ;;
          if declares : bool then ret None
          else
            parsed <-
              try_except
                (parts <- get_sub_name line_prefix ;;
                 var_stack <- unbound (A := list str) "get_var_stack" ;;
                 ret (Some (parts, var_stack)))
                (ret None) ;;
            match parsed with
            | None => ret None
            | Some ((sub_name, arg_strings, sub_end), var_stack) =>
                let is_member := 1 <? Z.of_nat (length var_stack) in
                tree_ast <- attr_ast file_obj ;;
                let curr_scope := get_inner_scope tree_ast (sig_line + 1) in
                (* Traverse type tree if necessary *)
                curr_scope' <-
                  (if is_member then unbound (A := option Symbol) "climb_type_tree"
                   else ret curr_scope) ;;
                sub_name' <- lift (index var_stack (-1)) ;;
                var_obj <- resolve_callee curr_scope' sub_name' line_prefix sub_end ;;
                match var_obj with
                | None => ret None
                | Some obj =>
                    (* Build signature *)
                    let '(sig_label, doc_str, params) := get_signature obj in
                    match sig_label with
                    | None => ret None
                    | Some text =>
                        match arg_strings with
                        | None => raise TypeError
                        | Some args =>
                            param_num <- lift (active_parameter args params) ;;
                            ret (Some {| signature_label := text;
                                         signature_parameters := params;
                                         signature_documentation := doc_str;
                                         activeParameter := param_num |})
                        end
                    end
                end
            end
      end
  end.

(** ** Reference finder *)

(** Why an occurrence is kept (lines 540-557): its target is the queried
    symbol or is in the override cache; its target overrides the queried
    symbol; it declares a member that is bound to the queried symbol without
    a binding operator. *)
Record ref_class := {
  exact_match : bool;
  override_match : bool;
  implicit_match : bool
}.
Definition ref_match (c : ref_class) : bool :=
  exact_match c || override_match c || implicit_match c.

Definition is_exact (def_obj var_def : Symbol) (override_cache : list str) : bool :=
  str_eqb (FQSN def_obj) (FQSN var_def)
  || bool_decide (FQSN var_def ∈ override_cache).

(** [var_def.link_obj is def_obj], inside its [try]. *)
Definition linked_to (var_def def_obj : Symbol) : bool :=
  match link_obj var_def with
  | Ok (Some target) => (oid target =? oid def_obj)%nat
  | _ => false
  end.

(** Lines 540-557; [CLASS_TYPE_ID] is bound nowhere. *)
Definition classify (def_obj : Symbol) (type_mem : bool) (filename : str)
  (i : Z) (line : str) (var_def : Symbol) (override_cache : list str)
  : M ref_class :=
  if is_exact def_obj var_def override_cache
  then ret {| exact_match := true; override_match := false; implicit_match := false |}
  else
    match parent var_def with
    | None => raise AttributeError
    | Some scope =>
        class_type_id <- unbound (A := Z) "CLASS_TYPE_ID" ;;
        if get_type scope false =? class_type_id then
          ret {| exact_match := false;
                 override_match :=
                   type_mem
                   && existsb (fun inherit_def =>
                                 str_eqb (FQSN def_obj) (FQSN inherit_def))
                        (get_overriden scope (lower (name def_obj)));
                 implicit_match :=
                   (sline var_def - 1 =? i)
                   && str_eqb (file_ast_path var_def) filename
                   && (count "=>" line =? 0)
                   && linked_to var_def def_obj |}
        else
          ret {| exact_match := false; override_match := false;
                 implicit_match := false |}
    end.

(** The variables of [get_all_references] that outlive one occurrence. *)
Record scan := {
  override_cache : list str;
  ref_objs : list Symbol;
  file_refs : list (Z * Z * Z);
  refs : list (str * list (Z * Z * Z))
}.

(** The body of the innermost loop (lines 538-559), for one match. *)
Definition visit (def_obj : Symbol) (type_mem : bool) (filename : str)
  (file_obj : SuricataFile) (i : Z) (line : str) (acc : scan) (m : nat * nat)
  : M scan :=
  let '(s, e) := m in
  found <- get_definition file_obj i (Z.of_nat s + 1) ;;
  match found with
  | None => ret acc
  | Some var_def =>
      c <- classify def_obj type_mem filename i line var_def (override_cache acc) ;;
      ret {| override_cache :=
               if override_match c
               then override_cache acc ++ [FQSN var_def]
               else override_cache acc;
             ref_objs :=
               if implicit_match c then ref_objs acc ++ [var_def]
               else ref_objs acc;
             file_refs :=
               if ref_match c
               then file_refs acc ++ [(i, Z.of_nat s, Z.of_nat e)]
               else file_refs acc;
             refs := refs acc |}
  end.

(** The lines a file is searched in: not empty, and after
    [strip_comment] neither empty nor starting with [#]. *)
Definition code_line (line : str) : bool :=
  match line with
  | [] => false
  | c :: _ => negb (bool_decide (c = "#"%char))
  end.

(** The body of the loop over the lines (lines 531-559). *)
Definition scan_line (NAME_REGEX : Regex) (def_obj : Symbol) (type_mem : bool)
  (filename : str) (file_obj : SuricataFile) (acc : scan) (numbered : nat * str)
  : M scan :=
  let '(i, raw) := numbered in
  if (length raw =? 0)%nat then ret acc
  else
    (* Skip comment lines *)
    let line := strip_comment file_obj raw in
    if negb (code_line line) then ret acc
    else foldM (visit def_obj type_mem filename file_obj (Z.of_nat i) line)
           (finditer NAME_REGEX line) acc.

Definition enumerate {A} (l : list A) : list (nat * A) :=
  combine (seq 0 (length l)) l.

(** The body of the loop over the files (lines 528-561). *)
Definition scan_file (NAME_REGEX : Regex) (def_obj : Symbol) (type_mem : bool)
  (acc : scan) (entry : str * SuricataFile) : M scan :=
  let '(filename, file_obj) := entry in
  acc' <- foldM (scan_line NAME_REGEX def_obj type_mem filename file_obj)
            (enumerate (contents_split file_obj))
            {| override_cache := override_cache acc; ref_objs := ref_objs acc;
               file_refs := []; refs := refs acc |} ;;
  ret {| override_cache := override_cache acc'; ref_objs := ref_objs acc';
         file_refs := file_refs acc';
         refs := match file_refs acc' with
                 | [] => refs acc'
                 | _ :: _ => dict_set (refs acc') filename (file_refs acc')
                 end |}.

(** [self.workspace.items()], each reference followed to its object. *)
Definition workspace_items : M (list (str * SuricataFile)) :=
  entries <- gets workspace ;;
  foldM (fun acc entry =>
           file_obj <- deref (snd entry) ;;
           ret (acc ++ [(fst entry, file_obj)]))
    entries [].

(** Lines 520-523: the files to search. *)
Definition search_set (file_obj : option SuricataFile)
  : M (list (str * SuricataFile)) :=
  match file_obj with
  | None => workspace_items
  | Some f => ret [(path f, f)]
  end.

(** [get_all_references(self, def_obj, type_mem, file_obj=None)]
    (lines 515-562). *)
Definition get_all_references (def_obj : Symbol) (type_mem : bool)
  (file_obj : option SuricataFile)
  : M (list (str * list (Z * Z * Z)) * list Symbol) :=
  (* Search through all files *)
  let def_name := lower (name def_obj) in
  NAME_REGEX <- lift (name_regex def_name) ;;
  file_set <- search_set file_obj ;;
  acc <- foldM (scan_file NAME_REGEX def_obj type_mem) file_set
           {| override_cache := []; ref_objs := []; file_refs := []; refs := [] |} ;;
  ret (refs acc, ref_objs acc).

(** ** Rename engine *)

(** One replacement of a rename. *)
Record TextEdit := {
  edit_line : Z;
  start_character : Z;
  end_character : Z;
  newText : str
}.

(** Lines 736-745 (and 578-587): whether the symbol is a type member, and
    the one file to search when it is local to a file; [None] is the
    [return None] of line 745. [CLASS_TYPE_ID] is bound nowhere. *)
Definition search_mode (def_obj : Symbol) : M (option (bool * option SuricataFile)) :=
  if 2 <? count ":" (FQSN def_obj) then
    match parent def_obj with
    | None => raise AttributeError
    | Some scope =>
        class_type_id <- unbound (A := Z) "CLASS_TYPE_ID" ;;
        if get_type scope false =? class_type_id then ret (Some (true, None))
        else match file_ast_file def_obj with
             | None => ret None
             | Some l => file_obj <- deref l ;; ret (Some (false, Some file_obj))
             end
    end
  else ret (Some (false, None)).

(** Lines 752-763: the replacements, per document. *)
Definition edits_of (new_name : str) (file_refs : list (Z * Z * Z)) : list TextEdit :=
  map (fun ref => {| edit_line := fst (fst ref);
                     start_character := snd (fst ref);
                     end_character := snd ref;
                     newText := new_name |}) file_refs.
Definition rename_changes (new_name : str) (all_refs : list (str * list (Z * Z * Z)))
  : list (str * list TextEdit) :=
  fold_left (fun changes entry =>
               dict_set changes (path_to_uri (fst entry))
                 (edits_of new_name (snd entry)))
    all_refs [].

(** [file_ast.file] of a symbol, followed; [None] has no attributes. *)
Definition file_of (obj : Symbol) : M SuricataFile :=
  match file_ast_file obj with
  | None => raise AttributeError
  | Some l => deref l
  end.

(** Lines 765-777: the member whose declaration must name its
    implementation, and the text that does. [METH_TYPE_ID] is bound
    nowhere. *)
Definition implicit_binding (def_obj : Symbol) (ref_objs : list Symbol)
  (new_name : str) : M (option (Symbol * str)) :=
  meth_type_id <- unbound (A := Z) "METH_TYPE_ID" ;;
  if get_type def_obj true =? meth_type_id then
    file_obj <- file_of def_obj ;;
    let '(_, curr_line, post_lines) :=
      get_code_line file_obj (sline def_obj - 1) ReadForward true in
    match curr_line with
    | Some text =>
        let full_line := text ++ concat post_lines in
        if find "=>" full_line <? 0
        then ret (Some (def_obj, new_name ++ " => " ++ name def_obj))
        else ret None
    | None => ret None
    end
  else
    match ref_objs with
    | first :: _ =>
        meth_type_id' <- unbound (A := Z) "METH_TYPE_ID" ;;
        if get_type first true =? meth_type_id'
        then ret (Some (first, name first ++ " => " ++ new_name))
        else ret None
    | [] => ret None
    end.

Definition rebind (bind_line : Z) (bind_change : str) (change : TextEdit) : TextEdit :=
  if edit_line change =? bind_line
  then {| edit_line := edit_line change;
          start_character := start_character change;
          end_character := end_character change;
          newText := bind_change |}
  else change.

(** [serve_rename(self, request)] (lines 722-784). *)
Definition serve_rename (request : Request) : M (option (list (str * list TextEdit))) :=
  let file_path := path_from_uri (uri request) in
  found <- workspace_get file_path ;;
  match found with
  | None => ret None
  | Some l =>
      file_obj <- deref l ;;
      resolved <- get_definition file_obj (position_line request)
                    (position_character request) ;;
      match resolved with
      | None => ret None
      | Some def_obj =>
          mode <- search_mode def_obj ;;
          match mode with
          | None => ret None
          | Some (type_mem, restrict_file) =>
              found_refs <- get_all_references def_obj type_mem restrict_file ;;
              let '(all_refs, ref_objs) := found_refs in
              if (length all_refs =? 0)%nat then
                _ <- post_message "Rename failed: No usages found to rename" 2 ;;
                ret None
              else
                let new_name := newName request in
                let changes := rename_changes new_name all_refs in
                binding <- implicit_binding def_obj ref_objs new_name ;;
                match binding with
                | None => ret (Some changes)
                | Some (bind_obj, bind_change) =>
                    bind_file <- file_of bind_obj ;;
                    let def_uri := path_to_uri (path bind_file) in
                    match dict_get changes def_uri with
                    | None => raise KeyError
                    | Some edits =>
                        ret (Some (dict_set changes def_uri
                                     (map (rebind (sline bind_obj - 1) bind_change)
                                        edits)))
                    end
                end
          end
      end
  end.

(** ** Workspace index *)

(** Why [update_workspace_file] left its [try] without parsing. *)
Inductive loaded :=
| Stop (result : bool * option str)
| Parse (file_obj : option loc).

(** Lines 905-922: the [read_file] part of [update_workspace_file].
    [fortran_ast] (line 911) is bound nowhere. *)
Definition read_from_disk (filepath : str) (allow_empty : bool)
  (file_obj : option loc) : M loaded :=
  target <-
    match file_obj with
    | Some l => ret (inl l)
    | None =>
        l <- alloc (new_file filepath) ;;
        (* Create empty file if not yet saved to disk *)
        if negb (isfile filepath) then
          if allow_empty then
            file_ast <- unbound (A := AST) "fortran_ast" ;;
            f <- deref l ;;
            _ <- update l {| path := path f; contents_split := contents_split f;
                             hash := hash f; ast := Some file_ast |} ;;
            _ <- workspace_set filepath l ;;
            ret (inr (false, None))
          else ret (inr (false, Some ("File does not exist" : str)))
        else ret (inl l)
    end ;;
  match target with
  | inr result => ret (Stop result)
  | inl l =>
      f <- deref l ;;
      let hash_old := hash f in
      let '(err, f') := load_from_disk f in
      _ <- update l f' ;;
      err_string <- lift err ;;
      match err_string with
      | Some text => ret (Stop (false, Some text))
      | None =>
          if bool_decide (hash_old = hash f') then ret (Stop (false, None))
          else ret (Parse (Some l))
      end
  end.

(** [file_obj.parse_file()], on the object behind the reference. *)
Definition parse (file_obj : option loc) : M loc :=
  match file_obj with
  | None => raise AttributeError
  | Some l =>
      f <- deref l ;;
      let '(outcome, f') := parse_file f in
      _ <- update l f' ;;
      _ <- lift outcome ;;
      ret l
  end.

(** [update_workspace_file(self, filepath, read_file, allow_empty,
    update_links)] (lines 901-929). *)
Definition update_workspace_file (filepath : str)
  (read_file allow_empty update_links : bool) : M (bool * option str) :=
  outcome <-
    try_except
      (file_obj <- workspace_get filepath ;;
       step <- (if read_file then read_from_disk filepath allow_empty file_obj
                else ret (Parse file_obj)) ;;
       match step with
       | Stop result => ret (inr result)
       | Parse target => l <- parse target ;; ret (inl l)
       end)
      (ret (inr (false, Some ("Error during parsing" : str)))) ;;
  match outcome with
  | inr result => ret result
  | inl l =>
      known <- gets (fun self => dict_has (workspace self) filepath) ;;
      _ <- (if known then ret tt else workspace_set filepath l) ;;
      ret (true, None)
  end.

(** [init_file(filepath, ...)] (lines 14-26), run by a worker: a file
    object, or the text of a failure. *)
Definition init_file (filepath : str) : Res (SuricataFile + str) :=
  let file_obj := new_file filepath in
  let '(err, loaded_obj) := load_from_disk file_obj in
  (err_str <- err ;;
   match err_str with
   | Some text => Ok (inr text)
   | None =>
       match parse_file loaded_obj with
       | (Ok _, parsed) => Ok (inl parsed)
       | (Raise _, _) => Ok (inr ("Error during parsing" : str))
       end
   end)%res.

(** [SURICATA_RULES_EXT_REGEX.match(ext)]: [.rule] or [.rules] in any case,
    a final line feed apart. *)
Definition SURICATA_RULES_EXT_REGEX (ext : str) : bool :=
  let e := lower ext in
  str_eqb e ".rule" || str_eqb e ".rules"
  || str_eqb e (".rule" ++ [nl]) || str_eqb e (".rules" ++ [nl]).

Definition endswith (suffix s : str) : bool := startswith (rev suffix) (rev s).

(** Lines 933-947: the files to index. *)
Definition rule_files (self : LangServer) : list str :=
  flat_map (fun source_dir =>
    flat_map (fun filename =>
      if SURICATA_RULES_EXT_REGEX (splitext_ext filename) then
        let filepath := normpath_join source_dir filename in
        if bool_decide (filepath ∈ excl_paths self) then []
        else if existsb (fun excl_suffix => endswith excl_suffix filepath)
                  (excl_suffixes self)
        then []
        else [filepath]
      else [])
      (listdir source_dir))
    (source_dirs self).

Definition init_failed (file_path err : str) : str :=
  "Initialization failed for file " ++ [dq] ++ file_path ++ [dq] ++ ": " ++ err.

(** The body of the merge loop (lines 958-963); [result.get()] raises what
    the worker raised. *)
Definition merge_result (_ : unit) (entry : str * Res (SuricataFile + str)) : M unit :=
  result_obj <- lift (snd entry) ;;
  match result_obj with
  | inr err =>
      modify (fun self =>
        set_post_messages self
          (post_messages self ++ [(1, init_failed (fst entry) err)]))
  | inl file_obj =>
      l <- alloc file_obj ;;
      workspace_set (fst entry) l
  end.

(** [workspace_init(self)] (lines 931-963): every worker has returned when
    the merge starts, and the merge follows the order of [results]. *)
Definition workspace_init : M unit :=
  file_list <- gets rule_files ;;
  let results :=
    fold_left (fun results filepath => dict_set results filepath (init_file filepath))
      file_list [] in
  foldM merge_result results tt.

(** ** Notifications of the editor *)

(** [get_diagnostics(self, uri)] (lines 828-838). *)
Definition get_diagnostics (doc : str)
  : M (option (list Diagnostic) * option exn) :=
  let filepath := path_from_uri doc in
  found <- workspace_get filepath ;;
  match found with
  | Some l =>
      file_obj <- deref l ;;
      tree <- gets obj_tree ;;
      match check_file file_obj tree with
      | Ok diags => ret (Some diags, None)
      | Raise e => ret (None, Some e)
      end
  | None => ret (None, None)
  end.

(** [send_diagnostics(self, uri)] (lines 812-826). *)
Definition send_diagnostics (doc : str) : M unit :=
  results <- get_diagnostics doc ;;
  match results with
  | (Some diag_results, _) =>
      modify (fun self =>
        set_conn self (conn self ++ [PublishDiagnostics doc diag_results]))
  | (None, Some diag_exp) =>
      modify (fun self =>
        set_conn self (conn self ++ [WriteError (-1) (-32603) (exn_text diag_exp)]))
  | (None, None) => ret tt
  end.

Definition save_failed (filepath err : str) : str :=
  "Save request failed for file " ++ [dq] ++ filepath ++ [dq] ++ ": " ++ err.

(** Lines 886-891: [self.obj_tree.pop(key, None)] for every key of the
    file's [global_dict]. *)
Definition remove_objects (keys : list str) (tree : gmap str (list Symbol))
  : gmap str (list Symbol) :=
  fold_left (fun t key => delete key t) keys tree.

(** [serve_onSave(self, request, did_open, did_close)] (lines 878-899). *)
Definition serve_onSave (request : Request) (did_open did_close : bool) : M unit :=
  let filepath := path_from_uri (uri request) in
  (* Skip update and remove objects if file is deleted *)
  if did_close && negb (isfile filepath) then
    found <- workspace_get filepath ;;
    match found with
    | Some l =>
        file_obj <- deref l ;;
        match ast file_obj with
        | Some ast_old =>
            modify (fun self =>
              set_obj_tree self
                (remove_objects (map fst (global_dict ast_old)) (obj_tree self)))
        | None => ret tt
        end
    | None => ret tt
    end
  else
    updated <- update_workspace_file filepath true did_open false ;;
    match snd updated with
    | Some err_str => post_message (save_failed filepath err_str) 1
    | None =>
        _ <- (if fst updated then _ <- workspace_get filepath ;; ret tt else ret tt) ;;
        send_diagnostics (uri request)
    end.

(** [serve_onClose(self, request)] (lines 875-876). *)
Definition serve_onClose (request : Request) : M unit :=
  serve_onSave request false true.

(** [serve_exit(self, request)] (lines 965-969). *)
Definition serve_exit : M unit :=
  modify (fun self =>
    {| workspace := []; obj_tree := ∅;
       post_messages := post_messages self; source_dirs := source_dirs self;
       excl_paths := excl_paths self; excl_suffixes := excl_suffixes self;
       running := false; store := store self; next_loc := next_loc self;
       conn := conn self |}).

(** ** The notions the properties below are stated with *)



(** The file layer with another [parse_file]. *)
Definition with_parse_file (layer : FileLayer)
  (other : SuricataFile -> Res unit * SuricataFile) : FileLayer :=
  {| new_file := @new_file layer;
     load_from_disk := @load_from_disk layer;
     parse_file := other;
     check_file := @check_file layer;
     exn_text := @exn_text layer;
     get_code_line := @get_code_line layer;
     strip_comment := @strip_comment layer;
     isfile := @isfile layer;
     listdir := @listdir layer;
     splitext_ext := @splitext_ext layer;
     normpath_join := @normpath_join layer;
     Regex := @Regex layer;
     name_regex := @name_regex layer;
     finditer := @finditer layer |}.

(** What the merge loop of [workspace_init] leaves behind. *)
Definition merged (self self' : LangServer)
  (results : list (str * Res (SuricataFile + str))) : Prop :=
  obj_tree self' = obj_tree self
  /\ (next_loc self <= next_loc self')%nat
  /\ (forall l, (l < next_loc self)%nat -> store self' !! l = store self !! l)
  /\ (forall m, In m (post_messages self) -> In m (post_messages self'))
  /\ (forall p, p ∉ map fst results ->
                dict_get (workspace self') p = dict_get (workspace self) p)
  /\ (forall p err, In (p, Ok (inr err)) results ->
        In (1, init_failed p err) (post_messages self')
        /\ dict_get (workspace self') p = dict_get (workspace self) p)
  /\ (forall p f, In (p, Ok (inl f)) results ->
        exists l, dict_get (workspace self') p = Some l
                  /\ store self' !! l = Some f
                  /\ (l < next_loc self')%nat).

End Model.
End LS.

(* ===================================================================== *)
(** * A small workspace to run the model on                               *)
(* ===================================================================== *)
(** Two rule files and the layers below the server, for a language of
    dotted names: [a.rules] declares the type [T] with the member [foo],
    [b.rules] calls [x.foo] on an [x] of type [T], and reads [x.size]. An
    error stream of the rule checker, and a reader for its records. *)
Module Scenario.
Import Py LS.

Definition T : Symbol :=
  {| oid := 1; name := "T"; FQSN := "t"; sline := 1; eline := 3;
     file_ast_path := "a.rules"; file_ast_file := Some 0%nat |}.
Definition x : Symbol :=
  {| oid := 3; name := "x"; FQSN := "x"; sline := 1; eline := 1;
     file_ast_path := "b.rules"; file_ast_file := Some 1%nat |}.

Definition is_T (s : Symbol) : bool := (oid s =? 1)%nat.

#[local] Instance ast_layer : AstLayer := {|
  AST := nat;
  Diagnostic := str;
  global_dict := fun a =>
    match a with
    | O => [("t" : str, T)]
    | S O => [("x" : str, x)]
    | _ => []
    end;
  get_inner_scope := fun a line =>
    if (a =? 0)%nat && (1 <=? line) && (line <=? 3) then Some T else None;
  get_type := fun s _ => if is_T s then 4 else 6;
  parent := fun s => if (oid s =? 2)%nat then Some T else None;
  get_overriden := fun _ _ => [];
  link_obj := fun _ => Ok None;
  get_signature := fun s =>
    if (oid s =? 2)%nat
    then (Some ("foo(a, b=1)" : str), None,
          [ {| label := "a"; documentation := None |};
            {| label := "b=1"; documentation := None |} ])
    else (None, None, []);
  path_from_uri := fun u => skipn 7 u;
  path_to_uri := fun p => "file://" ++ p
|}.

(** The text of the two files, as the disk holds it. *)
Definition disk (p : str) : option (list str) :=
  if str_eqb p "a.rules" then Some [("type T" : str); ("  foo" : str); ("end" : str)]
  else if str_eqb p "b.rules"
  then Some [("x = T()" : str); ("x.foo(1, b=2)" : str); ("# foo" : str); ([] : str);
             ("x.size" : str)]
  else None.

(** What [NAME_REGEX.finditer] finds in the lines of the two files: the name
    [foo] is found in three of them, from character 2 to character 5, and
    no other name is searched for. *)
Definition occurrences (def_name line : str) : list (nat * nat) :=
  if str_eqb def_name "foo"
     && (str_eqb line "  foo" || str_eqb line "x.foo(1, b=2)" || str_eqb line "# foo")
  then [(2%nat, 5%nat)]
  else [].

(** The first [#] starts a comment. *)
Fixpoint cut_comment (s : str) : str :=
  match s with
  | [] => []
  | c :: s' => if bool_decide (c = "#"%char) then [] else c :: cut_comment s'
  end.

(** The file layer over a disk. *)
Definition file_layer_on (contents : str -> option (list str)) : FileLayer := {|
  new_file := fun p => {| path := p; contents_split := []; hash := None; ast := None |};
  load_from_disk := fun f =>
    match contents (path f) with
    | Some text =>
        (Ok None, {| path := path f; contents_split := text;
                     hash := Some (concat text); ast := ast f |})
    | None => (Ok (Some ("Could not read/decode file" : str)), f)
    end;
  parse_file := fun f =>
    if str_eqb (path f) "a.rules"
    then (Ok tt, {| path := path f; contents_split := contents_split f;
                    hash := hash f; ast := Some 0%nat |})
    else if str_eqb (path f) "b.rules"
    then (Ok tt, {| path := path f; contents_split := contents_split f;
                    hash := hash f; ast := Some 1%nat |})
    else (Raise ValueError, f);
  check_file := fun _ _ => Ok [];
  exn_text := fun _ => "error";
  get_code_line := fun f line _ strip =>
    ([],
     if line <? 0 then None
     else match nth_error (contents_split f) (Z.to_nat line) with
          | Some text => Some (if strip then cut_comment text else text)
          | None => None
          end,
     []);
  strip_comment := fun _ text => cut_comment text;
  isfile := fun p => match contents p with Some _ => true | None => false end;
  listdir := fun d =>
    if str_eqb d "rules"
    then [("a.rules" : str); ("b.rules" : str); ("c.rules" : str); ("notes.txt" : str)]
    else [];
  splitext_ext := fun f =>
    match rsplit1 "."%char f with
    | [_; e] => "." ++ e
    | _ => []
    end;
  normpath_join := fun _ f => f;
  Regex := str;
  name_regex := fun def_name => Ok def_name;
  finditer := occurrences
|}.

#[local] Instance file_layer : FileLayer := file_layer_on disk.

(** The disk once [a.rules] has been deleted. *)
Definition disk_after_delete (p : str) : option (list str) :=
  if str_eqb p "a.rules" then None else disk p.
Definition file_layer_after_delete : FileLayer := file_layer_on disk_after_delete.

Definition file_a : SuricataFile :=
  {| path := "a.rules";
     contents_split := [("type T" : str); ("  foo" : str); ("end" : str)];
     hash := Some ("type T  fooend" : str); ast := Some 0%nat |}.
Definition file_b : SuricataFile :=
  {| path := "b.rules";
     contents_split :=
       [("x = T()" : str); ("x.foo(1, b=2)" : str); ("# foo" : str); ([] : str);
        ("x.size" : str)];
     hash := Some ("x = T()x.foo(1, b=2)# foox.size" : str); ast := Some 1%nat |}.

(** The server before [initialize]. *)
Definition fresh : LangServer :=
  {| workspace := []; obj_tree := ∅; post_messages := [];
     source_dirs := [("rules" : str)]; excl_paths := []; excl_suffixes := [];
     running := true; store := ∅; next_loc := 0%nat; conn := [] |}.

(** The server with both files indexed. *)
Definition indexed : LangServer :=
  {| workspace := [("a.rules" : str, 0%nat); ("b.rules" : str, 1%nat)];
     obj_tree := {[ ("t" : str) := [T] ]};
     post_messages := [];
     source_dirs := [("rules" : str)]; excl_paths := []; excl_suffixes := [];
     running := true;
     store := {[ 0%nat := file_a; 1%nat := file_b ]};
     next_loc := 2%nat; conn := [] |}.

Definition request_at (doc : str) (line col : Z) : Request :=
  {| uri := doc; position_line := line; position_character := col;
     newName := "bar" |}.

(** *** The error stream *)
Import Rules.

Definition quoted (s : str) : str := [dq] ++ s ++ [dq].

(** A string as JSON writes it: quotes and backslashes escaped. *)
Fixpoint escaped (s : str) : str :=
  match s with
  | [] => []
  | c :: s' =>
      if bool_decide (c = dq) || bool_decide (c = "\"%char)
      then "\"%char :: c :: escaped s'
      else c :: escaped s'
  end.

(** A record on one line, as [json.dumps] writes the values used here. *)
Fixpoint dumps (v : json) : str :=
  match v with
  | JInt z => list_ascii_of_string (NilZero.string_of_int (Z.to_int z))
  | JStr s => quoted (escaped s)
  | JDict d =>
      "{" ++
      (fix members (d : list (str * json)) : str :=
         match d with
         | [] => []
         | [(k, x)] => quoted (escaped k) ++ ": " ++ dumps x
         | (k, x) :: d' => quoted (escaped k) ++ ": " ++ dumps x ++ ", " ++ members d'
         end) d
      ++ "}"
  | _ => "null"
  end.

Definition engine (n : Z) (message : str) : json :=
  JDict [("engine" : str,
          JDict [("error_code" : str, JInt n); ("message" : str, JStr message)])].

(** A rule that does not parse; a variable that is not defined, twice; the
    rule that uses it; an empty record. *)
Definition bad_rule : json := engine 1 "invalid rule".
Definition undefined_variable : json :=
  engine 101 ("Variable " ++ quoted "HOME" ++ " is not defined in configuration file").
Definition rule_with_variable : json :=
  engine 39 ("error parsing signature " ++ quoted "alert ip $HOME any -> any any (sid:1;)"
             ++ " from file /tmp/file.rules at line 1").
Definition empty_record : json := JDict [].

Definition records : list json :=
  [bad_rule; undefined_variable; rule_with_variable; empty_record].

(** [json.loads] on the lines of the example: a line is read back to the
    record it was written from; any other line is not JSON. *)
#[local] Instance library : Library := {|
  json_loads := fun line =>
    List.find (fun v => str_eqb line (dumps v) || str_eqb line (dumps v ++ [nl])) records;
  re_search := fun _ _ => Ok false
|}.

Definition stream (chunks : list str) : str :=
  concat (map (fun line => line ++ [nl]) chunks).

(** The state of the parser once it has seen that [HOME] is not defined. *)
Definition home_collected : locals :=
  {| ret := {| errors := [];
               warnings :=
                 [JDict [("error_code" : str, JInt 101);
                         ("message" : str, JStr (variable_message "HOME"));
                         ("source" : str, JStr SURICATA_SYNTAX_CHECK)]] |};
     variable_list := [("$HOME" : str)];
     files_list := [];
     ignore_next := false |}.

End Scenario.



(* ===================================================================== *)
(** * tests_rules.py: the list of keywords                                *)
(* ===================================================================== *)
Module Keywords.
Import Py.
Local Open Scope res_scope.

Definition cr : ascii := "013"%char.   (* carriage return *)

(** The line boundaries of [str.splitlines] among the 8-bit characters:
    LF, VT, FF, CR, FS, GS, RS and NEL. *)
Definition is_linebreak (c : ascii) : bool :=
  ((10 <=? code c) && (code c <=? 13) || (28 <=? code c) && (code c <=? 30)
   || (code c =? 133))%N.

(** [s.splitlines()]: the lines without their boundaries, CR LF being one
    boundary; no empty line after the last boundary. [cur] is the line
    being read, reversed. *)
Fixpoint splitlines_aux (cur s : str) : list str :=
  match s with
  | [] => match cur with [] => [] | _ => [rev cur] end
  | c :: s' =>
      if is_linebreak c then
        rev cur ::
        match s' with
        | c' :: s'' =>
            if bool_decide (c = cr) && bool_decide (c' = nl)
            then splitlines_aux [] s''
            else splitlines_aux [] s'
        | [] => []
        end
      else splitlines_aux (c :: cur) s'
  end.
Definition splitlines (s : str) : list str := splitlines_aux [] s.

(** The documentation of a keyword: plain text, or the dictionary
    [{'kind': 'markdown', 'value': ...}]. *)
Inductive doc :=
| Text (text : str)
| Markdown (value : str).

(** One completion item. *)
Record keyword_item := {
  label : str;
  kind : Z;
  detail : str;
  documentation : doc;
  tags : option (list Z)
}.

(** The body of the [try] of lines 490-508, for one line of the listing:
    name; description; ...; options; link; ... separated by semicolons. *)
Definition keyword_item_of (keyword : str) : Res keyword_item :=
  let keyword_array := split ";" keyword in
  options <- index keyword_array 3 ;;
  let detail : str :=
    if contains "sticky" options then "Sticky Buffer"
    else if str_eqb options "none" then "No option"
    else options in
  text <- index keyword_array 1 ;;
  documentation <-
    (if 5 <? Z.of_nat (length keyword_array) then
       link <- index keyword_array 4 ;;
       if contains "https" link
       then Ok (Markdown (text ++ [nl; nl] ++ "[Documentation](" ++ link ++ ")"))
       else Ok (Text text)
     else Ok (Text text)) ;;
  name <- index keyword_array 0 ;;
  if contains "content modifier" options
  then Ok {| label := name; kind := 14; detail := "Content Modifier";
             documentation := documentation; tags := Some [1] |}
  else Ok {| label := name; kind := 14; detail := detail;
             documentation := documentation; tags := None |}.

(** The loop of lines 488-510: a line that lacks a field is passed over. *)
Fixpoint keywords_loop (keywords : list str) (keywords_list : list keyword_item)
  : Res (list keyword_item) :=
  match keywords with
  | [] => Ok keywords_list
  | keyword :: rest =>
      match keyword_item_of keyword with
      | Ok item => keywords_loop rest (keywords_list ++ [item])
      | Raise IndexError => keywords_loop rest keywords_list
      | Raise e => Raise e
      end
  end.

(** [build_keywords_list(self)] (lines 477-511), from the text the rule
    checker prints for [--list-keywords=csv]: the first line is a header,
    and [keywords.pop(0)] raises when there is none. *)
Definition build_keywords_list (outdata : str) : Res (list keyword_item) :=
  match splitlines outdata with
  | [] => Raise IndexError
  | _ :: keywords => keywords_loop keywords []
  end.

(** The fields of a line, and the lines that have the four fields an item
    is made of. *)
Definition fields (keyword : str) : list str := split ";" keyword.
Definition complete (keyword : str) : bool := (4 <=? length (fields keyword))%nat.

(** An item as the loop makes it: a keyword (kind 14), tagged as deprecated
    only when it is a content modifier, and never with the detail [none]. *)
Definition well_made (item : keyword_item) : Prop :=
  kind item = 14
  /\ detail item <> "none"
  /\ (tags item = None \/ (tags item = Some [1] /\ detail item = "Content Modifier")).

End Keywords.

(* ===================================================================== *)
(** * langserver.py: the other request handlers                           *)
(* ===================================================================== *)
Module Requests.
Import Py LS.

Declare Scope handler_scope.
Delimit Scope handler_scope with handler.
Notation "x <- m ;; k" := (mbind m (fun x => k))
  (at level 100, m at next level, right associativity) : handler_scope.

Section Handlers.
Context `{AL : AstLayer} `{FL : !FileLayer}.
Local Open Scope handler_scope.

(** A location: a document and a range in it. *)
Record Location := {
  location_uri : str;
  range_start_line : Z;
  range_start_character : Z;
  range_end_line : Z;
  range_end_character : Z
}.

(** Lines 589-598: one location per occurrence, file by file. *)
Definition locations_of (all_refs : list (str * list (Z * Z * Z))) : list Location :=
  flat_map (fun entry =>
    map (fun ref => {| location_uri := path_to_uri (fst entry);
                       range_start_line := fst (fst ref);
                       range_start_character := snd (fst ref);
                       range_end_line := fst (fst ref);
                       range_end_character := snd ref |})
      (snd entry))
    all_refs.

(** [serve_references(self, request)] (lines 564-599); lines 578-587 are
    those of [search_mode]. *)
Definition serve_references (request : Request) : M (option (list Location)) :=
  let file_path := path_from_uri (uri request) in
  found <- workspace_get file_path ;;
  match found with
  | None => ret None
  | Some l =>
      file_obj <- deref l ;;
      resolved <- get_definition file_obj (position_line request)
                    (position_character request) ;;
      match resolved with
      | None => ret None
      | Some def_obj =>
          mode <- search_mode def_obj ;;
          match mode with
          | None => ret None
          | Some (type_mem, restrict_file) =>
              found_refs <- get_all_references def_obj type_mem restrict_file ;;
              ret (Some (locations_of (fst found_refs)))
          end
      end
  end.

(** [serve_onOpen(self, request)] (lines 872-873). *)
Definition serve_onOpen (request : Request) : M unit :=
  serve_onSave request true false.

(** The [else] of the loop of [run] (lines 75-77), after a message has been
    handled: the queued messages are shown in order and the queue is
    emptied. *)
Definition post_queued_messages : M unit :=
  queued <- gets post_messages ;;
  _ <- foldM (fun _ message => post_message (snd message) (fst message)) queued tt ;;
  modify (fun self => set_post_messages self []).

(** ** Completion *)

(** [c.isalnum()] for a character among the first 256 code points: the
    letters and digits of ASCII, and the letters, superscript digits and
    fractions above 127. *)
Definition isalnum (c : ascii) : bool :=
  is_upper c || is_lower c || is_digit c
  || (let n := code c in
      (n =? 170) || (n =? 178) || (n =? 179) || (n =? 181) || (n =? 185)
      || (n =? 186) || (188 <=? n) && (n <=? 190) || (192 <=? n) && (n <=? 214)
      || (216 <=? n) && (n <=? 246) || (248 <=? n))%N.

(** The characters of a keyword (line 347): [isalnum()], a dot or an
    underscore. *)
Definition keyword_char (c : ascii) : bool :=
  isalnum c || bool_decide (c = "."%char) || bool_decide (c = "_"%char).

(** The loop of lines 345-349, from [cursor]: the position it stops at. *)
Fixpoint word_start (sig_content : str) (cursor : nat) : Res nat :=
  match cursor with
  | O => Ok O
  | S below =>
      (c <- index sig_content (Z.of_nat cursor) ;;
       if negb (keyword_char c) then Ok cursor else word_start sig_content below)%res
  end.

(** Lines 344-354: the start of a keyword that ends at [sig_index], or
    [None] where the method returns [None]. *)
Definition partial_keyword (sig_content : str) (sig_index : Z) : Res (option str) :=
  let cursor := sig_index - 1 in
  (stop <- (if 0 <? cursor
            then n <- word_start sig_content (Z.to_nat cursor) ;; Ok (Z.of_nat n)
            else Ok cursor) ;;
   if stop =? sig_index - 1 then Ok None
   else Ok (Some (slice sig_content (stop + 1) sig_index)))%res.

(** What the server object holds besides: the text of a line of a file
    ([file_obj.line_content_map[line]]) and [self.keywords_list]. *)
Context (line_content_map : SuricataFile -> Z -> Res str)
        (keywords_list : list Keywords.keyword_item).

(** [serve_autocomplete(self, request)] (lines 334-362). *)
Definition serve_autocomplete (request : Request)
  : M (option (list Keywords.keyword_item)) :=
  let file_path := path_from_uri (uri request) in
  found <- workspace_get file_path ;;
  match found with
  | None => ret None
  | Some l =>
      file_obj <- deref l ;;
      sig_content <- lift (line_content_map file_obj (position_line request)) ;;
      partial <- lift (partial_keyword sig_content (position_character request)) ;;
      match partial with
      | None => ret None
      | Some text =>
          let items_list :=
            List.filter (fun item => startswith text (Keywords.label item))
              keywords_list in
          if (0 <? length items_list)%nat then ret (Some items_list) else ret None
      end
  end.

(** ** Changes *)

(** What a change request involves besides: [self.sync_type], the changes
    of the request ([params["contentChanges"]]), and
    [file_obj.apply_change], which is not defined here: it may change the
    file object, and it returns whether the file has to be parsed again,
    or raises. *)
Context {Change : Type} (sync_type : Z)
        (apply_change : SuricataFile -> Change -> Res bool * SuricataFile).

(** [file_obj.apply_change(change)] on the file object at [l]. *)
Definition apply_change_at (l : loc) (change : Change) : M bool :=
  file_obj <- deref l ;;
  let applied := apply_change file_obj change in
  _ <- update l (snd applied) ;;
  lift (fst applied).

(** The loop of lines 858-860. *)
Fixpoint apply_changes (l : loc) (contentChanges : list Change) (reparse_req : bool)
  : M bool :=
  match contentChanges with
  | [] => ret reparse_req
  | change :: rest =>
      reparse_flag <- apply_change_at l change ;;
      apply_changes l rest (reparse_req || reparse_flag)
  end.

Definition unknown_file_changed (path : str) : str :=
  "Change request failed for unknown file " ++ [dq] ++ path ++ [dq].
Definition change_failed (path err : str) : str :=
  "Change request failed for file " ++ [dq] ++ path ++ [dq] ++ ": " ++ err.

(** [serve_onChange(self, request)] (lines 840-870). The first step gives
    [reparse_req], or [None] where the method returns at line 864. *)
Definition serve_onChange (request : Request) (contentChanges : list Change) : M unit :=
  let path := path_from_uri (uri request) in
  found <- workspace_get path ;;
  match found with
  | None => post_message (unknown_file_changed path) 1
  | Some l =>
      applied <-
        (if sync_type =? 1 then
           first <- lift (index contentChanges 0) ;;
           _ <- apply_change_at l first ;;
           ret (Some true)
         else
           try_except
             (reparse_req <- apply_changes l contentChanges false ;;
              ret (Some reparse_req))
             (_ <- post_message (change_failed path "Could not apply change") 1 ;;
              ret None)) ;;
      match applied with
      | None => ret tt
      | Some reparse_req =>
          if reparse_req : bool then
            result <- update_workspace_file path false false true ;;
            match snd result with
            | Some err_str => post_message (change_failed path err_str) 1
            | None => ret tt
            end
          else ret tt
      end
  end.

(** ** The notions the properties of the handlers are stated with *)

(** Every file the workspace names has its object. *)
Definition well_formed (self : LangServer) : Prop :=
  forall p l, dict_get (workspace self) p = Some l -> is_Some (store self !! l).

(** Only file objects may differ between [self] and [self'], and none is
    lost. *)
Definition files_only (self self' : LangServer) : Prop :=
  workspace self' = workspace self
  /\ obj_tree self' = obj_tree self
  /\ conn self' = conn self
  /\ post_messages self' = post_messages self
  /\ (forall l, is_Some (store self !! l) -> is_Some (store self' !! l)).

(** The workspace still maps every path it mapped to the same object. *)
Definition keeps_workspace (self self' : LangServer) : Prop :=
  forall p l, dict_get (workspace self) p = Some l ->
              dict_get (workspace self') p = Some l.

End Handlers.
End Requests.

(* ===================================================================== *)
(** * The notions the further properties of the parser are stated with    *)
(* ===================================================================== *)
Module Stream.
Import Py Rules.

(** A record that names the syntax check as its source. *)
Definition from_syntax_check (record : json) : Prop :=
  exists d, record = JDict d
            /\ dict_get d "source" = Some (JStr SURICATA_SYNTAX_CHECK).

(** Every error and every warning gathered so far does. *)
Definition all_from_syntax_check (st : locals) : Prop :=
  Forall from_syntax_check (errors (ret st))
  /\ Forall from_syntax_check (warnings (ret st)).

(** The outcome of a step hands the source on. *)
Definition step_from_syntax_check (s : step) : Prop :=
  match s with
  | Continue st' => all_from_syntax_check st'
  | Below eng' st' => from_syntax_check eng' /\ all_from_syntax_check st'
  end.

(** A record of the engine whose error code is [errno]. *)
Definition has_error_code (s_err errno : json) : Prop :=
  exists d e,
    s_err = JDict d /\ dict_get d "engine" = Some (JDict e)
    /\ dict_get e "error_code" = Some errno.

(** The message of the engine for a data set it cannot open. *)
Definition dataset_missing (datasource : str) : str :=
  "fopen '" ++ datasource ++ "' failed: No such file or directory".

End Stream.

(* ===================================================================== *)
(** * tests_rules.py: the engine analysis and the check of a buffer       *)
(* ===================================================================== *)
Module EngineAnalysis.
Import Py.
Local Open Scope res_scope.

(** What the analysis says of one signature: a dictionary with the keys
    [sid], [content], [warnings] and [info], each of which may be absent. *)
Record signature := {
  sid : option str;
  content : option str;
  warnings : option (list str);
  info : option (list str)
}.

Definition empty_signature : signature :=
  {| sid := None; content := None; warnings := None; info := None |}.

(** The variables of [parse_engine_analysis_v1]. *)
Record reader := {
  analysis : list signature;
  in_sid_data : bool;
  current : signature
}.

Definition start : reader :=
  {| analysis := []; in_sid_data := false; current := empty_signature |}.

Definition has_content (s : signature) : bool :=
  match content s with Some _ => true | None => false end.

(** [signature[key].append(text)], the list created when the key is new. *)
Definition appended (l : option (list str)) (text : str) : option (list str) :=
  Some (match l with Some texts => texts | None => [] end ++ [text]).

(** The body of the loop over the lines of [rules_analysis.txt]
    (lines 376-395). *)
Definition read_line (st : reader) (line : str) : Res reader :=
  if startswith "==" line then
    token <- index (split " " line) 2 ;;
    Ok {| analysis := analysis st; in_sid_data := true;
          current := {| sid := Some token; content := None;
                        warnings := None; info := None |} |}
  else if in_sid_data st && (length line =? 1)%nat then
    Ok {| analysis := analysis st ++ [current st]; in_sid_data := false;
          current := empty_signature |}
  else if in_sid_data st && negb (has_content (current st)) then
    Ok {| analysis := analysis st; in_sid_data := in_sid_data st;
          current := {| sid := sid (current st); content := Some (strip line);
                        warnings := warnings (current st);
                        info := info (current st) |} |}
  else if in_sid_data st && contains "Warning: " line then
    warning <- index (split "arning: " line) 1 ;;
    Ok {| analysis := analysis st; in_sid_data := in_sid_data st;
          current := {| sid := sid (current st); content := content (current st);
                        warnings := appended (warnings (current st)) (strip warning);
                        info := info (current st) |} |}
  else if in_sid_data st && contains "Fast Pattern" line then
    Ok {| analysis := analysis st; in_sid_data := in_sid_data st;
          current := {| sid := sid (current st); content := content (current st);
                        warnings := warnings (current st);
                        info := appended (info (current st)) (strip line) |} |}
  else Ok st.

Fixpoint read_lines (lines : list str) (st : reader) : Res reader :=
  match lines with
  | [] => Ok st
  | line :: rest => st' <- read_line st line ;; read_lines rest st'
  end.

(** [parse_engine_analysis_v1(self, log_dir)] (lines 370-396), from the
    lines of [rules_analysis.txt] as the file object yields them. *)
Definition parse_engine_analysis_v1 (analysis_file : list str) : Res (list signature) :=
  st <- read_lines analysis_file start ;;
  Ok (analysis st).

(** The lines that open the data of a signature. *)
Definition headers (analysis_file : list str) : list str :=
  List.filter (startswith "==") analysis_file.

(** A signature as the reader builds it: it has a [sid], and a [content]
    when it has warnings or notes. *)
Definition complete (s : signature) : Prop :=
  sid s <> None
  /\ (warnings s <> None \/ info s <> None -> content s <> None).

End EngineAnalysis.

Module RuleBuffer.
Import Py Rules.
Local Open Scope res_scope.

Definition SURICATA_ENGINE_ANALYSIS : str := "Suricata Engine Analysis".

(** An entry of [result['warnings']] or of [result['info']]: a dictionary
    with a message and a source, and with a content, a [sid] or a range of
    characters according to where it comes from. *)
Record entry := {
  message : str;
  source : str;
  content : option str;
  sid : option Z;
  start_char : option Z;
  end_char : option Z
}.

(** The white space [int] passes over: tab, LF, VT, FF, CR, space, NEL and
    the no-break space (not FS, GS, RS and US, which [strip] removes). *)
Definition is_int_space (c : ascii) : bool :=
  ((9 <=? code c) && (code c <=? 13) || (code c =? 32)
   || (code c =? 133) || (code c =? 160))%N.
Fixpoint int_lstrip (s : str) : str :=
  match s with
  | c :: s' => if is_int_space c then int_lstrip s' else s
  | [] => []
  end.
Definition int_strip (s : str) : str := rev (int_lstrip (rev (int_lstrip s))).

(** [int(s)] for a text [s]: white space around, a sign, and decimal digits
    with single underscores between them; of a length the interpreter's
    limit on digits allows. [Raise ValueError] otherwise. *)
Fixpoint digits_value (acc : Z) (after_digit : bool) (s : str) : option Z :=
  match s with
  | [] => if after_digit then Some acc else None
  | c :: s' =>
      if is_digit c then digits_value (10 * acc + (Z.of_N (code c) - 48)) true s'
      else if bool_decide (c = "_"%char) && after_digit then
        match s' with
        | d :: _ => if is_digit d then digits_value acc false s' else None
        | [] => None
        end
      else None
  end.
Definition int (s : str) : Res Z :=
  let signed :=
    match int_strip s with
    | c :: s' =>
        if bool_decide (c = "-"%char) then (true, s')
        else if bool_decide (c = "+"%char) then (false, s')
        else (false, c :: s')
    | [] => (false, [])
    end in
  match digits_value 0 false (snd signed) with
  | Some n => Ok (if fst signed then - n else n)
  | None => Raise ValueError
  end.

(** [a, b = v.split(sep, 1)]: the text on either side of the first [sep]. *)
Fixpoint partition_aux (sep cur s : str) : option (str * str) :=
  if startswith sep s then Some (rev cur, skipn (length sep) s)
  else match s with
       | [] => None
       | c :: s' => partition_aux sep (c :: cur) s'
       end.
Definition unpack_split1 (v : json) (sep : str) : Res (str * str) :=
  match v with
  | JStr s => match partition_aux sep [] s with
              | Some parts => Ok parts
              | None => Raise ValueError
              end
  | _ => Raise AttributeError
  end.

(** [s.rstrip(c)] for [c] the double quote. *)
Fixpoint lstrip_quotes (s : str) : str :=
  match s with
  | c :: s' => if bool_decide (c = dq) then lstrip_quotes s' else s
  | [] => []
  end.
Definition rstrip_quotes (s : str) : str := rev (lstrip_quotes (rev s)).

(** [v.get(k, default)]: only a [dict] has the method. *)
Definition get (v : json) (k : str) (default : json) : Res json :=
  match v with
  | JDict d => Ok (match dict_get d k with Some x => x | None => default end)
  | _ => Raise AttributeError
  end.

(** The body of the loop over the lines the rule checker prints
    (lines 312-327). *)
Definition on_message `{Library} (warnings : list entry) (message_line : str)
  : Res (list entry) :=
  match json_loads message_line with
  | None => Ok warnings
  | Some struct_msg =>
      known <- str_in "engine" struct_msg ;;
      if negb known then Ok warnings
      else
        eng <- getitem struct_msg "engine" ;;
        error_code <- get eng "error_code" (JInt 0) ;;
        (* Check for duplicate signatures *)
        if eq_int error_code 176 then
          text <- getitem eng "message" ;;
          parts <- unpack_split1 text [dq] ;;
          Ok (warnings ++
              [{| message := rstrip (fst parts); source := SURICATA_SYNTAX_CHECK;
                  content := Some (rstrip_quotes (snd parts)); sid := None;
                  start_char := None; end_char := None |}])
        (* Message for invalid signature *)
        else if eq_int error_code 276 then
          text <- getitem eng "message" ;;
          parts <- unpack_split1 text ": " ;;
          number <- index (split " " (fst parts)) 1 ;;
          rule <- int number ;;
          Ok (warnings ++
              [{| message := rstrip (snd parts); source := SURICATA_SYNTAX_CHECK;
                  content := None; sid := Some rule;
                  start_char := None; end_char := None |}])
        else Ok warnings
  end.

Fixpoint on_messages `{Library} (lines : list str) (warnings : list entry)
  : Res (list entry) :=
  match lines with
  | [] => Ok warnings
  | line :: rest => ws <- on_message warnings line ;; on_messages rest ws
  end.

(** [signature['content']]. *)
Definition content_of (s : EngineAnalysis.signature) : Res str :=
  match EngineAnalysis.content s with
  | Some text => Ok text
  | None => Raise KeyError
  end.

Definition listed (l : option (list str)) : list str :=
  match l with Some texts => texts | None => [] end.

(** Lines 336-337, for one warning of a signature. *)
Definition warning_entry (s : EngineAnalysis.signature) (warning : str) : Res entry :=
  text <- content_of s ;;
  Ok {| message := warning; source := SURICATA_ENGINE_ANALYSIS;
        content := Some text; sid := None; start_char := None; end_char := None |}.

(** Lines 339-352, for one note of a signature: its entry, or [None] where
    the loop goes on to the next note. A note on the fast pattern is kept
    when the signature has several contents and does not choose its fast
    pattern; its range is that of the pattern in the signature. *)
Definition info_entry (s : EngineAnalysis.signature) (note : str) : Res (option entry) :=
  text <- content_of s ;;
  let msg first last :=
    {| message := note; source := SURICATA_ENGINE_ANALYSIS; content := Some text;
       sid := None; start_char := Some first; end_char := Some last |} in
  if contains ("Fast Pattern " ++ [dq]) note then
    if contains "fast_pattern" text then Ok None
    else if count "content:" text <=? 1 then Ok None
    else
      pattern <- index (split [dq] note) 1 ;;
      let at_char := find pattern text in
      if at_char <? 0 then Ok (Some (msg 0 1))
      else Ok (Some (msg at_char (at_char + Z.of_nat (length pattern))))
  else Ok (Some (msg 0 1)).

Fixpoint warning_entries (s : EngineAnalysis.signature) (texts : list str)
  (warnings : list entry) : Res (list entry) :=
  match texts with
  | [] => Ok warnings
  | warning :: rest =>
      e <- warning_entry s warning ;; warning_entries s rest (warnings ++ [e])
  end.

Fixpoint info_entries (s : EngineAnalysis.signature) (notes : list str)
  (info : list entry) : Res (list entry) :=
  match notes with
  | [] => Ok info
  | note :: rest =>
      e <- info_entry s note ;;
      info_entries s rest (match e with Some msg => info ++ [msg] | None => info end)
  end.

(** The loop over the analysed signatures (lines 335-352). *)
Fixpoint analysis_entries (engine_analysis : list EngineAnalysis.signature)
  (warnings info : list entry) : Res (list entry * list entry) :=
  match engine_analysis with
  | [] => Ok (warnings, info)
  | s :: rest =>
      ws <- warning_entries s (listed (EngineAnalysis.warnings s)) warnings ;;
      notes <- info_entries s (listed (EngineAnalysis.info s)) info ;;
      analysis_entries rest ws notes
  end.

(** What a run of the rule checker leaves: its return code and what it
    wrote, decoded. *)
Record process_output := {
  returncode : Z;
  outdata : str;
  errdata : str
}.

(** [result['errors']]: the text of the rule checker, or the records read
    from it. *)
Inductive error_report :=
| Raw (text : str)
| Parsed (records : list json).

(** [result]; [check_rule_buffer] puts records where [rule_buffer] leaves
    the text. *)
Record buffer_result (E : Type) := {
  status : bool;
  errors : E;
  warnings : list entry;
  info : list entry
}.
Arguments status {E} _.
Arguments errors {E} _.
Arguments warnings {E} _.
Arguments info {E} _.

(** [rule_buffer(self, rule_buffer, ...)] (lines 289-354), from what the
    test run of the rule checker left and what [parse_engine_analysis]
    read after the analysis run. *)
Definition rule_buffer `{Library} (test : process_output)
  (engine_analysis : list EngineAnalysis.signature) : Res (buffer_result str) :=
  let failed := negb (returncode test =? 0) in
  ws <- on_messages (iter_lines (outdata test)) [] ;;
  found <- analysis_entries engine_analysis ws [] ;;
  Ok {| status := negb failed;
        errors := if failed then errdata test else [];
        warnings := fst found;
        info := snd found |}.

(** [check_rule_buffer(self, rule_buffer, ..., single)] (lines 356-362). *)
Definition check_rule_buffer `{Library} (test : process_output)
  (engine_analysis : list EngineAnalysis.signature) (single : bool)
  : Res (buffer_result error_report) :=
  prov_result <- rule_buffer test engine_analysis ;;
  if (0 <? length (errors prov_result))%nat then
    res <- parse_suricata_error (errors prov_result) single ;;
    Ok {| status := status prov_result;
          errors := Parsed (Rules.errors res);
          warnings := warnings prov_result;
          info := info prov_result |}
  else
    Ok {| status := status prov_result;
          errors := Raw (errors prov_result);
          warnings := warnings prov_result;
          info := info prov_result |}.

(** A warning says where it comes from and what it is about: the syntax
    check, with a content or a [sid]; or the engine analysis, with the
    content of the signature. A note comes from the engine analysis, with
    the content of the signature and a range of characters in it. *)
Definition sourced_warning (w : entry) : Prop :=
  (source w = SURICATA_SYNTAX_CHECK /\ (content w <> None \/ sid w <> None))
  \/ (source w = SURICATA_ENGINE_ANALYSIS /\ content w <> None).
Definition ranged_note (e : entry) : Prop :=
  source e = SURICATA_ENGINE_ANALYSIS /\ content e <> None
  /\ exists first last,
       start_char e = Some first /\ end_char e = Some last /\ 0 <= first <= last.

(** The errors of a checked buffer: none, or records of the syntax check. *)
Definition checked_errors (report : error_report) : Prop :=
  match report with
  | Raw text => text = []
  | Parsed records => Forall Stream.from_syntax_check records
  end.

End RuleBuffer.

(* ===================================================================== *)
(** * A run of the rule checker and a document being edited               *)
(* ===================================================================== *)
(** What the rule checker writes for a buffer, its analysis of a signature
    and its list of keywords; and a server with a rule file that is being
    typed. *)
Module Session.
Import Py Rules LS Scenario.
#[local] Existing Instance ast_layer.
#[local] Existing Instance file_layer.

(** *** The test run *)

(** The signature seen twice, the rule without effect, the rule files that
    hold no rule, the data set that is not there. *)
Definition duplicate : json :=
  engine 176 ("Duplicate signature " ++ quoted "alert ip any any -> any any (sid:1;)").
Definition no_effect : json := engine 276 "Rule 2: has no effect".
Definition no_rules : json := engine 40 "no rules were loaded".
Definition missing_list : json := engine 322 (Stream.dataset_missing "list.lst").

Definition checker_records : list json := [duplicate; no_effect; bad_rule].

(** [json.loads] on the lines of the test run. *)
Definition checker_library : Library := {|
  json_loads := fun line =>
    List.find (fun v => str_eqb line (dumps v) || str_eqb line (dumps v ++ [nl]))
      checker_records;
  re_search := fun _ _ => Ok false
|}.

(** A test run that fails on a rule. *)
Definition test_run : RuleBuffer.process_output :=
  {| RuleBuffer.returncode := 1;
     RuleBuffer.outdata :=
       stream [dumps duplicate; ("Loading rule files" : str); dumps no_effect];
     RuleBuffer.errdata := stream [dumps bad_rule] |}.

(** The parser with one error gathered. *)
Definition one_error : locals :=
  {| Rules.ret :=
       {| Rules.errors :=
            [JDict [("message" : str, JStr "invalid rule");
                    ("source" : str, JStr SURICATA_SYNTAX_CHECK)]];
          Rules.warnings := [] |};
     variable_list := []; files_list := []; ignore_next := false |}.

(** *** The engine analysis *)

Definition rule_text : str :=
  "alert ip any any -> any any (content:" ++ quoted "abc" ++ "; content:"
  ++ quoted "defg" ++ "; sid:1;)".
Definition pattern_note : str :=
  "Fast Pattern " ++ quoted "defg" ++ " on payload.".

(** The lines of [rules_analysis.txt] for that rule. *)
Definition analysis_file : list str :=
  [ ("== Sid: 1, Rev: 1 ==" : str) ++ [nl];
    rule_text ++ [nl];
    ("    Warning: Rule has no direction indicator." : str) ++ [nl];
    ("    " : str) ++ pattern_note ++ [nl];
    [nl] ].

Definition analysed : EngineAnalysis.signature :=
  {| EngineAnalysis.sid := Some ("1," : str);
     EngineAnalysis.content := Some rule_text;
     EngineAnalysis.warnings := Some [("Rule has no direction indicator." : str)];
     EngineAnalysis.info := Some [pattern_note] |}.

(** *** The keywords *)

(** What the rule checker prints for [--list-keywords=csv]. *)
Definition listing : str :=
  stream [ ("name;description;app layer;features;documentation" : str);
           ("sid;set rule ID;Unset;none;https://docs.suricata.io/sid;" : str);
           ("content;match on payload content;Unset;none;https://docs.suricata.io/content;"
              : str);
           ("contents" : str);
           ("http_uri;match on HTTP uri;http;content modifier;none;" : str) ].

Definition keywords_list : list Keywords.keyword_item :=
  match Keywords.build_keywords_list listing with
  | Ok items => items
  | Raise _ => []
  end.

(** *** A rule being typed *)

Definition local_rules : SuricataFile :=
  {| path := "local.rules";
     contents_split := [("alert ip any any -> any any (sid:1; cont" : str)];
     hash := None; ast := None |}.

Definition editing : LangServer :=
  {| workspace := [("local.rules" : str, 0%nat)];
     obj_tree := ∅; post_messages := [];
     source_dirs := []; excl_paths := []; excl_suffixes := [];
     running := true;
     store := {[ 0%nat := local_rules ]};
     next_loc := 1%nat; conn := [] |}.

(** The text of a line of a file, by its number. *)
Definition line_content_map (file_obj : SuricataFile) (line : Z) : Res str :=
  if line <? 0 then Raise KeyError
  else match nth_error (contents_split file_obj) (Z.to_nat line) with
       | Some text => Ok text
       | None => Raise KeyError
       end.

(** A change that replaces the text of a file; the file has to be parsed
    again. *)
Definition replace_text (file_obj : SuricataFile) (text : list str)
  : Res bool * SuricataFile :=
  (Ok true,
   {| path := path file_obj; contents_split := text;
      hash := hash file_obj; ast := ast file_obj |}).

End Session.
(** Case analysis on a chain of calls that returned: every call, test and
    case the result went through. *)
Ltac crunch :=
  repeat match goal with
  | Hb : Py.bind ?m _ = Py.Ok _ |- _ =>
      destruct m eqn:?; simpl in Hb; [| discriminate Hb]
  | Hb : Py.Ok _ = Py.Ok _ |- _ => injection Hb as Hb; try subst
  | Hb : Py.Raise _ = Py.Ok _ |- _ => discriminate Hb
  | Hb : (if ?c then _ else _) = Py.Ok _ |- _ => destruct c eqn:?; simpl in Hb
  | Hb : match ?x with _ => _ end = Py.Ok _ |- _ => destruct x eqn:?; simpl in Hb
  end.

(* ===================================================================== *)
(** * Dictionaries and strings                                            *)
(* ===================================================================== *)
Section DictFacts.
Import Py.
Context {V : Type}.
Implicit Types (d : list (str * V)) (k : str) (v : V).

Lemma dict_get_set_eq d k v : dict_get (dict_set d k v) k = Some v.
Proof.
  induction d as [|[k' v'] d IH]; simpl.
  - by rewrite bool_decide_eq_true_2.
  - destruct (bool_decide (k' = k)) eqn:E; simpl.
    + by rewrite bool_decide_eq_true_2.
    + by rewrite E.
Qed.

Lemma dict_get_set_ne d k k' v :
  k <> k' -> dict_get (dict_set d k v) k' = dict_get d k'.
Proof.
  intros Hne. induction d as [|[k0 v0] d IH]; simpl.
  - by rewrite bool_decide_eq_false_2.
  - destruct (bool_decide (k0 = k)) eqn:E; simpl.
    + apply bool_decide_eq_true_1 in E. subst k0.
      by rewrite !bool_decide_eq_false_2.
    + destruct (bool_decide (k0 = k')); [done | apply IH].
Qed.

Lemma dict_get_In d k v : dict_get d k = Some v -> In (k, v) d.
Proof.
  induction d as [|[k0 v0] d IH]; simpl; [done|].
  destruct (bool_decide (k0 = k)) eqn:E.
  - apply bool_decide_eq_true_1 in E. intros [= ->]. left. by subst.
  - intros Hd. right. by apply IH.
Qed.

Lemma dict_set_In d k v k' v' :
  In (k', v') (dict_set d k v) -> (k' = k /\ v' = v) \/ In (k', v') d.
Proof.
  induction d as [|[k0 v0] d IH]; simpl.
  - intros [[= <- <-]|[]]. by left.
  - destruct (bool_decide (k0 = k)) eqn:E; simpl.
    + intros [[= <- <-]|Hin]; [by left | right; by right].
    + intros [Heq|Hin]; [right; by left|].
      destruct (IH Hin) as [?|?]; [by left | right; by right].
Qed.

Lemma split_aux_not_nil sep skip cur s : split_aux sep skip cur s <> [].
Proof.
  revert skip cur. induction s as [|c s IH]; intros skip cur; simpl; [done|].
  destruct skip; [|apply IH]. destruct (startswith sep (c :: s)); [done|apply IH].
Qed.

End DictFacts.

(* ===================================================================== *)
(** * Properties of the error stream parser                               *)
(* ===================================================================== *)
Section RulesFacts.
Import Py Rules.
Context `{Library}.

Lemma process_lines_app single error l1 l2 st :
  process_lines single error (l1 ++ l2) st =
  match process_lines single error l1 st with
  | Ok (Finished st') => process_lines single error l2 st'
  | other => other
  end.
Proof.
  revert st. induction l1 as [|line l1 IH]; intros st; simpl; [done|].
  destruct (json_loads line) as [s_err|]; [|done].
  destruct (body single line s_err st) as [st'|e]; simpl; [apply IH | done].
Qed.

(** C9, as the code has it. When the lines before a line that is not JSON
    were all handled without an exception, [parse_suricata_error] returns at
    that line: the errors gathered so far followed by one raw record that
    holds the whole input, and the warnings gathered so far. The lines after
    it play no part in the result. *)
Theorem parse_returns_raw_record_at_bad_line
  (error : str) (single : bool) (before : list str) (bad : str)
  (after : list str) (st : locals) :
  iter_lines error = before ++ bad :: after ->
  json_loads bad = None ->
  process_lines single error before init_locals = Ok (Finished st) ->
  parse_suricata_error error single =
    Ok {| errors := errors (ret st) ++ [raw_record error];
          warnings := warnings (ret st) |}.
Proof.
  intros Hlines Hbad Hbefore. unfold parse_suricata_error.
  rewrite Hlines, process_lines_app, Hbefore. simpl. by rewrite Hbad.
Qed.

(** *** One warning per undefined variable *)

Lemma variable_message_inj v1 v2 :
  variable_message v1 = variable_message v2 -> v1 = v2.
Proof.
  unfold variable_message. intros Heq.
  do 3 apply app_inv_head in Heq. by apply app_inv_tail in Heq.
Qed.

Lemma dollar_inj (v1 v2 : str) : ("$" ++ v1 : str) = "$" ++ v2 -> v1 = v2.
Proof. intros Heq. by apply app_inv_head in Heq. Qed.

Lemma dataset_message_other d v : dataset_message d <> variable_message v.
Proof. unfold dataset_message, variable_message. simpl. discriminate. Qed.

Lemma file_message_other f v : file_message f <> variable_message v.
Proof. unfold file_message, variable_message. simpl. discriminate. Qed.

Lemma message_of_setitem eng eng' m :
  setitem eng "message" (JStr m) = Ok eng' -> message_of eng' = Some (JStr m).
Proof.
  destruct eng; simpl; try discriminate. intros [= <-]. simpl.
  apply dict_get_set_eq.
Qed.

Lemma on_variable_error_effect eng st st' :
  on_variable_error eng st = Ok st' -> step_effect st st'.
Proof.
  unfold on_variable_error. intros Hb. crunch.
  - right; left. apply negb_true_iff, bool_decide_eq_false_1 in Heqb.
    eexists _, _. split; [exact Heqb|]. simpl.
    split; [done|]. split; [done|]. by eapply message_of_setitem.
  - by left.
Qed.

Lemma set_last_line_effect st n st' :
  set_last_line st n = Ok st' ->
  warnings (ret st') = warnings (ret st) /\ variable_list st' = variable_list st.
Proof. unfold set_last_line. intros Hb. by crunch. Qed.

Lemma on_dataset_error_effect eng st s :
  on_dataset_error eng st = Ok s -> step_ok st s.
Proof.
  unfold on_dataset_error. intros Hb. crunch; simpl; [|done].
  right; right. eexists _, _. simpl. split; [done|]. split; [done|].
  split; [by eapply message_of_setitem|]. apply dataset_message_other.
Qed.

Lemma on_rule_file_error_effect eng st s :
  on_rule_file_error eng st = Ok s -> step_ok st s.
Proof.
  unfold on_rule_file_error. intros Hb. crunch; simpl; [|done].
  right; right. eexists _, _. simpl. split; [done|]. split; [done|].
  split; [by eapply message_of_setitem|]. apply file_message_other.
Qed.

Lemma on_signature_error_effect line eng st s :
  on_signature_error line eng st = Ok s ->
  match s with
  | Continue st' | Below _ st' =>
      warnings (ret st') = warnings (ret st) /\ variable_list st' = variable_list st
  end.
Proof.
  unfold on_signature_error. intros Hb.
  crunch; try done; by eapply set_last_line_effect.
Qed.

Lemma on_error_effect line errno eng st st' :
  on_error line errno eng st = Ok st' ->
  warnings (ret st') = warnings (ret st) /\ variable_list st' = variable_list st.
Proof.
  unfold on_error. intros Hb.
  crunch; try done;
    match goal with
    | Hs : on_signature_error _ _ _ = Ok _ |- _ =>
        apply on_signature_error_effect in Hs; simpl in Hs; exact Hs
    end.
Qed.

Lemma body_effect single line s_err st st' :
  body single line s_err st = Ok st' -> step_effect st st'.
Proof.
  unfold body. intros Hb.
  crunch;
    repeat match goal with
    | Hs : on_variable_error _ _ = Ok _ |- _ => apply on_variable_error_effect in Hs
    | Hs : on_dataset_error _ _ = Ok _ |- _ =>
        apply on_dataset_error_effect in Hs; simpl in Hs
    | Hs : on_rule_file_error _ _ = Ok _ |- _ =>
        apply on_rule_file_error_effect in Hs; simpl in Hs
    | Hs : on_error _ _ _ _ = Ok _ |- _ => apply on_error_effect in Hs
    end;
    subst; try done; by left.
Qed.

Lemma variable_warnings_app v ws w :
  variable_warnings v (ws ++ [w]) =
  variable_warnings v ws ++ (if is_variable_warning v w then [w] else []).
Proof. unfold variable_warnings. rewrite List.filter_app. simpl. by destruct (is_variable_warning v w). Qed.

Lemma step_effect_once st st' :
  once_per_variable st -> step_effect st st' -> once_per_variable st'.
Proof.
  intros Hinv [[Hw Hv]|[(u & w & Hnew & Hv & Hw & Hm)|(w & m & Hv & Hw & Hm & Hother)]] v;
    specialize (Hinv v).
  - by rewrite Hw, Hv.
  - rewrite Hw, Hv, variable_warnings_app, length_app, Hinv.
    unfold is_variable_warning, str_eqb. rewrite Hm.
    destruct (decide (v = u)) as [->|Hne].
    + rewrite (bool_decide_eq_false_2 (_ ∈ variable_list st)) by done.
      rewrite (bool_decide_eq_true_2 (variable_message u = _)) by done.
      rewrite bool_decide_eq_true_2; [done|].
      apply elem_of_app. right. by apply list_elem_of_singleton.
    + rewrite (bool_decide_eq_false_2 (variable_message u = _)).
      2:{ intros Heq. apply variable_message_inj in Heq. congruence. }
      simpl. rewrite Nat.add_0_r.
      apply (f_equal (fun b : bool => if b then 1%nat else 0%nat)).
      apply bool_decide_ext. rewrite elem_of_app, list_elem_of_singleton.
      split; [tauto|]. intros [Hin|Heq]; [done|]. apply dollar_inj in Heq. congruence.
  - rewrite Hw, Hv, variable_warnings_app, length_app, Hinv.
    unfold is_variable_warning, str_eqb. rewrite Hm.
    rewrite (bool_decide_eq_false_2 (m = _)) by apply Hother.
    simpl. lia.
Qed.

Lemma process_lines_once single error lines st :
  once_per_variable st ->
  match process_lines single error lines st with
  | Ok (Finished st') => once_per_variable st'
  | Ok (Returned r) =>
      exists st', once_per_variable st' /\ warnings r = warnings (ret st')
  | Raise _ => True
  end.
Proof.
  revert st. induction lines as [|line lines IH]; intros st Hinv; simpl; [done|].
  destruct (json_loads line) as [s_err|]; [|by exists st].
  destruct (body single line s_err st) as [st'|e] eqn:Hbody; simpl; [|done].
  apply IH. eapply step_effect_once; [done|]. by eapply body_effect.
Qed.

Lemma once_init : once_per_variable init_locals.
Proof.
  intros v. reflexivity.
Qed.

(** *** Errors on a collected variable *)

Lemma eq_int_unique v a b : eq_int v a = true -> a <> b -> eq_int v b = false.
Proof.
  destruct v as [| flag | z | f | | |]; simpl; try discriminate; intros Ha Hne.
  - destruct flag; lia.
  - lia.
  - destruct f as [m e| |]; simpl in *; try discriminate.
    destruct (0 <=? e) eqn:He; [lia|].
    apply Z.eqb_eq in Ha. apply Z.eqb_neq. subst m.
    assert (0 < 2 ^ (- e)) by (apply Z.pow_pos_nonneg; lia). nia.
Qed.

Lemma any_in_found needles needle message :
  needle ∈ needles -> contains needle message = true ->
  any_in needles (JStr message) = Ok true.
Proof.
  induction needles as [|n needles IH]; intros Hin Hc; [by apply elem_of_nil in Hin|].
  simpl. destruct (contains n message) eqn:Hn; [done|].
  apply elem_of_cons in Hin as [->|Hin]; [congruence|]. by apply IH.
Qed.

Lemma source_not_error_code : ("source" : str) <> "error_code".
Proof. discriminate. Qed.
Lemma source_not_message : ("source" : str) <> "message".
Proof. discriminate. Qed.

Lemma body_suppresses single line s_err st (message variable : str) :
  engine_record s_err 39 message ->
  variable ∈ variable_list st ->
  contains variable message = true ->
  exists st',
    body single line s_err st = Ok st' /\
    errors (ret st') = errors (ret st) /\
    warnings (ret st') = warnings (ret st) /\
    variable_list st' = variable_list st.
Proof.
  intros (d & e & errno & -> & Heng & Hcode & H39 & Hmsg) Hin Hc.
  simpl in Heng, Hcode, Hmsg.
  unfold body. simpl. rewrite Heng. simpl.
  rewrite dict_get_set_ne by apply source_not_error_code. rewrite Hcode. simpl.
  unfold in_ints, RULEFILE_ERRNO. simpl. rewrite H39. simpl.
  destruct single; simpl; [by exists st|].
  unfold VARIABLE_ERROR, OPENING_DATASET_FILE, OPENING_RULE_FILE.
  rewrite !(eq_int_unique errno 39) by (done || lia). simpl.
  unfold on_error, in_ints, USELESS_ERRNO. simpl.
  rewrite !(eq_int_unique errno 39) by (done || lia). simpl.
  rewrite H39. unfold on_signature_error. simpl.
  rewrite dict_get_set_ne by apply source_not_message. rewrite Hmsg. simpl.
  destruct (contains _ message && ignore_next st); simpl; [by exists st|].
  destruct (ignore_next st); simpl; [by eexists|].
  rewrite (any_in_found _ variable) by done. simpl. by exists st.
Qed.

(** C10. Whatever the input, the result holds at most one warning for each
    undefined variable; and once a variable has been collected, a record
    with error code 39 whose message contains the collected name (the
    variable with its dollar sign) adds nothing to the errors, nor to the
    warnings. *)
Theorem one_warning_per_variable_and_its_errors_suppressed :
  (forall (error : str) (single : bool) (r : result) (v : str),
     parse_suricata_error error single = Ok r ->
     (length (variable_warnings v (warnings r)) <= 1)%nat)
  /\
  (forall (error : str) (single : bool) (before : list str) (line : str)
          (st : locals) (s_err : json) (message variable : str),
     process_lines single error before init_locals = Ok (Finished st) ->
     variable ∈ variable_list st ->
     json_loads line = Some s_err ->
     engine_record s_err 39 message ->
     contains variable message = true ->
     exists st',
       process_lines single error (before ++ [line]) init_locals = Ok (Finished st') /\
       errors (ret st') = errors (ret st) /\
       warnings (ret st') = warnings (ret st) /\
       variable_list st' = variable_list st).
Proof.
  split.
  - intros error single r v Hparse. unfold parse_suricata_error in Hparse.
    pose proof (process_lines_once single error (iter_lines error) init_locals once_init) as Hinv.
    destruct (process_lines _ _ _ _) as [[st|r']|]; simpl in Hparse; [| |done].
    + injection Hparse as <-. rewrite (Hinv v). destruct (bool_decide _); lia.
    + injection Hparse as <-. destruct Hinv as (st' & Hst' & ->).
      rewrite (Hst' v). destruct (bool_decide _); lia.
  - intros error single before line st s_err message variable Hbefore Hin Hloads Hrec Hc.
    destruct (body_suppresses single line s_err st message variable Hrec Hin Hc)
      as (st' & Hbody & He & Hw & Hv).
    exists st'. rewrite process_lines_app, Hbefore. simpl. rewrite Hloads, Hbody. done.
Qed.

End RulesFacts.
(* ===================================================================== *)
(** * Properties of the language server                                   *)
(* ===================================================================== *)
Section ServerFacts.
Import Py LS.
Context `{AL : AstLayer} `{FL : !FileLayer}.

(** *** The names the module does not bind *)

(** Line 367 is reached by every call and raises. *)
Lemma get_definition_unbound def_file def_line def_char self :
  get_definition def_file def_line def_char self = (Raise NameError, self).
Proof.
  unfold get_definition.
  by destruct (get_code_line def_file def_line ReadBackward true) as [[pre curr] post].
Qed.

(** C8, as the code has it. [get_definition] leaves the server object (the
    workspace mapping, the Global Symbol Table, the file objects) as it
    found it; but it returns neither a symbol nor nothing: every call
    raises [NameError] at line 367, where [get_line_prefix], a name the
    module does not bind, is evaluated outside any [try]. *)
Theorem definition_query_raises_NameError
  (def_file : SuricataFile) (def_line def_char : Z) (self : LangServer) :
  snd (get_definition def_file def_line def_char self) = self
  /\ fst (get_definition def_file def_line def_char self) = Raise NameError
  /\ (forall found, fst (get_definition def_file def_line def_char self) <> Ok found).
Proof. rewrite get_definition_unbound. by split_and!. Qed.


(** C6, as the code has it. For a document of the workspace
    [serve_signature] raises [NameError] at line 441, where
    [get_line_prefix] is evaluated outside any [try]: no callee is
    resolved, no active parameter is computed, and nothing is written or
    changed. *)
Theorem signature_request_raises_in_the_workspace
  (request : Request) (self : LangServer) (l : loc) (file_obj : SuricataFile) :
  dict_get (workspace self) (path_from_uri (uri request)) = Some l ->
  store self !! l = Some file_obj ->
  serve_signature request self = (Raise NameError, self).
Proof.
  intros Hpath Hfile. unfold serve_signature, mbind, workspace_get, gets, deref.
  cbv zeta. rewrite Hpath, Hfile.
  by destruct (get_code_line file_obj (position_line request) ReadBackward true)
    as [[pre curr] post].
Qed.


(** *** Reference finder *)









(** *** Workspace index *)

(** C4. For a file of the workspace whose content, read again from disk,
    has the fingerprint it had, [update_workspace_file] with [read_file]
    reports no change and no error. Its only effect is that of
    [load_from_disk] on the file object: the workspace mapping still holds
    the same object under the path, the Global Symbol Table is untouched,
    and the outcome is the same whatever [parse_file] would do, so the
    syntax tree is not rebuilt. *)
Theorem unchanged_fingerprint_skips_the_parse
  (self : LangServer) (filepath : str) (allow_empty update_links : bool)
  (l : loc) (f f' : SuricataFile) :
  dict_get (workspace self) filepath = Some l ->
  store self !! l = Some f ->
  load_from_disk f = (Ok None, f') ->
  hash f' = hash f ->
  let after := set_store self (<[l := f']> (store self)) (next_loc self) in
  update_workspace_file filepath true allow_empty update_links self
    = (Ok (false, None), after)
  /\ (forall other,
        @update_workspace_file _ (with_parse_file FL other)
          filepath true allow_empty update_links self
        = (Ok (false, None), after))
  /\ workspace after = workspace self
  /\ dict_get (workspace after) filepath = Some l
  /\ store after !! l = Some f'
  /\ obj_tree after = obj_tree self.
Proof.
  intros Hpath Hfile Hload Hhash after.
  assert (Hrun : forall layer : FileLayer,
            @load_from_disk _ layer = @load_from_disk _ FL ->
            @update_workspace_file _ layer filepath true allow_empty update_links self
            = (Ok (false, None), after)).
  { intros layer Hsame.
    unfold update_workspace_file, try_except, read_from_disk, mbind, workspace_get,
      gets, ret, deref, update, modify, lift.
    simpl. rewrite Hpath. simpl. rewrite Hfile. rewrite Hsame, Hload. simpl.
    by rewrite bool_decide_eq_true_2 by done. }
  split; [by apply Hrun|]. split; [intros other; by apply Hrun|].
  subst after. simpl. split; [done|]. split; [done|].
  split; [apply lookup_insert_eq | done].
Qed.

Lemma remove_objects_lookup (names : list str) (tree : gmap str (list Symbol))
  (key : str) :
  remove_objects names tree !! key
  = if bool_decide (key ∈ names) then None else tree !! key.
Proof.
  unfold remove_objects. revert tree.
  induction names as [|k names IH]; intros tree; cbn [fold_left].
  - by rewrite bool_decide_eq_false_2 by apply not_elem_of_nil.
  - rewrite IH. destruct (decide (key ∈ names)) as [Hin|Hout].
    + rewrite !bool_decide_eq_true_2; [done|by right|done].
    + rewrite (bool_decide_eq_false_2 (key ∈ names)) by done.
      destruct (decide (k = key)) as [->|Hne].
      * rewrite bool_decide_eq_true_2 by left. apply lookup_delete_eq.
      * rewrite bool_decide_eq_false_2; [by apply lookup_delete_ne|].
        intros Hin. apply elem_of_cons in Hin as [->|Hin]; done.
Qed.

(** C2, as the code has it. When a file is closed and is no longer on disk,
    the server removes from the Global Symbol Table every entry keyed by a
    name of the file's [global_dict] and leaves every other entry alone; the
    workspace mapping and the file objects are left as they were, so the
    file's object stays in the workspace under its path. *)
Theorem close_of_deleted_file_removes_its_global_names
  (request : Request) (did_open : bool) (self : LangServer) :
  isfile (path_from_uri (uri request)) = false ->
  let filepath := path_from_uri (uri request) in
  let self' := snd (serve_onSave request did_open true self) in
  workspace self' = workspace self
  /\ store self' = store self
  /\ (forall l f tree,
        dict_get (workspace self) filepath = Some l ->
        store self !! l = Some f ->
        ast f = Some tree ->
        fst (serve_onSave request did_open true self) = Ok tt
        /\ dict_get (workspace self') filepath = Some l
        /\ store self' !! l = Some f
        /\ (forall key, In key (map fst (global_dict tree)) ->
                        obj_tree self' !! key = None)
        /\ (forall key, ~ In key (map fst (global_dict tree)) ->
                        obj_tree self' !! key = obj_tree self !! key)).
Proof.
  intros Hgone filepath self'. subst self' filepath. unfold serve_onSave.
  rewrite Hgone. simpl.
  unfold mbind, workspace_get, gets, deref, modify, ret. simpl.
  destruct (dict_get (workspace self) _) as [l|] eqn:Hpath; simpl;
    [|split; [done|]; split; [done|]; by intros ? ? ? [=]].
  destruct (store self !! l) as [f|] eqn:Hfile; simpl;
    [|split; [done|]; split; [done|]; intros ? ? ? [= <-]; by rewrite Hfile].
  destruct (ast f) as [tree|] eqn:Hast; simpl.
  - split; [done|]. split; [done|].
    intros l' f' tree' Hl' Hf' Hast'.
    assert (tree' = tree) as -> by congruence.
    assert (l' = l) as -> by congruence. assert (f' = f) as -> by congruence.
    split; [done|].
    split; [done|]. split; [done|]. split; intros key Hkey.
    + rewrite remove_objects_lookup.
      by rewrite bool_decide_eq_true_2 by by apply list_elem_of_In.
    + rewrite remove_objects_lookup.
      by rewrite bool_decide_eq_false_2 by by rewrite list_elem_of_In.
  - split; [done|]. split; [done|]. intros l' f' tree' Hl' Hf' Hast'. congruence.
Qed.

(** *** Initial indexing *)

Lemma dict_set_keys {V} (d : list (str * V)) (k : str) (v : V) :
  map fst (dict_set d k v)
  = if bool_decide (k ∈ map fst d) then map fst d else map fst d ++ [k].
Proof.
  induction d as [|[k0 v0] d IH]; cbn [dict_set map fst].
  - by rewrite bool_decide_eq_false_2 by apply not_elem_of_nil.
  - destruct (bool_decide (k0 = k)) eqn:Hk.
    + apply bool_decide_eq_true_1 in Hk. subst k0. cbn [map fst].
      by rewrite bool_decide_eq_true_2 by left.
    + apply bool_decide_eq_false_1 in Hk. cbn [map fst]. rewrite IH.
      destruct (decide (k ∈ map fst d)) as [Hin|Hout].
      * rewrite !bool_decide_eq_true_2; [done|by right|done].
      * rewrite !bool_decide_eq_false_2; [done| |done].
        intros Hin. apply elem_of_cons in Hin as [->|Hin]; done.
Qed.

Lemma dict_set_keys_NoDup {V} (d : list (str * V)) (k : str) (v : V) :
  NoDup (map fst d) -> NoDup (map fst (dict_set d k v)).
Proof.
  intros Hd. rewrite dict_set_keys. destruct (decide (k ∈ map fst d)) as [Hin|Hout].
  - by rewrite bool_decide_eq_true_2.
  - rewrite bool_decide_eq_false_2 by done. apply NoDup_app. split; [done|].
    split; [|apply NoDup_singleton].
    intros x Hx Hk. apply list_elem_of_singleton in Hk. by subst.
Qed.

(** [results], once every worker has been handed its file: one entry per
    path, holding what [init_file] returns for it. *)
Lemma fold_dict_set_keeps {V} (g : str -> V) (file_list : list str)
  (start : list (str * V)) (p : str) :
  In (p, g p) start ->
  In (p, g p)
    (fold_left (fun results filepath => dict_set results filepath (g filepath))
       file_list start).
Proof.
  revert start. induction file_list as [|p1 file_list IH]; intros d Hin; [done|].
  cbn [fold_left]. apply IH.
  destruct (decide (p1 = p)) as [->|Hne]; [apply dict_get_In, dict_get_set_eq|].
  clear IH. induction d as [|[k0 v0] d IHd]; [done|]. simpl.
  destruct (bool_decide (k0 = p1)) eqn:Hk.
  - apply bool_decide_eq_true_1 in Hk. subst k0.
    destruct Hin as [[= -> _]|Hin]; [done|by right].
  - destruct Hin as [Heq|Hin]; [by left|right; by apply IHd].
Qed.

Lemma results_spec {V} (g : str -> V) (file_list : list str) (start : list (str * V)) :
  NoDup (map fst start) ->
  let results :=
    fold_left (fun results filepath => dict_set results filepath (g filepath))
      file_list start in
  NoDup (map fst results)
  /\ (forall p v, In (p, v) results ->
                  In (p, v) start \/ (In p file_list /\ v = g p))
  /\ (forall p, In p file_list -> In (p, g p) results).
Proof.
  revert start. induction file_list as [|p0 file_list IH]; intros start Hkeys.
  - simpl. split; [done|]. split; [by left|]. intros p [].
  - cbn [fold_left].
    destruct (IH (dict_set start p0 (g p0))) as (Hk & Hv & Hall);
      [by apply dict_set_keys_NoDup|].
    split; [done|]. split.
    + intros p v Hin. apply Hv in Hin as [Hin|[Hin ->]].
      * apply dict_set_In in Hin as [[-> ->]|Hin]; [right; split; [by left|done]|by left].
      * right. split; [by right|done].
    + intros p [<-|Hin]; [|by apply Hall].
      apply fold_dict_set_keeps, dict_get_In, dict_get_set_eq.
Qed.

Lemma merge_result_spec p0 r0 self :
  exists self1,
    merge_result tt (p0, Ok r0) self = (Ok tt, self1)
    /\ merged self self1 [(p0, Ok r0)].
Proof.
  unfold merge_result, mbind, lift, modify, alloc, workspace_set. simpl.
  destruct r0 as [f|err]; eexists; (split; [done|]); unfold merged; simpl.
  - split; [done|]. split; [lia|]. split.
    { intros l Hl. apply lookup_insert_ne. lia. }
    split; [done|]. split.
    { intros p Hp. apply dict_get_set_ne. intros ->. apply Hp. by left. }
    split; [by intros p err [[=]|[]]|].
    intros p g [[= <- <-]|[]]. exists (next_loc self).
    split; [apply dict_get_set_eq|]. split; [apply lookup_insert_eq | lia].
  - split; [done|]. split; [lia|]. split; [done|].
    split; [intros m Hm; apply in_or_app; by left|]. split; [done|].
    split; [|by intros p g [[=]|[]]].
    intros p err' [[= <- <-]|[]]. split; [|done].
    apply in_or_app. right. by left.
Qed.

Lemma merge_spec results self :
  NoDup (map fst results) ->
  (forall p v, In (p, v) results -> exists r, v = Ok r) ->
  exists self', foldM merge_result results tt self = (Ok tt, self')
                /\ merged self self' results.
Proof.
  revert self. induction results as [|[p0 v0] results IH]; intros self Hkeys Hok.
  - exists self. split; [done|]. unfold merged.
    split_and!; try done; by intros ? ? [].
  - cbn [map fst] in Hkeys. apply NoDup_cons in Hkeys as [Hfresh Hkeys].
    destruct (Hok p0 v0) as [r0 ->]; [by left|].
    destruct (merge_result_spec p0 r0 self) as (self1 & Hrun1 & Hm1).
    destruct (IH self1 Hkeys) as (self' & Hrun & Hm).
    { intros p v Hin. apply (Hok p v). by right. }
    exists self'. split.
    { cbn [foldM]. unfold mbind. by rewrite Hrun1. }
    destruct Hm1 as (Ht1 & Hn1 & Hs1 & Hp1 & Hw1 & He1 & Hf1).
    destruct Hm as (Ht & Hn & Hs & Hp & Hw & He & Hf).
    assert (Hother : forall p, p <> p0 ->
              dict_get (workspace self1) p = dict_get (workspace self) p).
    { intros p Hne. apply Hw1. simpl. intros Hin.
      by apply list_elem_of_singleton in Hin. }
    unfold merged. split; [congruence|]. split; [lia|]. split.
    { intros l Hl. rewrite Hs by lia. by apply Hs1. }
    split; [intros m Hm; by apply Hp, Hp1|]. split.
    { intros p Hp0. cbn [map fst] in Hp0.
      rewrite Hw by (intros Hin; apply Hp0; by right).
      apply Hother. intros ->. apply Hp0. by left. }
    split.
    + intros p err [[= -> ->]|Hin].
      * destruct (He1 p err) as [Hmsg Hsame]; [by left|]. split; [by apply Hp|].
        by rewrite Hw.
      * destruct (He p err Hin) as [Hmsg Hsame]. split; [done|].
        rewrite Hsame. apply Hother. intros ->.
        apply Hfresh. apply list_elem_of_In. by apply (in_map fst) in Hin.
    + intros p f [[= -> ->]|Hin].
      * destruct (Hf1 p f) as (l & Hl & Hstore & Hlt); [by left|]. exists l.
        rewrite Hw by done. split; [done|]. split; [|lia]. by rewrite Hs.
      * by apply Hf.
Qed.

(** C3, as the code has it. When every worker has returned, the merge ends
    and, for each path of the file list: where the worker failed (the file
    could not be read, or its parse raised) a message of type 1 that names
    the path and the failure is queued and the workspace entry of the path
    is as it was before, so absent on a fresh server; where the worker
    succeeded the workspace maps the path to a new file object that holds
    what the worker returned. The Global Symbol Table is left as it was. *)
Theorem workspace_init_merges_worker_results (self : LangServer) :
  (forall p, In p (rule_files self) -> exists r, init_file p = Ok r) ->
  exists self',
    workspace_init self = (Ok tt, self')
    /\ obj_tree self' = obj_tree self
    /\ forall p, In p (rule_files self) ->
         (forall err, init_file p = Ok (inr err) ->
            In (1, init_failed p err) (post_messages self')
            /\ dict_get (workspace self') p = dict_get (workspace self) p)
         /\ (forall f, init_file p = Ok (inl f) ->
               exists l, dict_get (workspace self') p = Some l
                         /\ store self' !! l = Some f).
Proof.
  intros Hworkers. unfold workspace_init, mbind, gets. simpl.
  destruct (results_spec init_file (rule_files self) []) as (Hkeys & Hvals & Hall);
    [constructor|].
  destruct (merge_spec _ self Hkeys) as (self' & Hrun & Hm).
  { intros p v Hin. apply Hvals in Hin as [[]|[Hin ->]]. by apply Hworkers. }
  exists self'. split; [done|].
  destruct Hm as (Ht & Hn & Hs & Hp & Hw & He & Hf). split; [done|].
  intros p Hin. split.
  - intros err Herr. apply He. rewrite <- Herr. by apply Hall.
  - intros f Hfile. destruct (Hf p f) as (l & Hl & Hstore & _).
    + rewrite <- Hfile. by apply Hall.
    + by exists l.
Qed.

End ServerFacts.

(* ===================================================================== *)
(** * The properties at work on the small workspace                       *)
(* ===================================================================== *)
Section Runs.
Import Py Rules LS Scenario.
Existing Instance ast_layer.
Existing Instance file_layer.
Existing Instance library.

(** Closing [a.rules] after it was deleted: the table loses [t], the
    workspace keeps the file. *)
Lemma close_of_deleted_file_witness :
  let request := request_at "file://a.rules" 0 0 in
  let self' := snd (@serve_onSave _ file_layer_after_delete request false true indexed) in
  fst (@serve_onSave _ file_layer_after_delete request false true indexed) = Ok tt
  /\ dict_get (workspace self') "a.rules" = Some 0%nat
  /\ store self' !! 0%nat = Some file_a
  /\ (forall key, In key (map fst (global_dict 0%nat)) -> obj_tree self' !! key = None)
  /\ (forall key, ~ In key (map fst (global_dict 0%nat)) ->
                  obj_tree self' !! key = obj_tree indexed !! key).
Proof.
  intros request self'.
  apply (proj2 (proj2 (@close_of_deleted_file_removes_its_global_names
                         _ file_layer_after_delete request false indexed
                         ltac:(reflexivity)))
           0%nat file_a 0%nat);
    reflexivity.
Defined.

(** C2 as stated does not hold there: the path is still in the workspace. *)
Lemma closed_file_stays_in_the_workspace :
  let request := request_at "file://a.rules" 0 0 in
  let self' := snd (@serve_onClose _ file_layer_after_delete request indexed) in
  @isfile _ file_layer_after_delete "a.rules" = false
  /\ dict_get (workspace self') "a.rules" = Some 0%nat
  /\ store self' !! 0%nat = Some file_a
  /\ workspace self' = workspace indexed.
Proof. intros request self'. split_and!; reflexivity. Qed.

(** Indexing the directory: [a.rules] and [b.rules] enter the workspace,
    [c.rules], which cannot be read, leaves a message. *)
Lemma workspace_init_witness :
  exists self',
    workspace_init fresh = (Ok tt, self')
    /\ obj_tree self' = obj_tree fresh
    /\ forall p, In p (rule_files fresh) ->
         (forall err, init_file p = Ok (inr err) ->
            In (1, init_failed p err) (post_messages self')
            /\ dict_get (workspace self') p = dict_get (workspace fresh) p)
         /\ (forall f, init_file p = Ok (inl f) ->
               exists l, dict_get (workspace self') p = Some l
                         /\ store self' !! l = Some f).
Proof.
  apply (workspace_init_merges_worker_results fresh).
  intros p Hin. vm_compute in Hin.
  destruct Hin as [<-|[<-|[<-|[]]]]; eexists; reflexivity.
Defined.

(** C3 as stated does not hold there: [a.rules] is indexed and declares [t], and
    the Global Symbol Table has no entry for it. *)
Lemma indexed_symbols_are_not_in_the_table :
  let self' := snd (workspace_init fresh) in
  fst (workspace_init fresh) = Ok tt
  /\ init_file "a.rules" = Ok (inl file_a)
  /\ dict_get (workspace self') "a.rules" = Some 0%nat
  /\ store self' !! 0%nat = Some file_a
  /\ ast file_a = Some 0%nat
  /\ In ("t" : str) (map fst (global_dict 0%nat))
  /\ obj_tree self' !! ("t" : str) = None.
Proof. intros self'. split_and!; try reflexivity. by left. Qed.

(** Saving [a.rules] with the content it had. *)
Lemma unchanged_fingerprint_witness :
  update_workspace_file "a.rules" true false false indexed
    = (Ok (false, None),
       set_store indexed (<[0%nat := file_a]> (store indexed)) (next_loc indexed))
  /\ (forall other,
        @update_workspace_file _ (with_parse_file file_layer other)
          "a.rules" true false false indexed
        = (Ok (false, None),
           set_store indexed (<[0%nat := file_a]> (store indexed)) (next_loc indexed))).
Proof.
  pose proof (unchanged_fingerprint_skips_the_parse indexed "a.rules" false false
                0%nat file_a file_a
                ltac:(reflexivity) ltac:(reflexivity)
                ltac:(reflexivity) ltac:(reflexivity)) as Hrun.
  split; [exact (proj1 Hrun) | exact (proj1 (proj2 Hrun))].
Defined.


(** A query at the empty line of [b.rules]. *)
Lemma definition_query_witness :
  snd (get_definition file_b 3 0 indexed) = indexed
  /\ fst (get_definition file_b 3 0 indexed) = Raise NameError
  /\ (forall found, fst (get_definition file_b 3 0 indexed) <> Ok found).
Proof. exact (definition_query_raises_NameError file_b 3 0 indexed). Defined.


(** Inside the call [x.foo(1, b=2)] of [b.rules]. *)
Lemma signature_request_witness :
  serve_signature (request_at "file://b.rules" 1 9) indexed = (Raise NameError, indexed).
Proof.
  exact (signature_request_raises_in_the_workspace (request_at "file://b.rules" 1 9)
           indexed 1%nat file_b eq_refl eq_refl).
Defined.


(** An error, then a line that is not JSON. *)
Lemma raw_record_witness :
  let error := stream [dumps bad_rule; ("oops" : str); dumps bad_rule] in
  exists st,
    process_lines false error [dumps bad_rule ++ [nl]] init_locals = Ok (Finished st)
    /\ parse_suricata_error error false
       = Ok {| errors := errors (Rules.ret st) ++ [raw_record error];
               warnings := warnings (Rules.ret st) |}.
Proof.
  intros error. eexists. split; [vm_compute; reflexivity|].
  apply (parse_returns_raw_record_at_bad_line error false
           [dumps bad_rule ++ [nl]] (("oops" : str) ++ [nl])
           [dumps bad_rule ++ [nl]]);
    vm_compute; reflexivity.
Defined.

(** C9 as stated does not hold there: after an error the raw record is not alone
    in the list, and after a record without [engine] the call raises. *)
Lemma raw_record_is_not_alone :
  let error := stream [dumps bad_rule; ("oops" : str)] in
  let other := stream [dumps empty_record; ("oops" : str)] in
  In (("oops" : str) ++ [nl]) (iter_lines error)
  /\ json_loads (("oops" : str) ++ [nl]) = None
  /\ (exists first,
        first <> raw_record error
        /\ parse_suricata_error error false
           = Ok {| errors := [first; raw_record error]; warnings := [] |})
  /\ In (("oops" : str) ++ [nl]) (iter_lines other)
  /\ parse_suricata_error other false = Raise KeyError.
Proof.
  vm_compute. split; [right; by left|]. split; [done|]. split.
  - eexists. split; [|reflexivity]. discriminate.
  - split; [right; by left|done].
Qed.

(** A variable reported twice, then the rule that uses it: one warning, and
    no error for the rule. *)
Lemma variable_warning_witness :
  let error := stream [dumps undefined_variable; dumps undefined_variable;
                       dumps rule_with_variable] in
  let before := [dumps undefined_variable ++ [nl]; dumps undefined_variable ++ [nl]] in
  (exists r, parse_suricata_error error false = Ok r
             /\ (length (variable_warnings "HOME" (warnings r)) <= 1)%nat)
  /\ exists st',
       process_lines false error (before ++ [dumps rule_with_variable ++ [nl]])
         init_locals = Ok (Finished st')
       /\ errors (Rules.ret st') = errors (Rules.ret home_collected)
       /\ warnings (Rules.ret st') = warnings (Rules.ret home_collected)
       /\ variable_list st' = variable_list home_collected.
Proof.
  intros error before. split.
  - eexists. split; [vm_compute; reflexivity|].
    eapply (proj1 one_warning_per_variable_and_its_errors_suppressed error false).
    vm_compute. reflexivity.
  - apply (proj2 one_warning_per_variable_and_its_errors_suppressed error false before
             (dumps rule_with_variable ++ [nl]) home_collected rule_with_variable
             ("error parsing signature " ++ quoted "alert ip $HOME any -> any any (sid:1;)"
              ++ " from file /tmp/file.rules at line 1")
             "$HOME").
    + vm_compute. reflexivity.
    + vm_compute. by left.
    + vm_compute. reflexivity.
    + do 3 eexists. repeat split; reflexivity.
    + vm_compute. reflexivity.
Defined.

End Runs.

(* ===================================================================== *)
(** * Further properties of the error stream parser                       *)
(* ===================================================================== *)
Section StreamFacts.
Import Py Rules Stream.
Context `{Library}.

(** *** Every record names its source *)

Lemma setitem_source eng eng' :
  setitem eng "source" (JStr SURICATA_SYNTAX_CHECK) = Ok eng' ->
  from_syntax_check eng'.
Proof.
  destruct eng; simpl; try discriminate. intros [= <-].
  eexists. split; [done|]. apply dict_get_set_eq.
Qed.

Lemma setitem_keeps_source eng eng' (k : str) v :
  k <> "source" ->
  from_syntax_check eng -> setitem eng k v = Ok eng' -> from_syntax_check eng'.
Proof.
  intros Hne (d & -> & Hd). simpl. intros [= <-].
  eexists. split; [done|]. by rewrite dict_get_set_ne.
Qed.

Lemma raw_record_source error : from_syntax_check (raw_record error).
Proof. by eexists. Qed.

Lemma set_last_line_source st n st' :
  all_from_syntax_check st -> set_last_line st n = Ok st' ->
  all_from_syntax_check st'.
Proof.
  intros [He Hw]. unfold set_last_line.
  destruct (rev (errors (ret st))) as [|last before] eqn:Hrev; [discriminate|].
  intros Hb. crunch. split; [|done]. simpl.
  assert (Hall : Forall from_syntax_check (last :: before)).
  { rewrite <- Hrev. by apply Forall_rev. }
  apply Forall_cons in Hall as [Hlast Hbefore].
  apply Forall_app. split; [by apply Forall_rev|].
  constructor; [|constructor].
  by apply (setitem_keeps_source last a "line" (JInt n)); [discriminate| |].
Qed.

Lemma add_error_source st e :
  all_from_syntax_check st -> from_syntax_check e ->
  all_from_syntax_check (add_error st e).
Proof.
  intros [He Hw] Hs. split; [|done]. simpl. apply Forall_app. split; [done|].
  by constructor.
Qed.

Lemma add_warning_source st w :
  all_from_syntax_check st -> from_syntax_check w ->
  all_from_syntax_check (add_warning st w).
Proof.
  intros [He Hw] Hs. split; [done|]. simpl. apply Forall_app. split; [done|].
  by constructor.
Qed.

Lemma add_variable_source st v :
  all_from_syntax_check st -> all_from_syntax_check (add_variable st v).
Proof. done. Qed.
Lemma add_file_source st f :
  all_from_syntax_check st -> all_from_syntax_check (add_file st f).
Proof. done. Qed.
Lemma set_ignore_next_source st b :
  all_from_syntax_check st -> all_from_syntax_check (set_ignore_next st b).
Proof. done. Qed.

(** The source of a record survives the other assignments to it. *)
Ltac sourced :=
  repeat match goal with
  | |- all_from_syntax_check (add_warning _ _) => apply add_warning_source
  | |- all_from_syntax_check (add_error _ _) => apply add_error_source
  | |- all_from_syntax_check (add_variable _ _) => apply add_variable_source
  | |- all_from_syntax_check (add_file _ _) => apply add_file_source
  | |- all_from_syntax_check (set_ignore_next _ _) => apply set_ignore_next_source
  | Hs : setitem ?e ?k ?v = Ok ?e' |- from_syntax_check ?e' =>
      apply (setitem_keeps_source e e' k v); [discriminate| |exact Hs]
  | Hs : set_last_line ?st _ = Ok ?st' |- all_from_syntax_check ?st' =>
      apply (set_last_line_source _ _ _) with (2 := Hs)
  end; try done.

Lemma on_variable_error_source eng st st' :
  from_syntax_check eng -> all_from_syntax_check st ->
  on_variable_error eng st = Ok st' -> all_from_syntax_check st'.
Proof.
  intros Heng Hst. unfold on_variable_error. intros Hb. crunch; by sourced.
Qed.

Lemma on_dataset_error_source eng st s :
  from_syntax_check eng -> all_from_syntax_check st ->
  on_dataset_error eng st = Ok s -> step_from_syntax_check s.
Proof.
  intros Heng Hst. unfold on_dataset_error. intros Hb. crunch; cbn [step_from_syntax_check]; by sourced.
Qed.

Lemma on_rule_file_error_source eng st s :
  from_syntax_check eng -> all_from_syntax_check st ->
  on_rule_file_error eng st = Ok s -> step_from_syntax_check s.
Proof.
  intros Heng Hst. unfold on_rule_file_error. intros Hb. crunch; cbn [step_from_syntax_check]; by sourced.
Qed.

Lemma on_signature_error_source line eng st s :
  from_syntax_check eng -> all_from_syntax_check st ->
  on_signature_error line eng st = Ok s -> step_from_syntax_check s.
Proof.
  intros Heng Hst. unfold on_signature_error. intros Hb.
  crunch; cbn [step_from_syntax_check];
    try lazymatch goal with |- from_syntax_check _ /\ _ => split end;
    by sourced.
Qed.

Lemma on_error_source line errno eng st st' :
  from_syntax_check eng -> all_from_syntax_check st ->
  on_error line errno eng st = Ok st' -> all_from_syntax_check st'.
Proof.
  intros Heng Hst. unfold on_error. intros Hb.
  crunch; try done;
    try match goal with
    | Hs : on_signature_error _ _ _ = Ok _ |- _ =>
        apply on_signature_error_source in Hs; [simpl in Hs|done|done];
        try destruct Hs
    end; by sourced.
Qed.

Lemma body_source single line s_err st st' :
  all_from_syntax_check st ->
  body single line s_err st = Ok st' -> all_from_syntax_check st'.
Proof.
  intros Hst. unfold body.
  destruct (getitem s_err "engine") as [eng0|]; cbn [bind]; [|discriminate].
  destruct (setitem eng0 "source" (JStr SURICATA_SYNTAX_CHECK)) as [eng|] eqn:Hsrc;
    cbn [bind]; [|discriminate].
  apply setitem_source in Hsrc. intros Hb.
  crunch; try done;
    repeat match goal with
    | Hs : on_dataset_error _ _ = Ok _ |- _ =>
        apply on_dataset_error_source in Hs;
        [cbn [step_from_syntax_check] in Hs; try destruct Hs|done|done]
    | Hs : on_rule_file_error _ _ = Ok _ |- _ =>
        apply on_rule_file_error_source in Hs;
        [cbn [step_from_syntax_check] in Hs; try destruct Hs|done|done]
    end; try done;
    first [by eapply on_variable_error_source | by eapply on_error_source].
Qed.

Lemma process_lines_source single error lines st :
  all_from_syntax_check st ->
  match process_lines single error lines st with
  | Ok (Finished st') => all_from_syntax_check st'
  | Ok (Returned r) =>
      Forall from_syntax_check (errors r) /\ Forall from_syntax_check (warnings r)
  | Raise _ => True
  end.
Proof.
  revert st. induction lines as [|line lines IH]; intros st Hst; simpl; [done|].
  destruct (json_loads line) as [s_err|].
  - destruct (body single line s_err st) as [st'|e] eqn:Hbody; simpl; [|done].
    apply IH. by eapply body_source.
  - destruct Hst as [He Hw]. split; [|done]. simpl.
    apply Forall_app. split; [done|]. constructor; [apply raw_record_source|done].
Qed.

(** X1. Whatever the input, every error and every warning of the result is a
    record whose [source] is the syntax check: the records of the engine
    get it before anything else is read from them, the later assignments
    to a record leave it, and the raw record is built with it. *)
Theorem every_record_names_the_syntax_check (error : str) (single : bool) (r : result) :
  parse_suricata_error error single = Ok r ->
  Forall from_syntax_check (errors r) /\ Forall from_syntax_check (warnings r).
Proof.
  unfold parse_suricata_error. intros Hparse.
  pose proof (process_lines_source single error (iter_lines error) init_locals) as Hinv.
  destruct (process_lines _ _ _ _) as [[st|r']|]; simpl in Hparse; [| |done].
  - injection Hparse as <-. apply Hinv. by split.
  - injection Hparse as <-. apply Hinv. by split.
Qed.

(** *** Records that are passed over *)

Ltac not_listed :=
  let Hin := fresh in
  intros Hin; apply list_elem_of_In in Hin;
  unfold USELESS_ERRNO, RULEFILE_ERRNO in Hin; simpl in Hin; lia.

Lemma in_ints_other errno (ns : list Z) (n : Z) :
  in_ints errno ns = true -> n ∉ ns -> eq_int errno n = false.
Proof.
  unfold in_ints. intros Hin Hn. apply existsb_exists in Hin as (m & Hm & Heq).
  apply (eq_int_unique errno m); [done|]. intros ->. apply Hn. by apply list_elem_of_In.
Qed.

Lemma not_in_ints errno (ns : list Z) (n : Z) :
  eq_int errno n = true -> n ∉ ns -> in_ints errno ns = false.
Proof.
  unfold in_ints. intros Heq Hn. apply not_true_is_false. intros Hin.
  apply existsb_exists in Hin as (m & Hm & Hm').
  rewrite (eq_int_unique errno m n) in Heq; [done|done|].
  intros ->. apply Hn. by apply list_elem_of_In.
Qed.

(** X2. A record whose error code is 40, 43 or 44 changes nothing, and in
    single mode neither does one whose code is 39 or 42; a record whose code
    is 101 never adds an error. *)
Theorem records_that_add_no_error
  (single : bool) (line : str) (s_err errno : json) (st : locals) :
  has_error_code s_err errno ->
  (in_ints errno USELESS_ERRNO = true -> body single line s_err st = Ok st)
  /\ (in_ints errno RULEFILE_ERRNO = true -> body true line s_err st = Ok st)
  /\ (forall st', eq_int errno VARIABLE_ERROR = true ->
                  body single line s_err st = Ok st' ->
                  errors (ret st') = errors (ret st)).
Proof.
  intros (d & e & -> & Heng & Hcode). simpl in Heng, Hcode.
  unfold body. simpl. rewrite Heng. simpl.
  rewrite dict_get_set_ne by apply source_not_error_code. rewrite Hcode. simpl.
  split; [|split].
  - intros Huseless.
    rewrite (in_ints_other errno USELESS_ERRNO 39) by (done || not_listed).
    rewrite (in_ints_other errno USELESS_ERRNO 42) by (done || not_listed).
    rewrite orb_true_r.
    unfold VARIABLE_ERROR, OPENING_DATASET_FILE, OPENING_RULE_FILE.
    rewrite (in_ints_other errno USELESS_ERRNO 101) by (done || not_listed).
    rewrite (in_ints_other errno USELESS_ERRNO 322) by (done || not_listed).
    rewrite (in_ints_other errno USELESS_ERRNO 41) by (done || not_listed).
    simpl. unfold on_error. unfold in_ints, USELESS_ERRNO in *. simpl in *.
    by rewrite Huseless.
  - intros Hrule. unfold in_ints, RULEFILE_ERRNO in Hrule. simpl in Hrule.
    by rewrite Hrule.
  - intros st' H101.
    unfold VARIABLE_ERROR in H101.
    rewrite !(eq_int_unique errno 101) by (done || lia). simpl.
    rewrite orb_true_r. unfold VARIABLE_ERROR. rewrite H101.
    unfold on_variable_error. intros Hb. by crunch.
Qed.

(** *** A data set that is missing, and the error that follows it *)

Lemma take_while_app_all {A} (p : A -> bool) (l1 l2 : list A) :
  forallb p l1 = true -> take_while p (l1 ++ l2) = l1 ++ take_while p l2.
Proof.
  induction l1 as [|x l1 IH]; simpl; [done|].
  intros Hall. apply andb_true_iff in Hall as [-> Hall]. by rewrite IH.
Qed.

Lemma skipn_app_length {A} (l1 l2 : list A) (k : nat) :
  skipn (length l1 + k) (l1 ++ l2) = skipn k l2.
Proof. induction l1; simpl; [done|]. apply IHl1. Qed.

Lemma longest_before_eq (post : str) (n : nat) (s : str) :
  longest_before post n s =
  if startswith post (skipn n s) then Some (firstn n s)
  else match n with
       | O => None
       | S k => longest_before post k s
       end.
Proof. by destruct n. Qed.

Lemma longest_before_found (post d : str) (k : nat) :
  (forall j, (0 < j <= k)%nat -> startswith post (skipn j post) = false) ->
  startswith post post = true ->
  longest_before post (length d + k) (d ++ post) = Some d.
Proof.
  intros Hlater Hhere. induction k as [|k IH]; rewrite longest_before_eq.
  - rewrite skipn_app_length, drop_0, Hhere.
    by rewrite Nat.add_0_r, firstn_app, Nat.sub_diag, firstn_all, app_nil_r.
  - rewrite skipn_app_length, Hlater by lia.
    replace (length d + S k)%nat with (S (length d + k)) by lia.
    apply IH. intros j Hj. apply Hlater. lia.
Qed.

Lemma no_colon_forallb (d : str) :
  (":"%char ∉ d) -> forallb not_colon d = true.
Proof.
  induction d as [|c d IH]; [done|]. intros Hd. simpl.
  rewrite IH by (intros Hin; apply Hd; by right).
  unfold not_colon. rewrite bool_decide_eq_false_2; [done|].
  intros ->. apply Hd. by left.
Qed.

Lemma match_group_dataset (datasource : str) :
  (":"%char ∉ datasource) ->
  match_group "fopen '" "' failed: No such file or directory"
    (JStr (dataset_missing datasource)) = Ok (Some datasource).
Proof.
  intros Hd. unfold match_group, dataset_missing. simpl. rewrite !drop_0.
  rewrite take_while_app_all by by apply no_colon_forallb.
  simpl. rewrite length_app. simpl. f_equal.
  apply (longest_before_found _ datasource 8); [|done].
  intros j Hj. do 9 (destruct j as [|j]; [done || lia|]). lia.
Qed.

(** X3. A record with error code 322 for a data set that cannot be opened
    becomes a warning that names the data set, and sets [ignore_next]. From
    then on a record with error code 39 is passed over: in single mode
    always; otherwise the flag is cleared by it, unless its message says
    that the data set could not be set up. *)
Theorem missing_dataset_hides_the_next_error
  (single : bool) (line : str) (s_err : json) (st : locals) :
  (forall datasource,
     engine_record s_err OPENING_DATASET_FILE (dataset_missing datasource) ->
     (":"%char ∉ datasource) ->
     exists w,
       body single line s_err st = Ok (set_ignore_next (add_warning st w) true)
       /\ message_of w = Some (JStr (dataset_message datasource)))
  /\ (forall message,
        engine_record s_err 39 message ->
        ignore_next st = true ->
        body single line s_err st =
          Ok (if single || contains "failed to set up dataset" message
              then st else set_ignore_next st false)).
Proof.
  split.
  - intros datasource (d & e & errno & -> & Heng & Hcode & H322 & Hmsg) Hd.
    simpl in Heng, Hcode, Hmsg. unfold OPENING_DATASET_FILE in H322.
    unfold body. simpl. rewrite Heng. simpl.
    rewrite dict_get_set_ne by apply source_not_error_code. rewrite Hcode. simpl.
    rewrite (eq_int_unique errno 322 39), (eq_int_unique errno 322 42) by (done || lia).
    simpl. rewrite orb_true_r. unfold VARIABLE_ERROR, OPENING_DATASET_FILE.
    rewrite (eq_int_unique errno 322 101) by (done || lia). rewrite H322.
    unfold on_dataset_error. simpl.
    rewrite dict_get_set_ne by apply source_not_message. rewrite Hmsg.
    cbn [bind]. rewrite match_group_dataset by done. cbn [bind setitem].
    eexists. split; [done|]. simpl. apply dict_get_set_eq.
  - intros message (d & e & errno & -> & Heng & Hcode & H39 & Hmsg) Hnext.
    simpl in Heng, Hcode, Hmsg.
    unfold body. simpl. rewrite Heng. simpl.
    rewrite dict_get_set_ne by apply source_not_error_code. rewrite Hcode. simpl.
    rewrite H39. simpl. destruct single; simpl; [done|].
    unfold VARIABLE_ERROR, OPENING_DATASET_FILE, OPENING_RULE_FILE.
    rewrite !(eq_int_unique errno 39) by (done || lia). simpl.
    unfold on_error, in_ints, USELESS_ERRNO. simpl.
    rewrite !(eq_int_unique errno 39) by (done || lia). simpl.
    rewrite H39. unfold on_signature_error. simpl.
    rewrite dict_get_set_ne by apply source_not_message. rewrite Hmsg. simpl.
    rewrite Hnext, andb_true_r. by destruct (contains _ message).
Qed.

(** *** The line of a signature that does not parse *)

(** X4. Outside single mode, a record with error code 39 that reports a
    signature which does not parse, with its line at the end of the
    message, adds no error of its own: the line, counted from 0, is written
    into the last error gathered, and nothing changes when there is none.
    (The record is neither hidden by [ignore_next] nor about a collected
    variable or file.) *)
Theorem signature_error_gives_its_line_to_the_last_error
  (line : str) (s_err : json) (st : locals) (message ds : str) :
  engine_record s_err 39 message ->
  ignore_next st = false ->
  any_in (variable_list st) (JStr message) = Ok false ->
  any_file (files_list st) (JStr message) = Ok false ->
  contains "error parsing signature" message = true ->
  getline_search message = Some ds ->
  (errors (ret st) = [] -> body false line s_err st = Ok st)
  /\ (forall before last,
        errors (ret st) = before ++ [JDict last] ->
        exists st',
          body false line s_err st = Ok st'
          /\ errors (ret st')
             = before ++ [JDict (dict_set last "line" (JInt (int_of_digits ds - 1)))]
          /\ warnings (ret st') = warnings (ret st)
          /\ variable_list st' = variable_list st
          /\ files_list st' = files_list st
          /\ ignore_next st' = false).
Proof.
  intros (d & e & errno & -> & Heng & Hcode & H39 & Hmsg) Hnext Hvars Hfiles Hparse Hline.
  simpl in Heng, Hcode, Hmsg.
  assert (Hbody : body false line (JDict d) st =
                  match errors (ret st) with
                  | [] => Ok st
                  | _ :: _ => set_last_line st (int_of_digits ds - 1)
                  end).
  { unfold body. simpl. rewrite Heng. simpl.
    rewrite dict_get_set_ne by apply source_not_error_code. rewrite Hcode. simpl.
    unfold VARIABLE_ERROR, OPENING_DATASET_FILE, OPENING_RULE_FILE.
    rewrite (eq_int_unique errno 39 101), (eq_int_unique errno 39 322),
      (eq_int_unique errno 39 41) by (done || lia). simpl.
    unfold on_error, in_ints, USELESS_ERRNO. simpl.
    rewrite (eq_int_unique errno 39 40), (eq_int_unique errno 39 43),
      (eq_int_unique errno 39 44) by (done || lia). simpl.
    rewrite H39. unfold on_signature_error. simpl.
    rewrite dict_get_set_ne by apply source_not_message. rewrite Hmsg. simpl.
    rewrite Hnext, andb_false_r. rewrite Hvars. simpl. rewrite Hfiles. simpl.
    simpl in Hparse. rewrite Hparse. simpl.
    destruct (split _ message) as [|short parts] eqn:Hsplit;
      [exfalso; by eapply split_aux_not_nil|].
    unfold index. simpl.
    destruct (getsid_search line); simpl; rewrite Hline;
      destruct (errors (ret st)); simpl; try done;
      by destruct (set_last_line st (int_of_digits ds - 1)). }
  split.
  - intros Hnone. rewrite Hbody, Hnone. done.
  - intros before last Herrors. rewrite Hbody.
    destruct (errors (ret st)) as [|first rest] eqn:Hlist;
      [by destruct before|].
    unfold set_last_line. rewrite Hlist, Herrors, rev_app_distr. simpl.
    eexists. split; [done|]. simpl. by rewrite rev_involutive.
Qed.
End StreamFacts.

(* ===================================================================== *)
(** * Properties of the list of keywords                                  *)
(* ===================================================================== *)
Section KeywordFacts.
Import Py Keywords.

Lemma index_nonneg {A} (l : list A) (i : nat) :
  index l (Z.of_nat i) =
  match nth_error l i with
  | Some x => Ok x
  | None => Raise IndexError
  end.
Proof.
  unfold index. cbv zeta.
  destruct (Z.of_nat i <? 0) eqn:Hneg; [apply Z.ltb_lt in Hneg; lia|].
  rewrite Hneg. by rewrite Nat2Z.id.
Qed.

Lemma keyword_item_of_incomplete keyword :
  complete keyword = false -> keyword_item_of keyword = Raise IndexError.
Proof.
  unfold complete, fields, keyword_item_of. intros Hlen.
  apply Nat.leb_gt in Hlen.
  rewrite (index_nonneg _ 3).
  destruct (nth_error (split ";" keyword) 3) eqn:Hnth; [|done].
  assert (3 < length (split ";" keyword))%nat; [|lia].
  apply nth_error_Some. by rewrite Hnth.
Qed.

Lemma keyword_item_of_complete keyword :
  complete keyword = true ->
  exists item,
    keyword_item_of keyword = Ok item
    /\ label item = hd [] (fields keyword)
    /\ well_made item.
Proof.
  unfold complete, fields, keyword_item_of. intros Hlen. apply Nat.leb_le in Hlen.
  destruct (split ";" keyword) as [|name [|text [|f2 [|options rest]]]];
    simpl in Hlen; try lia.
  rewrite (index_nonneg _ 3), (index_nonneg _ 1), (index_nonneg _ 0). cbn [nth_error bind hd].
  assert (Hdoc : exists documentation,
            (if 5 <? Z.of_nat (length (name :: text :: f2 :: options :: rest))
             then
               bind (index (name :: text :: f2 :: options :: rest) 4)
                 (fun link =>
                    if contains "https" link
                    then Ok (Markdown (text ++ [nl; nl] ++ "[Documentation](" ++ link ++ ")"))
                    else Ok (Text text))
             else Ok (Text text)) = Ok documentation).
  { destruct (5 <? _) eqn:Hfive; [|by eexists].
    destruct rest as [|link rest]; [done|].
    rewrite (index_nonneg _ 4). cbn [nth_error bind].
    destruct (contains "https" link); by eexists. }
  destruct Hdoc as [documentation ->]. cbn [bind].
  destruct (contains "content modifier" options); eexists; (split; [done|]);
    (split; [done|]); (split; [done|]); cbn [detail tags].
  - split; [by vm_compute|]. by right.
  - split; [|by left].
    destruct (contains "sticky" options); [by vm_compute|].
    unfold str_eqb. destruct (bool_decide (options = "none")) eqn:Hnone; [by vm_compute|].
    by apply bool_decide_eq_false_1 in Hnone.
Qed.

Lemma keywords_loop_spec keywords keywords_list :
  exists items,
    keywords_loop keywords keywords_list = Ok (keywords_list ++ items)
    /\ map label items = map (fun row => hd [] (fields row)) (List.filter complete keywords)
    /\ Forall well_made items.
Proof.
  revert keywords_list. induction keywords as [|keyword keywords IH]; intros keywords_list.
  - exists []. simpl. by rewrite app_nil_r.
  - simpl. destruct (complete keyword) eqn:Hrow.
    + destruct (keyword_item_of_complete keyword Hrow) as (item & -> & Hlabel & Hitem).
      destruct (IH (keywords_list ++ [item])) as (items & -> & Hlabels & Hitems).
      exists (item :: items). rewrite <- app_assoc. split; [done|]. simpl.
      split; [by rewrite Hlabel, Hlabels | by constructor].
    + rewrite (keyword_item_of_incomplete keyword Hrow). apply IH.
Qed.

(** X5. The list of keywords has one item for each line of the listing, the
    first (the header) apart, that has at least four fields, in the order
    of the listing and labelled with the line's first field; a line with
    fewer fields is passed over. An empty listing raises [IndexError]. *)
Theorem keywords_come_from_the_complete_rows (outdata : str) :
  match splitlines outdata with
  | [] => build_keywords_list outdata = Raise IndexError
  | header :: rows =>
      exists items,
        build_keywords_list outdata = Ok items
        /\ map label items
           = map (fun row => hd [] (fields row)) (List.filter complete rows)
        /\ Forall well_made items
  end.
Proof.
  unfold build_keywords_list. destruct (splitlines outdata) as [|header rows]; [done|].
  destruct (keywords_loop_spec rows []) as (items & Hrun & Hlabels & Hitems).
  by exists items.
Qed.
End KeywordFacts.

(* ===================================================================== *)
(** * Properties of the engine analysis                                    *)
(* ===================================================================== *)
Section AnalysisFacts.
Import Py EngineAnalysis.

(** The invariant of the reader: what it has returned is complete, and so
    is the signature it is reading; it has returned no more signatures than
    it has seen opened. *)
Lemma read_line_complete st line st' :
  Forall complete (analysis st) ->
  (in_sid_data st = true -> complete (current st)) ->
  read_line st line = Ok st' ->
  Forall complete (analysis st')
  /\ (in_sid_data st' = true -> complete (current st'))
  /\ (length (analysis st') + (if in_sid_data st' then 1 else 0)
      <= length (analysis st) + (if in_sid_data st then 1 else 0)
         + (if startswith "==" line then 1 else 0))%nat.
Proof.
  intros Hdone Hcurrent. unfold read_line.
  destruct (startswith "==" line).
  { intros Hb. crunch. simpl. split; [done|]. split.
    - intros _. split; [done|]. by intros [?|?].
    - destruct (in_sid_data st); lia. }
  destruct (in_sid_data st) eqn:Hin; simpl.
  2:{ intros Heq. injection Heq as Heq. subst st'. rewrite Hin.
      split; [done|]. split; [done|lia]. }
  specialize (Hcurrent eq_refl). destruct Hcurrent as [Hsid Hcontent].
  destruct (length line =? 1)%nat.
  { intros Heq. injection Heq as Heq. subst st'. simpl.
    split; [|split; [done|rewrite length_app; simpl; lia]].
    apply Forall_app. split; [done|]. by constructor. }
  unfold has_content. destruct (content (current st)) as [text|] eqn:Htext; simpl;
    intros Hb; crunch; simpl; rewrite ?Hin;
    (split; [done|]); (split; [|lia]); intros _; (split; [done|]);
    simpl; rewrite ?Htext; done.
Qed.

Lemma read_lines_complete lines st st' :
  Forall complete (analysis st) ->
  (in_sid_data st = true -> complete (current st)) ->
  read_lines lines st = Ok st' ->
  Forall complete (analysis st')
  /\ (length (analysis st') + (if in_sid_data st' then 1 else 0)
      <= length (analysis st) + (if in_sid_data st then 1 else 0)
         + length (headers lines))%nat.
Proof.
  revert st. induction lines as [|line lines IH]; intros st Hdone Hcurrent Hrun.
  - injection Hrun as <-. split; [done|]. simpl. lia.
  - cbn [read_lines] in Hrun.
    destruct (read_line st line) as [st1|] eqn:Hline; [|discriminate].
    cbn [bind] in Hrun.
    destruct (read_line_complete st line st1 Hdone Hcurrent Hline) as (Hd1 & Hc1 & Hn1).
    destruct (IH st1 Hd1 Hc1 Hrun) as [Hd Hn]. split; [done|].
    unfold headers in *.
    replace (List.filter (startswith "==") (line :: lines))
      with (if startswith "==" line
            then line :: List.filter (startswith "==") lines
            else List.filter (startswith "==") lines) by reflexivity.
    destruct (startswith "==" line); cbn [length]; lia.
Qed.

(** X6. Every signature the first reader returns has a [sid], and has a
    [content] when it has warnings or notes; and there are no more of them
    than lines that open a signature. *)
Theorem analysed_signatures_are_complete
  (analysis_file : list str) (found : list signature) :
  parse_engine_analysis_v1 analysis_file = Ok found ->
  Forall complete found
  /\ (length found <= length (headers analysis_file))%nat.
Proof.
  unfold parse_engine_analysis_v1.
  destruct (read_lines analysis_file start) as [st|] eqn:Hrun; [|discriminate].
  simpl. intros [= <-].
  destruct (read_lines_complete analysis_file start st) as [Hdone Hn]; try done.
  split; [done|]. simpl in Hn. destruct (in_sid_data st); lia.
Qed.
End AnalysisFacts.

(* ===================================================================== *)
(** * Properties of the check of a buffer                                 *)
(* ===================================================================== *)
Section BufferFacts.
Import Py Rules RuleBuffer.
Context `{Library}.

Lemma startswith_In (sub s : str) (c : ascii) :
  startswith sub s = true -> In c sub -> In c s.
Proof.
  revert s. induction sub as [|a sub IH]; intros s Hs Hc; [done|].
  destruct s as [|b s]; [done|]. simpl in Hs.
  apply andb_true_iff in Hs as [Hab Hs]. apply bool_decide_eq_true_1 in Hab. subst b.
  destruct Hc as [->|Hc]; [by left|]. right. by apply IH.
Qed.

Lemma contains_In (sub s : str) (c : ascii) :
  contains sub s = true -> In c sub -> In c s.
Proof.
  induction s as [|b s IH]; intros Hs Hc.
  - simpl in Hs. rewrite orb_false_r in Hs. by eapply startswith_In.
  - cbn [contains] in Hs. apply orb_true_iff in Hs as [Hs|Hs].
    + by eapply startswith_In.
    + right. by apply IH.
Qed.

Lemma split_char_two (c : ascii) (cur s : str) :
  In c s -> exists first second rest, split_aux [c] 0 cur s = first :: second :: rest.
Proof.
  revert cur. induction s as [|b s IH]; intros cur Hc; [done|].
  cbn [split_aux startswith]. destruct (bool_decide (c = b)) eqn:Hcb; simpl.
  - destruct (split_aux [c] 0 [] s) as [|second rest] eqn:Hs;
      [by apply split_aux_not_nil in Hs|]. by eexists _, _, _.
  - apply bool_decide_eq_false_1 in Hcb. destruct Hc as [->|Hc]; [done|]. by apply IH.
Qed.

Lemma quoted_pattern (note : str) :
  contains ("Fast Pattern " ++ [dq]) note = true ->
  exists pattern, index (split [dq] note) 1 = Ok pattern.
Proof.
  intros Hnote.
  destruct (split_char_two dq [] note) as (first & second & rest & Hsplit).
  { eapply contains_In; [done|]. apply in_or_app. right. by left. }
  exists second. unfold split. by rewrite Hsplit.
Qed.

Lemma info_entry_returns s note text :
  EngineAnalysis.content s = Some text ->
  exists e, info_entry s note = Ok e.
Proof.
  intros Htext. unfold info_entry, content_of. rewrite Htext. cbn [bind].
  destruct (contains ("Fast Pattern " ++ [dq]) note) eqn:Hnote; [|by eexists].
  destruct (contains "fast_pattern" text); [by eexists|].
  destruct (count "content:" text <=? 1); [by eexists|].
  destruct (quoted_pattern note Hnote) as [pattern ->]. cbn [bind].
  destruct (find pattern text <? 0); by eexists.
Qed.

Lemma info_entries_return s notes info text :
  EngineAnalysis.content s = Some text ->
  exists found, info_entries s notes info = Ok found.
Proof.
  intros Htext. revert info. induction notes as [|note notes IH]; intros info; simpl.
  - by eexists.
  - destruct (info_entry_returns s note text Htext) as [e ->]. simpl. apply IH.
Qed.

Lemma warning_entries_return s texts warnings text :
  EngineAnalysis.content s = Some text ->
  exists found, warning_entries s texts warnings = Ok found.
Proof.
  intros Htext. revert warnings. induction texts as [|w texts IH]; intros warnings; simpl.
  - by eexists.
  - unfold warning_entry, content_of. rewrite Htext. simpl. apply IH.
Qed.

Lemma analysis_entries_return engine_analysis warnings info :
  Forall EngineAnalysis.complete engine_analysis ->
  exists found, analysis_entries engine_analysis warnings info = Ok found.
Proof.
  intros Hall. revert warnings info.
  induction Hall as [|s rest [Hsid Hs] Hrest IH]; intros warnings info; simpl.
  - by eexists.
  - assert (Hws : exists ws,
              warning_entries s (listed (EngineAnalysis.warnings s)) warnings = Ok ws).
    { destruct (EngineAnalysis.warnings s) as [texts|] eqn:Hw; [|by eexists].
      destruct (EngineAnalysis.content s) as [text|] eqn:Htext.
      - by eapply warning_entries_return.
      - exfalso. apply Hs; [by left|done]. }
    destruct Hws as [ws ->]. cbn [bind].
    assert (Hnotes : exists notes,
              info_entries s (listed (EngineAnalysis.info s)) info = Ok notes).
    { destruct (EngineAnalysis.info s) as [texts|] eqn:Hi; [|by eexists].
      destruct (EngineAnalysis.content s) as [text|] eqn:Htext.
      - by eapply info_entries_return.
      - exfalso. apply Hs; [by right|done]. }
    destruct Hnotes as [notes ->]. cbn [bind]. apply IH.
Qed.

(** X7. What the first reader of the engine analysis returns can always be
    turned into warnings and notes: the loop of [rule_buffer] finds the
    [content] it reads from every signature that has warnings or notes, and
    the quoted pattern in every note on a fast pattern. *)
Theorem analysis_of_the_first_reader_is_usable
  (analysis_file : list str) (engine_analysis : list EngineAnalysis.signature)
  (warnings info : list entry) :
  EngineAnalysis.parse_engine_analysis_v1 analysis_file = Ok engine_analysis ->
  exists found, analysis_entries engine_analysis warnings info = Ok found.
Proof.
  intros Hread. apply analysis_entries_return.
  unfold EngineAnalysis.parse_engine_analysis_v1 in Hread.
  destruct (EngineAnalysis.read_lines analysis_file EngineAnalysis.start) as [st|] eqn:Hrun;
    [|discriminate].
  injection Hread as <-.
  by destruct (read_lines_complete analysis_file EngineAnalysis.start st).
Qed.

(** *** The range of a note on the fast pattern *)

Lemma find_from_spec (sub s : str) (i : Z) :
  0 <= find_from sub s i ->
  0 <= i ->
  exists k : nat,
    find_from sub s i = i + Z.of_nat k
    /\ (k <= length s)%nat
    /\ startswith sub (skipn k s) = true.
Proof.
  revert i. induction s as [|c s IH]; intros i Hfound Hi; cbn [find_from] in *.
  - destruct (startswith sub []) eqn:Hs; [|lia].
    exists 0%nat. rewrite Z.add_0_r. by rewrite drop_0.
  - destruct (startswith sub (c :: s)) eqn:Hs.
    + exists 0%nat. rewrite Z.add_0_r. split; [done|]. split; [lia|]. by rewrite drop_0.
    + destruct (IH (i + 1) Hfound) as (k & Hk & Hlen & Hat); [lia|].
      exists (S k). split; [lia|]. split; [simpl; lia|done].
Qed.

Lemma startswith_firstn (p s : str) :
  startswith p s = true -> firstn (length p) s = p /\ (length p <= length s)%nat.
Proof.
  revert s. induction p as [|a p IH]; intros s Hs; [split; [done|simpl; lia]|].
  destruct s as [|b s]; [done|]. simpl in Hs.
  apply andb_true_iff in Hs as [Hab Hs]. apply bool_decide_eq_true_1 in Hab. subst b.
  destruct (IH s Hs) as [Heq Hlen]. simpl. rewrite Heq. split; [done|lia].
Qed.

Lemma slice_at (text pattern : str) (k : nat) :
  (k <= length text)%nat ->
  startswith pattern (skipn k text) = true ->
  slice text (Z.of_nat k) (Z.of_nat k + Z.of_nat (length pattern)) = pattern.
Proof.
  intros Hk Hat. apply startswith_firstn in Hat as [Heq Hlen].
  rewrite length_skipn in Hlen. unfold slice, clamp.
  replace (Z.of_nat k <? 0) with false by (symmetry; apply Z.ltb_ge; lia).
  replace (Z.of_nat k + Z.of_nat (length pattern) <? 0) with false
    by (symmetry; apply Z.ltb_ge; lia).
  replace (Z.to_nat (Z.min (Z.max (Z.of_nat k) 0) (Z.of_nat (length text)))) with k by lia.
  replace (Z.to_nat (Z.min (Z.max (Z.of_nat k + Z.of_nat (length pattern)) 0)
                       (Z.of_nat (length text))))
    with (k + length pattern)%nat by lia.
  by replace (k + length pattern - k)%nat with (length pattern) by lia.
Qed.

(** X8. A note that is kept carries the content of its signature and a range
    of characters: characters 0 to 1, or, for a note on the fast pattern
    whose quoted pattern occurs in the content, the place of the first
    occurrence of the pattern. *)
Theorem fast_pattern_note_spans_the_pattern
  (s : EngineAnalysis.signature) (note : str) (e : entry) :
  info_entry s note = Ok (Some e) ->
  exists text first last,
    EngineAnalysis.content s = Some text
    /\ content e = Some text /\ message e = note
    /\ start_char e = Some first /\ end_char e = Some last
    /\ ((first = 0 /\ last = 1)
        \/ exists pattern,
             index (split [dq] note) 1 = Ok pattern
             /\ first = find pattern text
             /\ 0 <= first
             /\ last = first + Z.of_nat (length pattern)
             /\ slice text first last = pattern).
Proof.
  unfold info_entry, content_of.
  destruct (EngineAnalysis.content s) as [text|]; [|discriminate]. cbn [bind].
  intros Hb. exists text.
  destruct (contains ("Fast Pattern " ++ [dq]) note).
  2:{ injection Hb as <-. exists 0, 1. simpl. split_and!; try done. by left. }
  destruct (contains "fast_pattern" text); [discriminate|].
  destruct (count "content:" text <=? 1); [discriminate|].
  destruct (index (split [dq] note) 1) as [pattern|] eqn:Hpattern; [|discriminate].
  cbn [bind] in Hb. destruct (find pattern text <? 0) eqn:Hfound.
  - injection Hb as <-. exists 0, 1. simpl. split_and!; try done. by left.
  - injection Hb as <-. apply Z.ltb_ge in Hfound.
    destruct (find_from_spec pattern text 0 Hfound) as (k & Hk & Hlen & Hat); [lia|].
    eexists _, _. simpl. split_and!; try done. right. exists pattern.
    split; [done|]. split; [done|]. split; [done|]. split; [done|].
    unfold find. rewrite Hk. simpl. by apply slice_at.
Qed.

(** *** What a checked buffer holds *)

Lemma on_message_sourced warnings line warnings' :
  Forall sourced_warning warnings ->
  on_message warnings line = Ok warnings' ->
  Forall sourced_warning warnings'.
Proof.
  intros Hws. unfold on_message. intros Hb. crunch; try done;
    (apply Forall_app; split; [done|]; constructor; [|done]; left; simpl;
     split; [done|]); [by left | by right].
Qed.

Lemma on_messages_sourced lines warnings warnings' :
  Forall sourced_warning warnings ->
  on_messages lines warnings = Ok warnings' ->
  Forall sourced_warning warnings'.
Proof.
  revert warnings. induction lines as [|line lines IH]; intros warnings Hws; simpl.
  - by intros [= <-].
  - destruct (on_message warnings line) as [ws|] eqn:Hline; [|discriminate]. simpl.
    apply IH. by eapply on_message_sourced.
Qed.

Lemma warning_entries_sourced s texts warnings warnings' :
  Forall sourced_warning warnings ->
  warning_entries s texts warnings = Ok warnings' ->
  Forall sourced_warning warnings'.
Proof.
  revert warnings. induction texts as [|w texts IH]; intros warnings Hws; simpl.
  - by intros [= <-].
  - unfold warning_entry, content_of.
    destruct (EngineAnalysis.content s) as [text|]; [|discriminate]. simpl.
    apply IH. apply Forall_app. split; [done|]. constructor; [|done].
    right. by split.
Qed.

Lemma info_entry_ranged s note e :
  info_entry s note = Ok (Some e) -> ranged_note e.
Proof.
  unfold info_entry, content_of.
  destruct (EngineAnalysis.content s) as [text|]; [|discriminate]. cbn [bind].
  intros Hb. crunch; try discriminate;
    repeat match goal with Hf : (_ <? 0) = false |- _ => apply Z.ltb_ge in Hf end;
    (split; [done|]); (split; [done|]); eexists _, _;
    (split; [done|]); (split; [done|]); lia.
Qed.

Lemma info_entries_ranged s notes info info' :
  Forall ranged_note info ->
  info_entries s notes info = Ok info' ->
  Forall ranged_note info'.
Proof.
  revert info. induction notes as [|note notes IH]; intros info Hinfo; simpl.
  - by intros [= <-].
  - destruct (info_entry s note) as [[e|]|] eqn:He; [| |discriminate]; simpl.
    + apply IH. apply Forall_app. split; [done|]. constructor; [|done].
      by eapply info_entry_ranged.
    + by apply IH.
Qed.

Lemma analysis_entries_sourced engine_analysis warnings info found :
  Forall sourced_warning warnings -> Forall ranged_note info ->
  analysis_entries engine_analysis warnings info = Ok found ->
  Forall sourced_warning (fst found) /\ Forall ranged_note (snd found).
Proof.
  revert warnings info.
  induction engine_analysis as [|s rest IH]; intros warnings info Hws Hinfo; simpl.
  - by intros [= <-].
  - destruct (warning_entries s _ warnings) as [ws|] eqn:Hw; [|discriminate]. simpl.
    destruct (info_entries s _ info) as [notes|] eqn:Hi; [|discriminate]. simpl.
    apply IH; [by eapply warning_entries_sourced | by eapply info_entries_ranged].
Qed.

(** X9. Whatever the rule checker wrote, a checked buffer holds warnings that
    name their source and carry a content or a [sid], notes of the engine
    analysis with the content of their signature and a range in it, and as
    errors either nothing or records of the syntax check; and it holds no
    error when the test run succeeded. *)
Theorem checked_buffer_holds_sourced_entries
  (test : process_output) (engine_analysis : list EngineAnalysis.signature)
  (single : bool) (r : buffer_result error_report) :
  check_rule_buffer test engine_analysis single = Ok r ->
  Forall sourced_warning (RuleBuffer.warnings r)
  /\ Forall ranged_note (RuleBuffer.info r)
  /\ checked_errors (RuleBuffer.errors r)
  /\ status r = (returncode test =? 0)
  /\ (returncode test = 0 -> RuleBuffer.errors r = Raw []).
Proof.
  unfold check_rule_buffer, rule_buffer.
  destruct (on_messages _ []) as [ws|] eqn:Hws; [|discriminate]. cbn [bind].
  destruct (analysis_entries engine_analysis ws []) as [found|] eqn:Hfound;
    [|discriminate]. cbn [bind RuleBuffer.errors RuleBuffer.status RuleBuffer.warnings RuleBuffer.info].
  apply on_messages_sourced in Hws; [|done].
  apply analysis_entries_sourced in Hfound as [Hw Hi]; [|done|done].
  rewrite negb_involutive.
  destruct (returncode test =? 0) eqn:Hcode; simpl.
  - intros [= <-]. simpl. by split_and!.
  - destruct (0 <? length (errdata test))%nat eqn:Hlen.
    + unfold parse_suricata_error.
      pose proof (process_lines_source single (errdata test)
                    (iter_lines (errdata test)) init_locals) as Hinv.
      destruct (process_lines _ _ _ _) as [[st|res]|]; simpl; [| |discriminate];
        intros [= <-]; simpl; (split_and!; try done; [apply Hinv; by split|]);
        intros Hzero; apply Z.eqb_neq in Hcode; lia.
    + intros [= <-]. simpl. apply Nat.ltb_ge in Hlen.
      split_and!; try done.
      * apply nil_length_inv. lia.
      * intros Hzero. apply Z.eqb_neq in Hcode. lia.
Qed.
End BufferFacts.

(* ===================================================================== *)
(** * Further properties of the request handlers                          *)
(* ===================================================================== *)
Section HandlerFacts.
Import Py LS Requests.
Context `{AL : AstLayer} `{FL : !FileLayer}.


(** *** The answer to a request for references *)

(** X12. A request for references never changes the server object. It is
    answered with nothing for a document the workspace does not hold; for
    a document of the workspace it raises [NameError] in [get_definition]
    (line 575), before any reference is searched for. *)
Theorem a_references_request_raises_in_the_workspace
  (request : Request) (self : LangServer) :
  snd (serve_references request self) = self
  /\ (dict_get (workspace self) (path_from_uri (uri request)) = None ->
      fst (serve_references request self) = Ok None)
  /\ (forall l file_obj,
        dict_get (workspace self) (path_from_uri (uri request)) = Some l ->
        store self !! l = Some file_obj ->
        fst (serve_references request self) = Raise NameError).
Proof.
  unfold serve_references, mbind, workspace_get, gets, deref. cbv zeta.
  destruct (dict_get (workspace self) (path_from_uri (uri request))) as [l|];
    [|by split_and!].
  destruct (store self !! l) as [file_obj|] eqn:Hfile.
  - rewrite get_definition_unbound. by split_and!.
  - split_and!; [done|done|]. intros l' file_obj [= <-]. by rewrite Hfile.
Qed.

(** *** The workspace under updates *)

Lemma update_workspace_file_effect filepath read_file allow_empty update_links self :
  exists changed err_str self',
    update_workspace_file filepath read_file allow_empty update_links self
      = (Ok (changed, err_str), self')
    /\ obj_tree self' = obj_tree self
    /\ conn self' = conn self
    /\ post_messages self' = post_messages self
    /\ (forall l, is_Some (store self !! l) -> is_Some (store self' !! l))
    /\ (workspace self' = workspace self
        \/ (dict_get (workspace self) filepath = None
            /\ exists l, workspace self' = dict_set (workspace self) filepath l
                         /\ is_Some (store self' !! l)))
    /\ (changed = true -> err_str = None /\ dict_has (workspace self') filepath = true).
Proof.
  unfold update_workspace_file, try_except, read_from_disk, parse, mbind, workspace_get,
    workspace_set, gets, modify, deref, alloc, update, lift, ret, raise.
  repeat (case_match; simplify_eq/=);
    repeat match goal with
    | Hhas : dict_has _ _ = _ |- _ => unfold dict_has in Hhas
    end;
    simplify_option_eq;
    eexists _, _, _; (split; [reflexivity|]); simpl;
    (split; [done|]); (split; [done|]); (split; [done|]);
    (split; [intros ? ?; rewrite ?lookup_insert_is_Some'; eauto|]);
    (split;
     [first [ by left
            | right; split; [done|]; eexists; split; [reflexivity|];
              rewrite ?lookup_insert_is_Some'; eauto ]
     |]);
    try (by intros [=]);
    intros _; (split; [done|]); unfold dict_has;
    rewrite ?dict_get_set_eq; by simplify_option_eq.
Qed.

Lemma keeps_workspace_set (w : list (str * loc)) (filepath p : str) (l l' : loc) :
  dict_get w filepath = None ->
  dict_get w p = Some l -> dict_get (dict_set w filepath l') p = Some l.
Proof.
  intros Hnew Hp. rewrite dict_get_set_ne; [done|]. intros ->. congruence.
Qed.

(** X13. [update_workspace_file] does not raise: what goes wrong while the file
    is read or parsed comes back as the text of an error. It takes no path
    out of the workspace and gives no path another object; the only entry
    it may add is that of its path, and it reports a change only with that
    path in the workspace; every file the workspace names still has its
    object; and the Global Symbol Table, the connection and the queued
    messages are left alone. *)
Theorem an_update_reports_and_keeps_the_workspace
  (filepath : str) (read_file allow_empty update_links : bool) (self : LangServer) :
  let run := update_workspace_file filepath read_file allow_empty update_links self in
  (exists changed err_str,
     fst run = Ok (changed, err_str)
     /\ (changed = true ->
         err_str = None /\ dict_has (workspace (snd run)) filepath = true))
  /\ keeps_workspace self (snd run)
  /\ (forall p, p <> filepath ->
                dict_get (workspace (snd run)) p = dict_get (workspace self) p)
  /\ (well_formed self -> well_formed (snd run))
  /\ obj_tree (snd run) = obj_tree self
  /\ conn (snd run) = conn self
  /\ post_messages (snd run) = post_messages self.
Proof.
  destruct (update_workspace_file_effect filepath read_file allow_empty update_links self)
    as (changed & err_str & self' & -> & Htree & Hconn & Hposts & Hstore & Hw & Hchanged).
  simpl. split; [by exists changed, err_str|]. split_and!; try done.
  - intros p l Hp. destruct Hw as [->|(Hnew & l' & -> & _)]; [done|].
    by apply keeps_workspace_set.
  - intros p Hp. destruct Hw as [->|(Hnew & l' & -> & _)]; [done|].
    by apply dict_get_set_ne.
  - intros Hwf p l Hp. destruct Hw as [Hsame|(Hnew & l' & Hset & Hl')].
    + rewrite Hsame in Hp. by eapply Hstore, Hwf.
    + rewrite Hset in Hp. destruct (decide (filepath = p)) as [->|Hne].
      * rewrite dict_get_set_eq in Hp. by simplify_eq.
      * rewrite dict_get_set_ne in Hp by done. by eapply Hstore, Hwf.
Qed.

Lemma send_diagnostics_effect doc self :
  well_formed self ->
  exists self',
    send_diagnostics doc self = (Ok tt, self')
    /\ workspace self' = workspace self /\ store self' = store self
    /\ obj_tree self' = obj_tree self /\ post_messages self' = post_messages self
    /\ (conn self' = conn self \/ exists m, conn self' = conn self ++ [m]).
Proof.
  intros Hwf.
  unfold send_diagnostics, get_diagnostics, mbind, workspace_get, gets, modify, deref, ret.
  simpl. destruct (dict_get (workspace self) (path_from_uri doc)) as [l|] eqn:Hpath.
  - destruct (Hwf _ _ Hpath) as [f Hf]. rewrite Hf.
    destruct (check_file f (obj_tree self)); eexists; (split; [done|]); simpl;
      split_and!; try done; right; by eexists.
  - eexists. split; [done|]. split_and!; try done. by left.
Qed.

Lemma serve_onSave_effect request did_open did_close self :
  well_formed self ->
  exists self',
    serve_onSave request did_open did_close self = (Ok tt, self')
    /\ keeps_workspace self self'
    /\ well_formed self'
    /\ post_messages self' = post_messages self
    /\ (conn self' = conn self \/ exists m, conn self' = conn self ++ [m])
    /\ (did_close = false \/ isfile (path_from_uri (uri request)) = true ->
        obj_tree self' = obj_tree self).
Proof.
  intros Hwf. unfold serve_onSave.
  destruct (did_close && negb (isfile (path_from_uri (uri request)))) eqn:Hclosed.
  - unfold mbind, workspace_get, gets, deref, modify, ret. simpl.
    assert (Hkept : ~ (did_close = false \/ isfile (path_from_uri (uri request)) = true)).
    { apply andb_true_iff in Hclosed as [-> Hgone]. apply negb_true_iff in Hgone.
      intros [?|?]; congruence. }
    destruct (dict_get (workspace self) _) as [l|] eqn:Hpath; simpl.
    + destruct (Hwf _ _ Hpath) as [f Hf]. rewrite Hf.
      destruct (ast f); simpl; eexists; (split; [done|]); simpl;
        (split; [by intros p l' Hp|]); (split; [done|]); (split; [done|]);
        (split; [by left|]); try done; intros Hk; exfalso; by apply Hkept.
    + eexists. split; [done|]. split; [by intros p l Hp|]. split; [done|].
      split; [done|]. split; [by left|done].
  - destruct (update_workspace_file_effect (path_from_uri (uri request)) true did_open
                false self)
      as (changed & err_str & self1 & Hrun & Htree & Hconn & Hposts & Hstore & Hw & _).
    assert (Hkeeps : keeps_workspace self self1).
    { intros p l Hp. destruct Hw as [->|(Hnew & l' & -> & _)]; [done|].
      by apply keeps_workspace_set. }
    assert (Hwf1 : well_formed self1).
    { intros p l Hp. destruct Hw as [Hsame|(Hnew & l' & Hset & Hl')].
      - rewrite Hsame in Hp. by eapply Hstore, Hwf.
      - rewrite Hset in Hp. destruct (decide (path_from_uri (uri request) = p)) as [<-|Hne].
        + rewrite dict_get_set_eq in Hp. by simplify_eq.
        + rewrite dict_get_set_ne in Hp by done. by eapply Hstore, Hwf. }
    unfold mbind at 1. rewrite Hrun. cbn [snd fst].
    destruct err_str as [err|].
    + unfold post_message, modify. eexists. split; [done|]. simpl.
      split; [exact Hkeeps|]. split; [exact Hwf1|].
      split; [exact Hposts|]. split; [right; rewrite Hconn; by eexists|].
      intros _. exact Htree.
    + destruct (send_diagnostics_effect (uri request) self1 Hwf1)
        as (self2 & Hsend & Hw2 & Hs2 & Ht2 & Hp2 & Hc2).
      exists self2. split.
      { destruct changed; unfold mbind, workspace_get, gets, ret; simpl; by rewrite Hsend. }
      split.
      { intros p l Hp. rewrite Hw2. by apply Hkeeps. }
      split.
      { intros p l Hp. rewrite Hw2 in Hp. rewrite Hs2. by eapply Hwf1. }
      split; [congruence|]. split; [|congruence].
      by rewrite <- Hconn.
Qed.

(** X14. On a server whose workspace names only files that have their object, a
    save, an opening or a closing of a document does not raise; it takes no
    path out of the workspace and gives no path another object; it queues
    nothing and writes at most one message to the connection; and it leaves
    the Global Symbol Table alone, unless the document is closed and its
    file is no longer on disk. *)
Theorem a_save_keeps_the_workspace
  (request : Request) (did_open did_close : bool) (self : LangServer) :
  well_formed self ->
  let run := serve_onSave request did_open did_close self in
  fst run = Ok tt
  /\ keeps_workspace self (snd run)
  /\ well_formed (snd run)
  /\ post_messages (snd run) = post_messages self
  /\ (conn (snd run) = conn self \/ exists m, conn (snd run) = conn self ++ [m])
  /\ (did_close = false \/ isfile (path_from_uri (uri request)) = true ->
      obj_tree (snd run) = obj_tree self).
Proof.
  intros Hwf.
  destruct (serve_onSave_effect request did_open did_close self Hwf) as (self' & -> & Hall).
  exact (conj eq_refl Hall).
Qed.

(** *** After the exit *)

(** X16. [serve_exit] stops the server and empties its workspace and its Global
    Symbol Table; from then on a request for a signature, for references or
    for a rename is answered with nothing, and changes nothing. *)
Theorem after_the_exit_requests_have_no_answer (request : Request) (self : LangServer) :
  let stopped := snd (serve_exit self) in
  fst (serve_exit self) = Ok tt
  /\ running stopped = false
  /\ workspace stopped = []
  /\ obj_tree stopped = ∅
  /\ serve_signature request stopped = (Ok None, stopped)
  /\ serve_references request stopped = (Ok None, stopped)
  /\ serve_rename request stopped = (Ok None, stopped).
Proof. by split_and!. Qed.

(** *** The messages of the initialization *)

Lemma post_messages_shown queued self :
  foldM (fun _ message => post_message (snd message) (fst message)) queued tt self
  = (Ok tt,
     set_conn self
       (conn self ++ map (fun message => ShowMessage (fst message) (snd message)) queued)).
Proof.
  revert self. induction queued as [|message queued IH]; intros self; simpl.
  - rewrite app_nil_r. by destruct self.
  - unfold mbind, post_message, modify. simpl. rewrite IH. simpl.
    by rewrite <- app_assoc.
Qed.

Lemma post_queued_messages_effect self :
  post_queued_messages self
  = (Ok tt,
     set_post_messages
       (set_conn self
          (conn self
           ++ map (fun message => ShowMessage (fst message) (snd message))
                (post_messages self)))
       []).
Proof.
  unfold post_queued_messages, mbind, gets, modify. simpl.
  by rewrite post_messages_shown.
Qed.

Lemma workspace_init_effect self :
  (forall p, In p (rule_files self) -> exists r, init_file p = Ok r) ->
  exists self' results,
    workspace_init self = (Ok tt, self')
    /\ merged self self' results
    /\ (forall p v, In (p, v) results -> In p (rule_files self) /\ v = init_file p)
    /\ (forall p, In p (rule_files self) -> In (p, init_file p) results).
Proof.
  intros Hworkers. unfold workspace_init, mbind, gets. simpl.
  destruct (results_spec init_file (rule_files self) []) as (Hkeys & Hvals & Hall);
    [constructor|].
  destruct (merge_spec _ self Hkeys) as (self' & Hrun & Hm).
  { intros p v Hin. apply Hvals in Hin as [[]|[Hin ->]]. by apply Hworkers. }
  exists self'. eexists. split; [exact Hrun|]. split; [exact Hm|]. split; [|exact Hall].
  intros p v Hin. by apply Hvals in Hin as [[]|[Hin ->]].
Qed.

(** X17. The messages that the handlers queue reach the client when the loop of
    the server has handled a request: they are shown in the order they were
    queued, after what was written before, and the queue is left empty. So
    each file that [workspace_init] fails to read or parse is reported to
    the client with a message of type 1. *)
Theorem queued_messages_are_shown_in_order (self : LangServer) :
  let shown := snd (post_queued_messages self) in
  fst (post_queued_messages self) = Ok tt
  /\ conn shown
     = conn self
       ++ map (fun message => ShowMessage (fst message) (snd message))
            (post_messages self)
  /\ post_messages shown = []
  /\ workspace shown = workspace self
  /\ obj_tree shown = obj_tree self
  /\ store shown = store self
  /\ ((forall p, In p (rule_files self) -> exists r, init_file p = Ok r) ->
      forall p err,
        In p (rule_files self) -> init_file p = Ok (inr err) ->
        In (ShowMessage 1 (init_failed p err))
          (conn (snd (post_queued_messages (snd (workspace_init self)))))).
Proof.
  rewrite post_queued_messages_effect. simpl. split_and!; try done.
  intros Hworkers p err Hp Herr.
  destruct (workspace_init_effect self Hworkers) as (self' & results & -> & Hm & _ & Hall).
  rewrite post_queued_messages_effect. simpl.
  destruct Hm as (_ & _ & _ & _ & _ & He & _).
  destruct (He p err) as [Hmsg _]; [rewrite <- Herr; by apply Hall|].
  apply in_or_app. right.
  by apply (in_map (fun message => ShowMessage (fst message) (snd message))) in Hmsg.
Qed.

(** *** The files that are indexed *)

Lemma endswith_none suffixes filepath :
  existsb (fun excl_suffix => endswith excl_suffix filepath) suffixes = false ->
  forall suffix, In suffix suffixes -> endswith suffix filepath = false.
Proof.
  intros Hnone suffix Hin. apply not_true_is_false. intros Hs.
  assert (existsb (fun excl_suffix => endswith excl_suffix filepath) suffixes = true);
    [|congruence].
  apply existsb_exists. by exists suffix.
Qed.

(** X18. [workspace_init] indexes exactly the files of the source directories
    whose extension is [.rule] or [.rules], in any case, and that the
    settings do not exclude, by their path or by a suffix of it; the
    workspace entry of any other path is left as it was. *)
Theorem only_rule_files_are_indexed (self : LangServer) :
  (forall p,
     In p (rule_files self) <->
     exists source_dir filename,
       In source_dir (source_dirs self) /\ In filename (listdir source_dir)
       /\ p = normpath_join source_dir filename
       /\ SURICATA_RULES_EXT_REGEX (splitext_ext filename) = true
       /\ (p ∉ excl_paths self)
       /\ (forall suffix, In suffix (excl_suffixes self) -> endswith suffix p = false))
  /\ ((forall p, In p (rule_files self) -> exists r, init_file p = Ok r) ->
      forall p, ~ In p (rule_files self) ->
        dict_get (workspace (snd (workspace_init self))) p
        = dict_get (workspace self) p).
Proof.
  split.
  - intros p. unfold rule_files. split.
    + intros Hp. apply in_flat_map in Hp as (source_dir & Hdir & Hp).
      apply in_flat_map in Hp as (filename & Hfile & Hp).
      destruct (SURICATA_RULES_EXT_REGEX (splitext_ext filename)) eqn:Hext; [|done].
      destruct (bool_decide (normpath_join source_dir filename ∈ excl_paths self))
        eqn:Hpath; [done|].
      destruct (existsb _ (excl_suffixes self)) eqn:Hsuffix; [done|].
      destruct Hp as [<-|[]]. apply bool_decide_eq_false_1 in Hpath.
      exists source_dir, filename. split_and!; try done. by apply endswith_none.
    + intros (source_dir & filename & Hdir & Hfile & -> & Hext & Hpath & Hsuffix).
      apply in_flat_map. exists source_dir. split; [done|].
      apply in_flat_map. exists filename. split; [done|].
      rewrite Hext. cbv zeta. rewrite bool_decide_eq_false_2 by done.
      destruct (existsb _ (excl_suffixes self)) eqn:Hany; [|by left].
      apply existsb_exists in Hany as (suffix & Hin & Hends).
      rewrite (Hsuffix suffix Hin) in Hends. done.
  - intros Hworkers p Hp.
    destruct (workspace_init_effect self Hworkers) as (self' & results & -> & Hm & Hkeys & _).
    destruct Hm as (_ & _ & _ & _ & Hother & _). simpl. apply Hother.
    intros Hin. apply list_elem_of_In, in_map_iff in Hin as ([p' v] & <- & Hin).
    apply Hkeys in Hin as [Hin _]. by apply Hp.
Qed.

(** *** Completion *)

Context (line_content_map : SuricataFile -> Z -> Res str)
        (keywords_list : list Keywords.keyword_item).

Lemma index_in_range {A} (l : list A) (i : nat) (x : A) :
  index l (Z.of_nat i) = Ok x -> nth_error l i = Some x.
Proof.
  unfold index. cbv zeta.
  destruct (Z.of_nat i <? 0) eqn:Hneg; [apply Z.ltb_lt in Hneg; lia|].
  rewrite Hneg, Nat2Z.id. destruct (nth_error l i); [|done]. by intros [= ->].
Qed.

Lemma word_start_spec (sig_content : str) (cursor stop : nat) :
  word_start sig_content cursor = Ok stop ->
  (stop <= cursor)%nat
  /\ (forall i, (stop < i <= cursor)%nat ->
        exists c, nth_error sig_content i = Some c /\ keyword_char c = true)
  /\ (stop = 0%nat
      \/ exists c, nth_error sig_content stop = Some c /\ keyword_char c = false).
Proof.
  induction cursor as [|below IH]; cbn [word_start].
  - intros [= <-]. split; [lia|]. split; [intros i ?; lia|by left].
  - destruct (index sig_content (Z.of_nat (S below))) as [c|e] eqn:Hc; [|done].
    apply index_in_range in Hc. cbn [Py.bind].
    destruct (keyword_char c) eqn:Hk; cbn [negb].
    + intros Hrun. apply IH in Hrun as (Hle & Hin & Hstop).
      split; [lia|]. split; [|done].
      intros i Hi. destruct (decide (i = S below)) as [->|Hne]; [by exists c|].
      apply Hin. lia.
    + intros [= <-]. split; [lia|]. split; [intros i ?; lia|].
      right. by exists c.
Qed.

Lemma keyword_chars_between (sig_content : str) (stop len : nat) :
  (forall i, (stop < i <= stop + len)%nat ->
     exists c, nth_error sig_content i = Some c /\ keyword_char c = true) ->
  length (firstn len (skipn (S stop) sig_content)) = len
  /\ forallb keyword_char (firstn len (skipn (S stop) sig_content)) = true.
Proof.
  revert stop. induction len as [|len IH]; intros stop Hin; [done|].
  destruct (Hin (S stop)) as (c & Hc & Hk); [lia|].
  destruct (nth_error_split _ _ Hc) as (before & rest & -> & Hlen).
  assert (Hskip : skipn (S stop) (before ++ c :: rest) = c :: rest).
  { rewrite <- Hlen. by rewrite skipn_app, skipn_all, Nat.sub_diag. }
  rewrite Hskip. cbn [firstn length forallb]. rewrite Hk.
  destruct (IH (S stop)) as [Hl Hf].
  { intros i Hi. apply Hin. lia. }
  assert (Hnext : skipn (S (S stop)) (before ++ c :: rest) = rest).
  { change (S (S stop)) with (1 + S stop)%nat. rewrite <- skipn_skipn. by rewrite Hskip. }
  rewrite Hnext in Hl, Hf. by rewrite Hl, Hf.
Qed.

Lemma partial_keyword_spec (sig_content : str) (sig_index : Z) (text : str) :
  partial_keyword sig_content sig_index = Ok (Some text) ->
  exists start : nat,
    (1 <= start)%nat /\ Z.of_nat start < sig_index <= Z.of_nat (length sig_content)
    /\ text = slice sig_content (Z.of_nat start) sig_index
    /\ Z.of_nat (length text) = sig_index - Z.of_nat start
    /\ forallb keyword_char text = true
    /\ (start = 1%nat
        \/ exists c, nth_error sig_content (start - 1) = Some c /\ keyword_char c = false).
Proof.
  unfold partial_keyword. cbv zeta.
  destruct (0 <? sig_index - 1) eqn:Hpos.
  - apply Z.ltb_lt in Hpos.
    destruct (word_start sig_content (Z.to_nat (sig_index - 1))) as [stop|e] eqn:Hrun;
      [|done].
    cbn [Py.bind]. apply word_start_spec in Hrun as (Hle & Hin & Hstop).
    destruct (Z.of_nat stop =? sig_index - 1) eqn:Hsame; [done|].
    apply Z.eqb_neq in Hsame. intros [= <-].
    set (len := (Z.to_nat sig_index - S stop)%nat).
    destruct (keyword_chars_between sig_content stop len) as [Hl Hf].
    { intros i Hi. apply Hin. lia. }
    destruct (Hin (Z.to_nat (sig_index - 1))) as (c & Hc & _); [lia|].
    assert (Hlast : (Z.to_nat (sig_index - 1) < length sig_content)%nat).
    { apply nth_error_Some. by rewrite Hc. }
    assert (Hslice : slice sig_content (Z.of_nat stop + 1) sig_index
                     = firstn len (skipn (S stop) sig_content)).
    { unfold slice, clamp.
      replace (Z.of_nat stop + 1 <? 0) with false by (symmetry; apply Z.ltb_ge; lia).
      replace (sig_index <? 0) with false by (symmetry; apply Z.ltb_ge; lia).
      f_equal; [|f_equal]; lia. }
    exists (S stop). split; [lia|]. split; [lia|].
    replace (Z.of_nat (S stop)) with (Z.of_nat stop + 1) by lia.
    rewrite Hslice. split; [done|]. split; [lia|]. split; [done|].
    replace (S stop - 1)%nat with stop by lia.
    destruct Hstop as [->|Hstop]; [by left|by right].
  - cbn [Py.bind]. by rewrite Z.eqb_refl.
Qed.

Lemma read_only_serve_autocomplete request self :
  snd (serve_autocomplete line_content_map keywords_list request self) = self.
Proof.
  unfold serve_autocomplete, mbind, workspace_get, gets, deref, lift, ret. cbv zeta.
  repeat (case_match; simplify_eq/=); done.
Qed.

(** X19. [serve_autocomplete] changes nothing. When it offers items, the cursor
    is in a line of a file of the workspace, after a word of one or more
    keyword characters (alphanumeric, dot or underscore) that starts at
    character 1 or later: at character 1 (the first character of the line
    is never part of the word) or after a character that is no keyword
    character. The items are the keywords whose label starts with that
    word, in the order of the keyword list, and there is at least one. *)
Theorem completion_offers_the_keywords_that_start_with_the_word
  (request : Request) (self : LangServer) (items : list Keywords.keyword_item) :
  fst (serve_autocomplete line_content_map keywords_list request self) = Ok (Some items) ->
  snd (serve_autocomplete line_content_map keywords_list request self) = self
  /\ exists l file_obj sig_content (start : nat),
       dict_get (workspace self) (path_from_uri (uri request)) = Some l
       /\ store self !! l = Some file_obj
       /\ line_content_map file_obj (position_line request) = Ok sig_content
       /\ (1 <= start)%nat
       /\ Z.of_nat start < position_character request <= Z.of_nat (length sig_content)
       /\ (start = 1%nat
           \/ exists c, nth_error sig_content (start - 1) = Some c
                        /\ keyword_char c = false)
       /\ let word := slice sig_content (Z.of_nat start) (position_character request) in
          Z.of_nat (length word) = position_character request - Z.of_nat start
          /\ forallb keyword_char word = true
          /\ items = List.filter (fun item => startswith word (Keywords.label item))
                       keywords_list
          /\ items <> [].
Proof.
  intros Hrun. split; [apply read_only_serve_autocomplete|]. revert Hrun.
  unfold serve_autocomplete, mbind, workspace_get, gets, deref, lift, ret. cbv zeta.
  destruct (dict_get (workspace self) (path_from_uri (uri request))) as [l|] eqn:Hl;
    [|done].
  destruct (store self !! l) as [file_obj|] eqn:Hfile; [|done].
  destruct (line_content_map file_obj (position_line request)) as [sig_content|e]
    eqn:Hline; [|done].
  destruct (partial_keyword sig_content (position_character request)) as [[text|]|e]
    eqn:Hword; [|done|done].
  apply partial_keyword_spec in Hword
    as (start & Hstart & Hrange & -> & Hlen & Hchars & Hbefore).
  destruct (0 <? length (List.filter _ keywords_list))%nat eqn:Hsome; [|done].
  cbn [fst]. intros [= <-].
  exists l, file_obj, sig_content, start. split_and!; try done; try lia.
  intros Hnone. rewrite Hnone in Hsome. done.
Qed.

(** *** Changes *)

Context {Change : Type} (sync_type : Z)
        (apply_change : SuricataFile -> Change -> Res bool * SuricataFile).

Lemma apply_change_at_effect (l : loc) (change : Change) (self : LangServer) r self' :
  apply_change_at apply_change l change self = (r, self') -> files_only self self'.
Proof.
  unfold apply_change_at, mbind, deref, update, modify, lift, files_only. cbv zeta.
  destruct (store self !! l) as [file_obj|] eqn:Hfile; simpl; intros [= <- <-]; [|done].
  simpl. split_and!; try done. intros l' Hl'. rewrite lookup_insert_is_Some'. by right.
Qed.

Lemma apply_changes_effect (l : loc) (contentChanges : list Change) (reparse_req : bool)
  (self : LangServer) r self' :
  apply_changes apply_change l contentChanges reparse_req self = (r, self') ->
  files_only self self'.
Proof.
  revert reparse_req self.
  induction contentChanges as [|change rest IH]; intros reparse_req self.
  { intros [= <- <-]. by split_and!. }
  cbn [apply_changes]. unfold mbind.
  destruct (apply_change_at apply_change l change self) as [[reparse_flag|e] self1]
    eqn:Hone; apply apply_change_at_effect in Hone.
  - intros Hrest. apply IH in Hrest.
    destruct Hone as (Hw & Ht & Hc & Hp & Hs), Hrest as (Hw' & Ht' & Hc' & Hp' & Hs').
    split_and!; try congruence. intros l' Hl'. by apply Hs', Hs.
  - by intros [= <- <-].
Qed.

(** The steps after the changes have been applied (lines 865-870). *)
Lemma reparse_effect (path : str) (self0 self : LangServer) :
  well_formed self0 ->
  files_only self0 self ->
  forall reparse_req : bool,
  exists self',
    (if reparse_req then
       mbind (update_workspace_file path false false true)
         (fun result =>
            match snd result with
            | Some err_str => post_message (change_failed path err_str) 1
            | None => ret tt
            end)
     else ret tt) self = (Ok tt, self')
    /\ keeps_workspace self0 self'
    /\ well_formed self'
    /\ obj_tree self' = obj_tree self0
    /\ post_messages self' = post_messages self0
    /\ (conn self' = conn self0 \/ exists m, conn self' = conn self0 ++ [m]).
Proof.
  intros Hwf (Hw & Ht & Hc & Hp & Hs) reparse_req.
  assert (Hwf1 : well_formed self).
  { intros p l Hpl. rewrite Hw in Hpl. by eapply Hs, Hwf. }
  destruct reparse_req.
  - destruct (update_workspace_file_effect path false false true self)
      as (changed & err_str & self1 & Hrun & Htree & Hconn & Hposts & Hstore & Hws & _).
    assert (Hkeeps : keeps_workspace self0 self1).
    { intros p l Hpl. rewrite <- Hw in Hpl.
      destruct Hws as [->|(Hnew & l' & -> & _)]; [done|]. by apply keeps_workspace_set. }
    assert (Hwf2 : well_formed self1).
    { intros p l Hpl. destruct Hws as [Hsame|(Hnew & l' & Hset & Hl')].
      - rewrite Hsame in Hpl. by eapply Hstore, Hwf1.
      - rewrite Hset in Hpl. destruct (decide (path = p)) as [<-|Hne].
        + rewrite dict_get_set_eq in Hpl. by simplify_eq.
        + rewrite dict_get_set_ne in Hpl by done. by eapply Hstore, Hwf1. }
    unfold mbind. rewrite Hrun. cbn [snd].
    destruct err_str as [err|]; eexists; (split; [reflexivity|]); simpl;
      split_and!; try done; try congruence.
    + right. rewrite Hconn, Hc. by eexists.
    + left. congruence.
  - exists self. split; [done|]. split_and!; try done.
    + intros p l Hpl. by rewrite Hw.
    + by left.
Qed.

(** X21. A change to a document never takes a path out of the workspace or
    gives it another object, and leaves the Global Symbol Table and the
    queued messages alone; it writes at most one message to the connection.
    For a document the workspace does not hold, the message that says so is
    all it does. With incremental changes ([sync_type] other than 1) it
    does not raise, whatever [apply_change] does; with full changes it
    raises [IndexError] when the request brings no change. *)
Theorem a_change_keeps_the_workspace
  (request : Request) (contentChanges : list Change) (self : LangServer) :
  well_formed self ->
  let path := path_from_uri (uri request) in
  let run := serve_onChange sync_type apply_change request contentChanges self in
  keeps_workspace self (snd run)
  /\ well_formed (snd run)
  /\ obj_tree (snd run) = obj_tree self
  /\ post_messages (snd run) = post_messages self
  /\ (conn (snd run) = conn self \/ exists m, conn (snd run) = conn self ++ [m])
  /\ (dict_get (workspace self) path = None ->
      run = (Ok tt,
             set_conn self (conn self ++ [ShowMessage 1 (unknown_file_changed path)])))
  /\ (sync_type <> 1 -> fst run = Ok tt)
  /\ (sync_type = 1 -> contentChanges = [] -> dict_get (workspace self) path <> None ->
      run = (Raise IndexError, self)).
Proof.
  intros Hwf path run. subst run.
  destruct (serve_onChange sync_type apply_change request contentChanges self)
    as [r self'] eqn:Hrun.
  cbn [fst snd]. revert Hrun. unfold serve_onChange. fold path.
  unfold mbind at 1, workspace_get, gets.
  destruct (dict_get (workspace self) path) as [l|] eqn:Hpath.
  2:{ unfold post_message, modify. intros [= <- <-]. simpl. split_and!; try done.
      - by intros p l Hpl.
      - right. by eexists. }
  assert (Hfail : forall self1,
            files_only self self1 ->
            keeps_workspace self self1 /\ well_formed self1
            /\ obj_tree self1 = obj_tree self /\ post_messages self1 = post_messages self
            /\ (conn self1 = conn self \/ exists m, conn self1 = conn self ++ [m])).
  { intros self1 (Hw & Ht & Hc & Hp & Hs). split_and!; try done.
    - intros p l' Hpl. by rewrite Hw.
    - intros p l' Hpl. rewrite Hw in Hpl. by eapply Hs, Hwf.
    - by left. }
  destruct (sync_type =? 1) eqn:Hsync.
  - apply Z.eqb_eq in Hsync.
    destruct contentChanges as [|first rest].
    { unfold mbind, lift, index. simpl. intros [= <- <-].
      destruct (Hfail self) as (? & ? & ? & ? & ?); [by split_and!|].
      split_and!; try done. }
    replace (lift (index (first :: rest) 0)) with (ret (A := Change) first) by reflexivity.
    unfold mbind at 1. unfold mbind at 1. unfold ret at 1. unfold mbind at 1.
    destruct (apply_change_at apply_change l first self) as [[reparse_flag|e] self1]
      eqn:Hone; apply apply_change_at_effect in Hone.
    + unfold ret at 1.
      destruct (reparse_effect path self self1 Hwf Hone true) as (self2 & Hrun & Hfacts).
      rewrite Hrun. intros [= <- <-]. destruct Hfacts as (? & ? & ? & ? & ?).
      split_and!; try done.
    + intros [= <- <-]. destruct (Hfail self1 Hone) as (? & ? & ? & ? & ?).
      split_and!; try done.
  - apply Z.eqb_neq in Hsync. unfold try_except. unfold mbind at 1. unfold mbind at 1.
    destruct (apply_changes apply_change l contentChanges false self)
      as [[reparse_req|e] self1] eqn:Hall; apply apply_changes_effect in Hall.
    + unfold ret at 1.
      destruct (reparse_effect path self self1 Hwf Hall reparse_req)
        as (self2 & Hrun & Hfacts).
      rewrite Hrun. intros [= <- <-]. destruct Hfacts as (? & ? & ? & ? & ?).
      split_and!; try done.
    + destruct (Hfail self1 Hall) as (Hkeeps & Hwf1 & Ht1 & Hp1 & _).
      destruct Hall as (_ & _ & Hc & _).
      unfold mbind, post_message, modify, ret. intros [= <- <-].
      split_and!; [exact Hkeeps|exact Hwf1|exact Ht1|exact Hp1| |done|done|done].
      right. simpl. rewrite Hc. by eexists.
Qed.
End HandlerFacts.


(* ===================================================================== *)
(** * The further properties at work                                      *)
(* ===================================================================== *)
Section MoreRuns.
Import Py Rules LS Requests Scenario Session.
Existing Instance ast_layer.
Existing Instance file_layer.
Existing Instance library.

Lemma well_formed_indexed : well_formed indexed.
Proof.
  intros p l. unfold indexed. cbn [workspace store dict_get].
  repeat case_match; intros [= <-]; by eexists.
Qed.

Lemma fresh_workers_return p :
  In p (rule_files fresh) -> exists r, init_file p = Ok r.
Proof.
  intros Hin. vm_compute in Hin.
  destruct Hin as [<-|[<-|[<-|[]]]]; eexists; reflexivity.
Qed.

(** An error and a variable that is not defined: both records name the
    syntax check. *)
Lemma syntax_check_source_witness :
  exists r,
    parse_suricata_error (stream [dumps bad_rule; dumps undefined_variable]) false = Ok r
    /\ Forall Stream.from_syntax_check (errors r)
    /\ Forall Stream.from_syntax_check (warnings r).
Proof.
  eexists. split; [vm_compute; reflexivity|].
  apply (every_record_names_the_syntax_check
           (stream [dumps bad_rule; dumps undefined_variable]) false).
  vm_compute. reflexivity.
Defined.

(** Rule files that hold no rule: error code 40. *)
Lemma no_rules_witness :
  body false [] no_rules one_error = Ok one_error.
Proof.
  assert (Hcode : Stream.has_error_code no_rules (JInt 40))
    by (do 2 eexists; split_and!; reflexivity).
  exact (proj1 (records_that_add_no_error false [] no_rules (JInt 40) one_error Hcode)
           eq_refl).
Defined.

(** The data set [list.lst] is not there. *)
Lemma missing_dataset_witness :
  exists w,
    body false [] missing_list init_locals
    = Ok (set_ignore_next (add_warning init_locals w) true)
    /\ message_of w = Some (JStr (dataset_message "list.lst")).
Proof.
  apply (proj1 (missing_dataset_hides_the_next_error false [] missing_list init_locals)
           "list.lst").
  - do 3 eexists. split_and!; reflexivity.
  - intros Hin. by repeat (apply elem_of_cons in Hin as [Hin|Hin]; [discriminate|]);
      apply elem_of_nil in Hin.
Defined.

(** A signature that does not parse at line 1, after an error: the error
    gets the line 0. *)
Lemma signature_line_witness :
  exists st',
    body false [] rule_with_variable one_error = Ok st'
    /\ errors (Rules.ret st')
       = [] ++ [JDict (dict_set [("message" : str, JStr "invalid rule");
                                 ("source" : str, JStr SURICATA_SYNTAX_CHECK)]
                         "line" (JInt (int_of_digits "1" - 1)))]
    /\ warnings (Rules.ret st') = warnings (Rules.ret one_error)
    /\ variable_list st' = variable_list one_error
    /\ files_list st' = files_list one_error
    /\ ignore_next st' = false.
Proof.
  apply (proj2 (signature_error_gives_its_line_to_the_last_error
                  [] rule_with_variable one_error
                  ("error parsing signature "
                   ++ quoted "alert ip $HOME any -> any any (sid:1;)"
                   ++ " from file /tmp/file.rules at line 1")
                  "1"
                  ltac:(do 3 eexists; split_and!; reflexivity)
                  eq_refl eq_refl eq_refl eq_refl eq_refl)).
  reflexivity.
Defined.

(** The analysis of one rule: a signature with its [sid] and content. *)
Lemma analysed_signature_witness :
  EngineAnalysis.parse_engine_analysis_v1 analysis_file = Ok [analysed]
  /\ Forall EngineAnalysis.complete [analysed]
  /\ (length [analysed] <= length (EngineAnalysis.headers analysis_file))%nat.
Proof.
  split; [reflexivity|].
  apply (analysed_signatures_are_complete analysis_file). reflexivity.
Defined.

(** Its warning and its note can be made. *)
Lemma usable_analysis_witness :
  exists found, RuleBuffer.analysis_entries [analysed] [] [] = Ok found.
Proof.
  apply (analysis_of_the_first_reader_is_usable analysis_file). reflexivity.
Defined.

(** The note on the fast pattern [defg] spans characters 53 to 57 of the
    rule. *)
Lemma fast_pattern_witness :
  exists e,
    RuleBuffer.info_entry analysed pattern_note = Ok (Some e)
    /\ exists text first last,
         EngineAnalysis.content analysed = Some text
         /\ RuleBuffer.content e = Some text /\ RuleBuffer.message e = pattern_note
         /\ RuleBuffer.start_char e = Some first /\ RuleBuffer.end_char e = Some last
         /\ ((first = 0 /\ last = 1)
             \/ exists pattern,
                  index (split [dq] pattern_note) 1 = Ok pattern
                  /\ first = find pattern text
                  /\ 0 <= first
                  /\ last = first + Z.of_nat (length pattern)
                  /\ slice text first last = pattern).
Proof.
  eexists. split; [vm_compute; reflexivity|].
  apply (fast_pattern_note_spans_the_pattern analysed pattern_note).
  vm_compute. reflexivity.
Defined.

(** The check of a buffer whose test run fails. *)
Lemma checked_buffer_witness :
  exists r,
    @RuleBuffer.check_rule_buffer checker_library test_run [analysed] false = Ok r
    /\ Forall RuleBuffer.sourced_warning (RuleBuffer.warnings r)
    /\ Forall RuleBuffer.ranged_note (RuleBuffer.info r)
    /\ RuleBuffer.checked_errors (RuleBuffer.errors r)
    /\ RuleBuffer.status r = (RuleBuffer.returncode test_run =? 0)
    /\ (RuleBuffer.returncode test_run = 0 -> RuleBuffer.errors r = RuleBuffer.Raw []).
Proof.
  eexists. split; [vm_compute; reflexivity|].
  apply (@checked_buffer_holds_sourced_entries checker_library test_run [analysed] false).
  vm_compute. reflexivity.
Defined.

(** The references of the [foo] under the cursor in [b.rules]. *)
Lemma references_request_witness :
  fst (serve_references (request_at "file://b.rules" 1 3) indexed) = Raise NameError.
Proof.
  exact (proj2 (proj2 (a_references_request_raises_in_the_workspace
                         (request_at "file://b.rules" 1 3) indexed))
           1%nat file_b eq_refl eq_refl).
Defined.

(** [a.rules] read again: the workspace still names files that have their
    object. *)
Lemma update_witness :
  well_formed (snd (update_workspace_file "a.rules" true false false indexed)).
Proof.
  pose proof (an_update_reports_and_keeps_the_workspace "a.rules" true false false indexed)
    as (_ & _ & _ & Hwf & _).
  exact (Hwf well_formed_indexed).
Defined.

(** [a.rules] saved. *)
Lemma save_witness :
  let run := serve_onSave (request_at "file://a.rules" 0 0) false false indexed in
  fst run = Ok tt
  /\ keeps_workspace indexed (snd run)
  /\ well_formed (snd run)
  /\ post_messages (snd run) = post_messages indexed
  /\ (conn (snd run) = conn indexed \/ exists m, conn (snd run) = conn indexed ++ [m])
  /\ (false = false \/ isfile (path_from_uri (uri (request_at "file://a.rules" 0 0))) = true ->
      obj_tree (snd run) = obj_tree indexed).
Proof.
  exact (a_save_keeps_the_workspace (request_at "file://a.rules" 0 0) false false indexed
           well_formed_indexed).
Defined.

(** [c.rules] cannot be read: the client is told once the queue is
    flushed. *)
Lemma shown_message_witness :
  In (ShowMessage 1 (init_failed "c.rules" "Could not read/decode file"))
    (conn (snd (post_queued_messages (snd (workspace_init fresh))))).
Proof.
  pose proof (queued_messages_are_shown_in_order fresh) as Hflush.
  cbv zeta in Hflush. destruct Hflush as (_ & _ & _ & _ & _ & _ & Hshown).
  apply (Hshown fresh_workers_return).
  - vm_compute. right. right. by left.
  - reflexivity.
Defined.

(** [notes.txt] is no rule file: it does not enter the workspace. *)
Lemma not_indexed_witness :
  dict_get (workspace (snd (workspace_init fresh))) "notes.txt"
  = dict_get (workspace fresh) "notes.txt".
Proof.
  apply (proj2 (only_rule_files_are_indexed fresh) fresh_workers_return).
  intros Hin. vm_compute in Hin. by destruct Hin as [|[|[|[]]]].
Defined.

(** The [cont] typed at the end of the rule: [content] is offered. *)
Lemma completion_witness :
  let request := request_at "file://local.rules" 0 40 in
  exists items,
    fst (serve_autocomplete line_content_map keywords_list request editing)
    = Ok (Some items)
    /\ map Keywords.label items = [("content" : str)]
    /\ exists l file_obj sig_content (start : nat),
         dict_get (workspace editing) (path_from_uri (uri request)) = Some l
         /\ store editing !! l = Some file_obj
         /\ line_content_map file_obj (position_line request) = Ok sig_content
         /\ (1 <= start)%nat
         /\ Z.of_nat start < position_character request <= Z.of_nat (length sig_content)
         /\ (start = 1%nat
             \/ exists c, nth_error sig_content (start - 1) = Some c
                          /\ keyword_char c = false)
         /\ let word := slice sig_content (Z.of_nat start) (position_character request) in
            Z.of_nat (length word) = position_character request - Z.of_nat start
            /\ forallb keyword_char word = true
            /\ items = List.filter (fun item => startswith word (Keywords.label item))
                         keywords_list
            /\ items <> [].
Proof.
  intros request. eexists. split; [reflexivity|]. split; [reflexivity|].
  apply (proj2 (completion_offers_the_keywords_that_start_with_the_word
                  line_content_map keywords_list request editing _ eq_refl)).
Defined.

(** The text of [a.rules] replaced, with incremental changes. *)
Lemma change_witness :
  let request := request_at "file://a.rules" 0 0 in
  let path := path_from_uri (uri request) in
  let run := serve_onChange 2 replace_text request [[("type T" : str)]] indexed in
  keeps_workspace indexed (snd run)
  /\ well_formed (snd run)
  /\ obj_tree (snd run) = obj_tree indexed
  /\ post_messages (snd run) = post_messages indexed
  /\ (conn (snd run) = conn indexed \/ exists m, conn (snd run) = conn indexed ++ [m])
  /\ (dict_get (workspace indexed) path = None ->
      run = (Ok tt,
             set_conn indexed
               (conn indexed ++ [ShowMessage 1 (unknown_file_changed path)])))
  /\ (2 <> 1 -> fst run = Ok tt)
  /\ (2 = 1 -> [[("type T" : str)]] = [] -> dict_get (workspace indexed) path <> None ->
      run = (Raise IndexError, indexed)).
Proof.
  exact (a_change_keeps_the_workspace 2 replace_text (request_at "file://a.rules" 0 0)
           [[("type T" : str)]] indexed well_formed_indexed).
Defined.

End MoreRuns.
